(** * AdvisorIQ frontend (app.js): a shallow embedding and its properties

    The development follows [src/wfsfintech/app.js].  The program is a
    browser script: it keeps a bearer token in [localStorage], calls a JSON
    backend through [fetchAPI], derives card and metric texts from the
    decoded JSON and writes them into DOM elements.

    - JavaScript numbers are IEEE-754 binary64 values, modelled with the
      Standard Library's executable specification [SpecFloat] at precision
      53 and maximal exponent 1024 (round to nearest, ties to even).
    - Decoded JSON is the inductive type [value]; the platform operations
      the script relies on (ToNumber, ToString, ToBoolean, property access,
      [toFixed], [Array.prototype.sort], ...) are written out after
      ECMA-262.
    - Strings are byte strings holding the UTF-8 encoding of the text.
    - Exceptions are explicit: fallible code returns [result]. *)

From Stdlib Require Import ZArith QArith Qround Qabs Qpower Lia Bool List Ascii String.
From Stdlib Require Import DecimalString DecimalN DecimalPos.
From Stdlib Require Import Floats.SpecFloat.
From Stdlib Require Import Sorting.Sorted.
From stdpp Require Import base option list strings gmap.

Local Open Scope Z_scope.

(** ** Numbers *)

Module Num.

Definition prec : Z := 53.
Definition emax : Z := 1024.

Abbreviation float := spec_float.

Definition NaN : float := S754_nan.
Definition pInf : float := S754_infinity false.
Definition nInf : float := S754_infinity true.
Definition pzero : float := S754_zero false.

Definition add : float -> float -> float := SFadd prec emax.
Definition sub : float -> float -> float := SFsub prec emax.
Definition mul : float -> float -> float := SFmul prec emax.
Definition div : float -> float -> float := SFdiv prec emax.
Definition abs : float -> float := SFabs.

(** The four relational operators on numbers; every comparison with NaN
    is false. *)
Definition lt (x y : float) : bool := SFltb x y.
Definition le (x y : float) : bool := SFleb x y.
Definition gt (x y : float) : bool := SFltb y x.
Definition ge (x y : float) : bool := SFleb y x.

(** [Number.isFinite] on a number. *)
Definition isFinite (x : float) : bool :=
  match x with
  | S754_zero _ | S754_finite _ _ _ => true
  | S754_infinity _ | S754_nan => false
  end.

Definition isNaN (x : float) : bool :=
  match x with S754_nan => true | _ => false end.

(** The number nearest to the integer [n]. *)
Definition of_Z (n : Z) : float := binary_normalize prec emax n 0 false.
Definition of_nat (n : nat) : float := of_Z (Z.of_nat n).

(** The number nearest to [m * 10^e]: the value of a decimal literal, in
    source text and in JSON alike.  A non-negative exponent gives an
    integer, rounded once; a negative one is a correctly rounded
    quotient of two integers. *)
Definition of_decimal (neg : bool) (m : Z) (e : Z) : float :=
  match m with
  | Zpos p =>
      if 0 <=? e then binary_normalize prec emax (cond_Zopp neg (m * 10 ^ e)) 0 neg
      else SFdiv prec emax (S754_finite neg p 0)
                 (S754_finite false (Z.to_pos (10 ^ (- e))) 0)
  | _ => S754_zero neg
  end.

(** Literals of the program. *)
Definition c_1_1 : float := of_decimal false 11 (-1).
Definition c_1_3 : float := of_decimal false 13 (-1).
Definition c_0_01 : float := of_decimal false 1 (-2).
Definition c_100 : float := of_Z 100.

(** *** Decimal output *)

(** The exact value of a finite number. *)
Definition to_Q (x : float) : Q :=
  match x with
  | S754_finite s m e => inject_Z (cond_Zopp s (Zpos m)) * Qpower (inject_Z 2) e
  | _ => 0
  end%Q.

Definition pow10 (n : Z) : Q := Qpower (inject_Z 10) n.

(** The decimal digits of a natural number, without leading zeros. *)
Definition digits (n : N) : string := NilZero.string_of_uint (N.to_uint n).

Definition zeros (n : nat) : string := string_of_list_ascii (repeat "0"%char n).

(** Steps 10.b-10.c of [Number.prototype.toFixed]: the digits of [n]
    with a point before the last [f] of them. *)
Definition fixed_point (n : N) (f : nat) : string :=
  let m := digits n in
  match f with
  | O => m
  | S _ =>
      let m := zeros (S f - String.length m)%nat +:+ m in
      let k := String.length m in
      substring 0 (k - f)%nat m +:+ "." +:+ substring (k - f)%nat f m
  end.

(** The integer [n] for which [n / 10^f - x] is closest to zero, the
    larger one of two. *)
Definition round_half_up (x : Q) (f : nat) : N :=
  Z.to_N (Qfloor (x * pow10 (Z.of_nat f) + (1 # 2))%Q).

(** The [n] with [10^(n-1) <= x < 10^n], for a finite [x > 0]. *)
Definition decimal_exponent (x : float) : Z :=
  match x with
  | S754_finite _ m e =>
      let b := Zpos (digits2_pos m) + e in
      let est := ((b - 1) * 30103) / 100000 in
      let q := to_Q (SFabs x) in
      match List.filter (fun n => Qle_bool (pow10 n) q) [est + 3; est + 2; est + 1; est; est - 1] with
      | n :: _ => n + 1
      | [] => est - 1
      end
  | _ => 0
  end.

(** The candidates [(k, n, s)] with [k] digits whose value
    [s * 10^(n-k)] reads back as [x]. *)
Definition candidates (x : float) (k : Z) : list (Z * Z) :=
  let q := to_Q x in
  let n0 := decimal_exponent x in
  List.filter (fun '(n, s) =>
            (10 ^ (k - 1) <=? s) && (s <? 10 ^ k) &&
            match SFcompare (of_decimal false s (n - k)) x with
            | Some Eq => true
            | _ => false
            end)
         (flat_map (fun n => let f := Qfloor (q * pow10 (k - n))%Q in [(n, f); (n, f + 1)])
                   [n0; n0 + 1]).

(** Among candidates of one length the one nearest to [x] is taken,
    and of two equally near ones the even one. *)
Definition better (x : float) (k : Z) (a b : Z * Z) : Z * Z :=
  let q := to_Q x in
  let dist := fun '(n, s) => Qabs (inject_Z s * pow10 (n - k) - q)%Q in
  match Qcompare (dist b) (dist a) with
  | Lt => b
  | Eq => if Z.even (snd b) then b else a
  | Gt => a
  end.

Fixpoint shortest (x : float) (fuel : nat) (k : Z) : Z * Z * Z :=
  match candidates x k with
  | c :: cs => let '(n, s) := fold_left (better x k) cs c in (n, k, s)
  | [] =>
      match fuel with
      | O => (0, k, 0)
      | S fuel => shortest x fuel (k + 1)
      end
  end.

(** [Number::toString] in radix 10. *)
Definition toString_pos (x : float) : string :=
  let '(n, k, s) := shortest x 17 1 in
  let ds := digits (Z.to_N s) in
  let kn := Z.to_nat k in
  if (k <=? n) && (n <=? 21) then ds +:+ zeros (Z.to_nat (n - k))
  else if (0 <? n) && (n <=? 21) then
    substring 0 (Z.to_nat n) ds +:+ "." +:+ substring (Z.to_nat n) (kn - Z.to_nat n)%nat ds
  else if (-6 <? n) && (n <=? 0) then "0." +:+ zeros (Z.to_nat (- n)) +:+ ds
  else
    let e := (if 0 <=? n - 1 then "+" else "-") +:+ digits (Z.to_N (Z.abs (n - 1))) in
    if k =? 1 then ds +:+ "e" +:+ e
    else substring 0 1 ds +:+ "." +:+ substring 1 (kn - 1)%nat ds +:+ "e" +:+ e.

Definition toString (x : float) : string :=
  match x with
  | S754_nan => "NaN"
  | S754_zero _ => "0"
  | S754_infinity false => "Infinity"
  | S754_infinity true => "-Infinity"
  | S754_finite false _ _ => toString_pos x
  | S754_finite true _ _ => "-" +:+ toString_pos (SFabs x)
  end.

(** [Number.prototype.toFixed(f)] for [0 <= f <= 100]. *)
Definition toFixed (x : float) (f : nat) : string :=
  match x with
  | S754_nan | S754_infinity _ => toString x
  | S754_zero _ => fixed_point 0 f
  | S754_finite s _ _ =>
      let q := to_Q (SFabs x) in
      (if s then "-" else "") +:+
      (if Qle_bool (pow10 21) q then toString (SFabs x)
       else fixed_point (round_half_up q f) f)
  end.

(** *** Notions used to state the properties of the arithmetic *)

(** A number of binary64: its mantissa and exponent are those of the
    format. *)
Definition valid (x : float) : bool := valid_binary prec emax x.

(** A non-zero result of sign [s] whose exponent is not below [emin]. *)
Inductive signed (s : bool) : float -> Prop :=
| signed_finite m e : emin prec emax <= e -> signed s (S754_finite s m e)
| signed_infinity : signed s (S754_infinity s).

(** The exponent of a finite number is not below [emin]. *)
Definition exp_ok (x : float) : Prop :=
  match x with
  | S754_finite _ _ e => emin prec emax <= e
  | _ => True
  end.

(** Not NaN and not negative, [-0] apart. *)
Definition nonneg (x : float) : Prop :=
  match x with
  | S754_zero false | S754_infinity false | S754_finite false _ _ => True
  | _ => False
  end.

(** The order of [SFcompare] seen through a key in [Z * Z * Z], compared
    lexicographically. *)
Definition key (x : float) : Z * Z * Z :=
  match x with
  | S754_infinity true => (-2, 0, 0)
  | S754_finite true m e => (-1, - e, - Zpos m)
  | S754_zero _ => (0, 0, 0)
  | S754_finite false m e => (1, e, Zpos m)
  | S754_infinity false => (2, 0, 0)
  | S754_nan => (3, 0, 0)
  end.

Definition key_le (j k : Z * Z * Z) : Prop :=
  let '(a, b, c) := j in
  let '(a', b', c') := k in
  a < a' \/ (a = a' /\ (b < b' \/ (b = b' /\ c <= c'))).

End Num.

(** ** Values, exceptions and the platform operations *)

Module JS.

Import Num.

(** A decoded JSON document.  An object is the list of its own
    properties in enumeration order, with distinct keys; [VUndefined] is
    what reading an absent property gives. *)
#[warnings="-register-all"]
Inductive value :=
| VUndefined
| VNull
| VBool (b : bool)
| VNum (x : float)
| VStr (s : string)
| VArr (items : list value)
| VObj (fields : list (string * value)).

(** What a [throw] carries.  [Error m] is [new Error(m)] of the script;
    [TypeError] is raised by the engine (reading a property of [null] or
    [undefined], calling what is not a function) with an engine-specific
    message; [SyntaxError] is [res.json()] on a malformed body;
    [NetworkError] is the rejection of [fetch] when no response came. *)
Inductive exn :=
| Error (message : string)
| TypeError
| SyntaxError
| NetworkError.

Inductive result (A : Type) :=
| Ok (a : A)
| Throw (e : exn).
Arguments Ok {A} a.
Arguments Throw {A} e.

Definition bind {A B} (r : result A) (k : A -> result B) : result B :=
  match r with
  | Ok a => k a
  | Throw e => Throw e
  end.

#[export] Instance result_bind : MBind result := fun A B k r => bind r k.
#[export] Instance result_ret : MRet result := @Ok.

(** [l.map(f)] when [f] may throw: the first exception ends the loop. *)
Fixpoint mapM {A B} (f : A -> result B) (l : list A) : result (list B) :=
  match l with
  | [] => Ok []
  | x :: l => y ← f x; ys ← mapM f l; Ok (y :: ys)
  end.

(** [l.filter(p)] when [p] may throw. *)
Fixpoint filterM {A} (p : A -> result bool) (l : list A) : result (list A) :=
  match l with
  | [] => Ok []
  | x :: l => b ← p x; ys ← filterM p l; Ok (if b : bool then x :: ys else ys)
  end.

(** [l.reduce(f, init)] when [f] may throw. *)
Fixpoint foldM {A B} (f : B -> A -> result B) (l : list A) (init : B) : result B :=
  match l with
  | [] => Ok init
  | x :: l => acc ← f init x; foldM f l acc
  end.

Definition typeof_number (v : value) : bool :=
  match v with VNum _ => true | _ => false end.

(** [v === "lit"] *)
Definition strict_eq_str (v : value) (lit : string) : bool :=
  match v with VStr s => bool_decide (s = lit) | _ => false end.

Definition ToBoolean (v : value) : bool :=
  match v with
  | VUndefined | VNull => false
  | VBool b => b
  | VNum x => negb (match x with S754_zero _ | S754_nan => true | _ => false end)
  | VStr s => negb (bool_decide (s = ""))
  | VArr _ | VObj _ => true
  end.

(** [a || b] *)
Definition or_else (a b : value) : value := if ToBoolean a then a else b.

Fixpoint assoc (k : string) (fs : list (string * value)) : value :=
  match fs with
  | [] => VUndefined
  | (k', v) :: fs => if bool_decide (k' = k) then v else assoc k fs
  end.

(** A surrogate code unit [u], in the three bytes that write it. *)
Definition surrogate (u : Z) : string :=
  let byte := fun n => ascii_of_N (Z.to_N n) in
  String (byte (Z.lor 224 (Z.shiftr u 12)))
    (String (byte (Z.lor 128 (Z.land (Z.shiftr u 6) 63)))
       (String (byte (Z.lor 128 (Z.land u 63))) "")).

(** The UTF-16 code units of a string, each as a string of its own.  The
    strings of this development hold text in UTF-8: a character of one, two
    or three bytes is one code unit, a character of four bytes is a pair of
    surrogates.  A byte that begins no character is taken alone. *)
Fixpoint code_units (l : list ascii) : list string :=
  match l with
  | [] => []
  | b :: l1 =>
      let n := Z.of_N (N_of_ascii b) in
      let alone := String b "" :: code_units l1 in
      match l1 with
      | c1 :: l2 =>
          if (192 <=? n) && (n <? 224) then String b (String c1 "") :: code_units l2
          else
            match l2 with
            | c2 :: l3 =>
                if (224 <=? n) && (n <? 240)
                then String b (String c1 (String c2 "")) :: code_units l3
                else
                  match l3 with
                  | c3 :: l4 =>
                      if (240 <=? n) && (n <? 248) then
                        let low := fun c => Z.land (Z.of_N (N_of_ascii c)) 63 in
                        let cp := Z.lor (Z.shiftl (Z.land n 7) 18)
                                    (Z.lor (Z.shiftl (low c1) 12)
                                       (Z.lor (Z.shiftl (low c2) 6) (low c3))) in
                        let v := cp - 65536 in
                        surrogate (55296 + Z.shiftr v 10) ::
                        surrogate (56320 + Z.land v 1023) :: code_units l4
                      else alone
                  | [] => alone
                  end
            | [] => alone
            end
      | [] => alone
      end
  end.

(** [v.k] for the property names the script reads; none of them is
    found on a prototype, so only own properties and [length] count.  The
    length of a string is the number of its code units. *)
Definition Get (v : value) (k : string) : result value :=
  match v with
  | VUndefined | VNull => Throw TypeError
  | VObj fs => Ok (assoc k fs)
  | VArr l => Ok (if bool_decide (k = "length") then VNum (of_nat (length l)) else VUndefined)
  | VStr s =>
      Ok (if bool_decide (k = "length")
          then VNum (of_nat (length (code_units (list_ascii_of_string s))))
          else VUndefined)
  | VBool _ | VNum _ => Ok VUndefined
  end.

(** [v.toFixed(f)]: only numbers have the method. *)
Definition call_toFixed (v : value) (f : nat) : result string :=
  match v with
  | VUndefined | VNull => Throw TypeError
  | VNum x => Ok (toFixed x f)
  | _ => Throw TypeError
  end.

(** *** StringToNumber *)

(** The UTF-8 encodings of WhiteSpace and LineTerminator. *)
Definition white_space : list (list ascii) :=
  map (map ascii_of_nat)
    [ [9]; [10]; [11]; [12]; [13]; [32]; [194; 160]; [225; 154; 128];
      [226; 128; 128]; [226; 128; 129]; [226; 128; 130]; [226; 128; 131];
      [226; 128; 132]; [226; 128; 133]; [226; 128; 134]; [226; 128; 135];
      [226; 128; 136]; [226; 128; 137]; [226; 128; 138]; [226; 128; 168];
      [226; 128; 169]; [226; 128; 175]; [226; 129; 159]; [227; 128; 128];
      [239; 187; 191] ]%nat.

Fixpoint strip_prefix (p l : list ascii) : option (list ascii) :=
  match p, l with
  | [], _ => Some l
  | a :: p, b :: l => if bool_decide (a = b) then strip_prefix p l else None
  | _ :: _, [] => None
  end.

Definition strip_one (pats : list (list ascii)) (l : list ascii) : option (list ascii) :=
  match omap (fun p => strip_prefix p l) pats with
  | r :: _ => Some r
  | [] => None
  end.

Fixpoint strip_many (fuel : nat) (pats : list (list ascii)) (l : list ascii) : list ascii :=
  match fuel with
  | O => l
  | S fuel =>
      match strip_one pats l with
      | Some l' => strip_many fuel pats l'
      | None => l
      end
  end.

Definition trim (l : list ascii) : list ascii :=
  let l := strip_many (length l) white_space l in
  rev (strip_many (length l) (map (@rev ascii) white_space) (rev l)).

Definition digit_of (base : Z) (c : ascii) : option Z :=
  let n := Z.of_nat (nat_of_ascii c) in
  let d := if (48 <=? n) && (n <=? 57) then n - 48
           else if (97 <=? n) && (n <=? 102) then n - 87
           else if (65 <=? n) && (n <=? 70) then n - 55
           else base in
  if d <? base then Some d else None.

(** The longest run of digits at the front: its value, its length and
    the rest. *)
Fixpoint read_digits (base : Z) (acc : Z) (len : Z) (l : list ascii) : Z * Z * list ascii :=
  match l with
  | c :: l' =>
      match digit_of base c with
      | Some d => read_digits base (acc * base + d) (len + 1) l'
      | None => (acc, len, l)
      end
  | [] => (acc, len, l)
  end.

Definition read_sign (l : list ascii) : bool * list ascii :=
  match l with
  | "+"%char :: l' => (false, l')
  | "-"%char :: l' => (true, l')
  | _ => (false, l)
  end.

(** [e] or [E], an optional sign and digits; [None] when the text is
    not an exponent part. *)
Definition read_exponent (l : list ascii) : option Z :=
  match l with
  | [] => Some 0
  | c :: l' =>
      if bool_decide (c = "e"%char) || bool_decide (c = "E"%char) then
        let '(neg, l'') := read_sign l' in
        match read_digits 10 0 0 l'' with
        | (n, len, []) => if 0 <? len then Some (cond_Zopp neg n) else None
        | _ => None
        end
      else None
  end.

Definition unsigned_decimal (neg : bool) (l : list ascii) : float :=
  if bool_decide (l = list_ascii_of_string "Infinity") then S754_infinity neg
  else
    let '(ip, ilen, l1) := read_digits 10 0 0 l in
    let '(fp, flen, l2) :=
      match l1 with
      | "."%char :: l1' => read_digits 10 ip 0 l1'
      | _ => (ip, 0, l1)
      end in
    if (ilen + flen =? 0) then NaN
    else match read_exponent l2 with
         | Some e => of_decimal neg fp (e - flen)
         | None => NaN
         end.

Definition radix_literal (base : Z) (l : list ascii) : float :=
  match read_digits base 0 0 l with
  | (n, len, []) => if 0 <? len then of_Z n else NaN
  | _ => NaN
  end.

Definition StringToNumber (s : string) : float :=
  match trim (list_ascii_of_string s) with
  | [] => pzero
  | "0"%char :: "x"%char :: l | "0"%char :: "X"%char :: l => radix_literal 16 l
  | "0"%char :: "o"%char :: l | "0"%char :: "O"%char :: l => radix_literal 8 l
  | "0"%char :: "b"%char :: l | "0"%char :: "B"%char :: l => radix_literal 2 l
  | l => let '(neg, l') := read_sign l in unsigned_decimal neg l'
  end.

(** *** ToString, ToNumber *)

(** An object has a property of its own under the name [k]. *)
Definition has_own (k : string) (fs : list (string * value)) : bool :=
  existsb (fun kv => bool_decide (kv.1 = k)) fs.

(** ToString.  An array joins the strings of its elements; an object
    gives ["[object Object]"] through the method it inherits, unless a
    property of its own named [toString] shadows the method: such a
    property of a JSON object is not callable and the conversion raises a
    TypeError. *)
Fixpoint ToString (v : value) : result string :=
  match v with
  | VUndefined => Ok "undefined"
  | VNull => Ok "null"
  | VBool true => Ok "true"
  | VBool false => Ok "false"
  | VNum x => Ok (toString x)
  | VStr s => Ok s
  | VArr l =>
      let elem := fun x => match x with VUndefined | VNull => Ok "" | _ => ToString x end in
      (fix join (l : list value) : result string :=
         match l with
         | [] => Ok ""
         | [x] => elem x
         | x :: l' => a ← elem x; b ← join l'; Ok (a +:+ "," +:+ b)
         end) l
  | VObj fs => if has_own "toString" fs then Throw TypeError else Ok "[object Object]"
  end.

(** ToNumber; arrays and objects go through their string. *)
Definition ToNumber (v : value) : result float :=
  match v with
  | VUndefined => Ok NaN
  | VNull => Ok pzero
  | VBool true => Ok (of_Z 1)
  | VBool false => Ok pzero
  | VNum x => Ok x
  | VStr s => Ok (StringToNumber s)
  | VArr _ | VObj _ => s ← ToString v; Ok (StringToNumber s)
  end.

End JS.

(** ** The application *)

Module App.

Import Num JS.

(** A double quote, for HTML attribute values. *)
Definition dq : string := String (ascii_of_nat 34) "".
Definition nl : string := String (ascii_of_nat 10) "".

Definition API_BASE : string := "http://localhost:8001".
Definition TOKEN_KEY : string := "advisoriq_token".

(** *** The page and the browser state *)

(** The elements the script writes to: [style.display] of the four
    containers, [textContent] of the badge and of the metric tiles,
    [innerHTML] of the three panels.  A metric tile may be missing from
    the document ([None]): the script tests for it before writing.  The
    other elements are taken to exist, as the script takes them. *)
Record dom := {
  loginScreen : string;
  appScreen : string;
  dashboardSections : string;
  onboardingView : string;
  regimeBadge : string;
  clientGrid : string;
  signalsBody : string;
  stressGrid : string;
  metricRegime : option string;
  metricAvgIv : option string;
  metricHighFear : option string;
  metricMaxIvr : option string
}.

(** What the network delivers for one request. *)
Inductive outcome :=
| NoResponse
| Response (status : N) (body : option value).

(** What the page does on the network, in time order. *)
Inductive event :=
| Fetched (url : string) (authorization : option string)
| Settled (url : string) (r : outcome).

Record world := {
  localStorage : gmap string string;
  document : dom;
  trace : list event
}.

Definition with_storage (f : gmap string string -> gmap string string) (w : world) : world :=
  {| localStorage := f (localStorage w); document := document w; trace := trace w |}.

Definition with_document (f : dom -> dom) (w : world) : world :=
  {| localStorage := localStorage w; document := f (document w); trace := trace w |}.

Definition with_event (e : event) (w : world) : world :=
  {| localStorage := localStorage w; document := document w; trace := trace w ++ [e] |}.

(** *** Session store (lines 9-19) *)

(** [localStorage] is a finite map from keys to strings, taken to be
    available and unbounded. *)

Definition getToken (w : world) : option string := localStorage w !! TOKEN_KEY.

Definition setToken (token : string) (w : world) : world :=
  with_storage (insert TOKEN_KEY token) w.

Definition clearToken (w : world) : world :=
  with_storage (delete TOKEN_KEY) w.

(** *** Screens (lines 36-56) *)

Definition set_screens (login app : string) (d : dom) : dom :=
  {| loginScreen := login; appScreen := app;
     dashboardSections := dashboardSections d; onboardingView := onboardingView d;
     regimeBadge := regimeBadge d; clientGrid := clientGrid d;
     signalsBody := signalsBody d; stressGrid := stressGrid d;
     metricRegime := metricRegime d; metricAvgIv := metricAvgIv d;
     metricHighFear := metricHighFear d; metricMaxIvr := metricMaxIvr d |}.

Definition set_views (dashboard onboarding : string) (d : dom) : dom :=
  {| loginScreen := loginScreen d; appScreen := appScreen d;
     dashboardSections := dashboard; onboardingView := onboarding;
     regimeBadge := regimeBadge d; clientGrid := clientGrid d;
     signalsBody := signalsBody d; stressGrid := stressGrid d;
     metricRegime := metricRegime d; metricAvgIv := metricAvgIv d;
     metricHighFear := metricHighFear d; metricMaxIvr := metricMaxIvr d |}.

Definition showLogin (w : world) : world := with_document (set_screens "block" "none") w.
Definition showApp (w : world) : world := with_document (set_screens "none" "block") w.

Definition showView (view : string) (w : world) : world :=
  if bool_decide (view = "onboarding")
  then with_document (set_views "none" "block") w
  else with_document (set_views "block" "none") w.

(** *** fetchAPI (lines 21-34) *)

(** Up to the [await]: the token is read, the header is set when the
    token is truthy, and the request leaves. *)
Definition fetchAPI_send (path : string) (w : world) : world :=
  let authorization :=
    match getToken w with
    | Some token => if bool_decide (token = "") then None else Some ("Bearer " +:+ token)
    | None => None
    end in
  with_event (Fetched (API_BASE +:+ path) authorization) w.

Definition ok (status : N) : bool := ((200 <=? status) && (status <=? 299))%N.

(** After the [await]: the response is inspected. *)
Definition fetchAPI_receive (path : string) (r : outcome) (w : world) : world * result value :=
  let w := with_event (Settled (API_BASE +:+ path) r) w in
  match r with
  | NoResponse => (w, Throw NetworkError)
  | Response status body =>
      if (status =? 401)%N then
        (showLogin (clearToken w), Throw (Error "Session expired"))
      else if negb (ok status) then
        (w, Throw (Error ("API error: " +:+ digits status)))
      else
        (w, match body with Some v => Ok v | None => Throw SyntaxError end)
  end.

Definition fetchAPI (path : string) (r : outcome) (w : world) : world * result value :=
  fetchAPI_receive path r (fetchAPI_send path w).

(** *** escapeHtml (lines 58-62) *)

(** Assigning to [textContent]: [null] and [undefined] give the empty
    string, anything else its string value. *)
Definition DOMString (v : value) : result string :=
  match v with
  | VUndefined | VNull => Ok ""
  | _ => ToString v
  end.

(** Reading [innerHTML] back from a text node. *)
Fixpoint serialize_text (l : list ascii) : string :=
  match l with
  | [] => ""
  | c :: l' =>
      if bool_decide (c = "&"%char) then "&amp;" +:+ serialize_text l'
      else if bool_decide (c = "<"%char) then "&lt;" +:+ serialize_text l'
      else if bool_decide (c = ">"%char) then "&gt;" +:+ serialize_text l'
      else match l' with
           | c' :: l'' =>
               if bool_decide (c = ascii_of_nat 194) && bool_decide (c' = ascii_of_nat 160)
               then "&nbsp;" +:+ serialize_text l''
               else String c (serialize_text l')
           | [] => String c ""
           end
  end.

Definition escapeHtml (s : value) : result string :=
  t ← DOMString s; Ok (serialize_text (list_ascii_of_string t)).

(** *** Platform helpers used by the renderers *)

(** [l.join(sep)] on strings. *)
Fixpoint join (sep : string) (l : list string) : string :=
  match l with
  | [] => ""
  | [x] => x
  | x :: l' => x +:+ sep +:+ join sep l'
  end.

(** An array method called on [v]: only arrays have one. *)
Definition as_array (v : value) : result (list value) :=
  match v with
  | VArr l => Ok l
  | _ => Throw TypeError
  end.

(** [Object.entries(v)].  The entries of a string are its code units,
    indexed by position. *)
Definition Object_entries (v : value) : result (list (string * value)) :=
  match v with
  | VUndefined | VNull => Throw TypeError
  | VObj fs => Ok fs
  | VArr l => Ok (imap (fun i x => (digits (N.of_nat i), x)) l)
  | VStr s => Ok (imap (fun i c => (digits (N.of_nat i), VStr c))
                       (code_units (list_ascii_of_string s)))
  | VBool _ | VNum _ => Ok []
  end.

(** [Array.prototype.sort(comparefn)] for a consistent comparator: a
    stable sort; [x] goes after [y] only when [comparefn(x, y) > 0], a NaN
    from the comparator counts as zero, and an exception of the comparator
    ends the sort. *)
Fixpoint sort_insert {A} (comparefn : A -> A -> result float) (x : A) (l : list A)
  : result (list A) :=
  match l with
  | [] => Ok [x]
  | y :: l' =>
      c ← comparefn x y;
      if gt c pzero then r ← sort_insert comparefn x l'; Ok (y :: r) else Ok (x :: l)
  end.

Fixpoint Array_sort {A} (comparefn : A -> A -> result float) (l : list A) : result (list A) :=
  match l with
  | [] => Ok []
  | x :: l' => sorted ← Array_sort comparefn l'; sort_insert comparefn x sorted
  end.

(** [Math.abs(v)] *)
Definition Math_abs (v : value) : result float := x ← ToNumber v; Ok (abs x).

(** [Math.max(...args)]: the arguments are converted first. *)
Definition highest_of (l : list float) : float :=
  fold_left (fun highest x =>
               if isNaN highest || isNaN x then NaN
               else match highest, x with
                    | S754_zero true, S754_zero false => x
                    | _, _ => if gt x highest then x else highest
                    end) l nInf.

Definition Math_max (args : list value) : result float :=
  coerced ← mapM ToNumber args; Ok (highest_of coerced).

(** [s.replace(/_/g, " ")] *)
Fixpoint replace_underscores (s : string) : string :=
  match s with
  | EmptyString => ""
  | String c s' => String (if bool_decide (c = "_"%char) then " "%char else c)
                          (replace_underscores s')
  end.

(** *** The derivation in renderClientCard (lines 64-87) *)

(** Lines 69-78.  [typeof v === "number"] holds of the values [VNum x]
    and of no other. *)
Definition statusClass (currentVol targetVol misaligned : value) : string :=
  match currentVol, targetVol with
  | VNum currentVol, VNum targetVol =>
      if gt targetVol pzero then
        let ratio := div currentVol targetVol in
        if le ratio c_1_1 && negb (ToBoolean misaligned) then "client-card--good"
        else if ge ratio c_1_3 || ToBoolean misaligned then "client-card--risk"
        else ""
      else ""
  | _, _ => ""
  end.

(** Lines 81-84, after [Object.entries]. *)
Definition drift_keep (e : string * value) : result bool :=
  a ← Math_abs e.2; Ok (gt a c_0_01).

Definition drift_compare (a b : string * value) : result float :=
  x ← Math_abs b.2; y ← Math_abs a.2; Ok (sub x y).

Definition rankDrift (entries : list (string * value)) : result (list (string * value)) :=
  kept ← filterM drift_keep entries;
  sorted ← Array_sort drift_compare kept;
  Ok (take 3 sorted).

(** Lines 85-87. *)
Definition driftItem (e : string * value) : result string :=
  let '(s, v) := e in
  p ← ToNumber v;
  q ← ToNumber v;
  Ok (s +:+ " " +:+ (if gt p pzero then "+" else "") +:+ toFixed (mul q c_100) 1 +:+ "%").

Definition driftSummary (driftEntries : list (string * value)) : result string :=
  match driftEntries with
  | [] => Ok "—"
  | _ => items ← mapM driftItem driftEntries; Ok (join ", " items)
  end.

(** *** renderClientCard (lines 64-113) *)

Definition renderClientCard (portfolio : value) : result string :=
  c ← Get portfolio "client";
  iv ← Get portfolio "iv_adjusted_optimal";
  currentVol ← Get portfolio "current_annual_vol";
  targetVol ← Get c "target_annual_vol";
  misaligned ← Get portfolio "misaligned_with_profile";
  let statusClass := statusClass currentVol targetVol misaligned in
  has_recent_update ← Get portfolio "has_recent_update";
  last_updated ← Get portfolio "last_updated";
  let hasUpdate := or_else has_recent_update (VBool (ToBoolean last_updated)) in
  drift_from_optimal ← Get portfolio "drift_from_optimal";
  entries ← Object_entries drift_from_optimal;
  driftEntries ← rankDrift entries;
  driftStr ← driftSummary driftEntries;
  client_id ← Get c "client_id";
  client_id ← ToString client_id;
  name ← Get c "name";
  name ← escapeHtml name;
  risk_label ← Get c "risk_label";
  risk_label ← ToString risk_label;
  target ← ToNumber targetVol;
  current ← ToNumber currentVol;
  sharpe ← Get iv "sharpe";
  sharpe ← call_toFixed sharpe 2;
  Ok (
  nl +:+
  "    <article class=" +:+ dq +:+ "client-card " +:+ statusClass +:+ " " +:+ (if ToBoolean misaligned then "misaligned" else "") +:+ dq +:+ " data-client-id=" +:+ dq +:+ client_id +:+ dq +:+ ">" +:+ nl +:+
  "      <div class=" +:+ dq +:+ "client-card-header" +:+ dq +:+ ">" +:+ nl +:+
  "        <div class=" +:+ dq +:+ "client-card-name" +:+ dq +:+ ">" +:+ name +:+ "</div>" +:+ nl +:+
  "        " +:+ (if ToBoolean hasUpdate then "<span class=" +:+ dq +:+ "client-card-updated" +:+ dq +:+ ">Updated</span>" else "") +:+ nl +:+
  "      </div>" +:+ nl +:+
  "      <div class=" +:+ dq +:+ "client-card-risk" +:+ dq +:+ ">" +:+ risk_label +:+ " · target vol " +:+ toFixed (mul target c_100) 1 +:+ "%</div>" +:+ nl +:+
  "      <div class=" +:+ dq +:+ "client-card-stats" +:+ dq +:+ ">" +:+ nl +:+
  "        <div class=" +:+ dq +:+ "client-card-stat" +:+ dq +:+ ">" +:+ nl +:+
  "          <span>Current vol</span>" +:+ nl +:+
  "          <span>" +:+ toFixed (mul current c_100) 1 +:+ "%</span>" +:+ nl +:+
  "        </div>" +:+ nl +:+
  "        <div class=" +:+ dq +:+ "client-card-stat" +:+ dq +:+ ">" +:+ nl +:+
  "          <span>IV-adj Sharpe</span>" +:+ nl +:+
  "          <span>" +:+ sharpe +:+ "</span>" +:+ nl +:+
  "        </div>" +:+ nl +:+
  "        <div class=" +:+ dq +:+ "client-card-stat" +:+ dq +:+ ">" +:+ nl +:+
  "          <span>Drift</span>" +:+ nl +:+
  "          <span>" +:+ driftStr +:+ "</span>" +:+ nl +:+
  "        </div>" +:+ nl +:+
  "      </div>" +:+ nl +:+
  "      " +:+ (if ToBoolean misaligned then "<div class=" +:+ dq +:+ "client-card-alert" +:+ dq +:+ ">Risk profile misaligned</div>" else "") +:+ nl +:+
  "    </article>" +:+ nl +:+
  "  ").

(** *** renderSignalsTable (lines 115-132) *)

Definition renderSignalRow (s : value) : result string :=
  symbol ← Get s "symbol";
  symbol ← escapeHtml symbol;
  iv ← Get s "iv";
  iv ← ToNumber iv;
  predicted_hv ← Get s "predicted_hv";
  predicted_hv ← ToNumber predicted_hv;
  ivr ← Get s "ivr";
  ivr ← call_toFixed ivr 2;
  iv_percentile ← Get s "iv_percentile";
  iv_percentile ← ToNumber iv_percentile;
  regime ← Get s "regime";
  regime ← escapeHtml regime;
  fear_level ← Get s "fear_level";
  fear ← escapeHtml fear_level;
  recommended_action ← Get s "recommended_action";
  recommended_action ← escapeHtml recommended_action;
  Ok (
  nl +:+
  "    <tr>" +:+ nl +:+
  "      <td><strong>" +:+ symbol +:+ "</strong></td>" +:+ nl +:+
  "      <td>" +:+ toFixed (mul iv c_100) 1 +:+ "%</td>" +:+ nl +:+
  "      <td>" +:+ toFixed (mul predicted_hv c_100) 1 +:+ "%</td>" +:+ nl +:+
  "      <td>" +:+ ivr +:+ "</td>" +:+ nl +:+
  "      <td>" +:+ toFixed (mul iv_percentile c_100) 0 +:+ "%</td>" +:+ nl +:+
  "      <td>" +:+ regime +:+ "</td>" +:+ nl +:+
  "      <td class=" +:+ dq +:+ (if strict_eq_str fear_level "HIGH_FEAR" then "fear-high" else if strict_eq_str fear_level "ELEVATED_FEAR" then "fear-elevated" else "") +:+ dq +:+ ">" +:+ fear +:+ "</td>" +:+ nl +:+
  "      <td>" +:+ recommended_action +:+ "</td>" +:+ nl +:+
  "    </tr>" +:+ nl +:+
  "  ").

Definition renderSignalsTable (signals : value) : result string :=
  rows ← as_array signals;
  rows ← mapM renderSignalRow rows;
  Ok (join "" rows).

(** *** renderStressCard (lines 134-153) *)

Definition renderStressCard (scenario : value) : result string :=
  loss_current ← Get scenario "portfolio_loss_pct_current";
  loss_current ← ToNumber loss_current;
  let lossCur := toFixed (mul loss_current c_100) 1 in
  loss_iv ← Get scenario "portfolio_loss_pct_iv_adjusted";
  loss_iv ← ToNumber loss_iv;
  let lossIv := toFixed (mul loss_iv c_100) 1 in
  name ← Get scenario "name";
  name ← match name with
         | VStr s => Ok (replace_underscores s)
         | _ => Throw TypeError
         end;
  name ← escapeHtml (VStr name);
  description ← Get scenario "description";
  description ← escapeHtml description;
  Ok (
  nl +:+
  "    <div class=" +:+ dq +:+ "stress-card" +:+ dq +:+ ">" +:+ nl +:+
  "      <div class=" +:+ dq +:+ "stress-card-name" +:+ dq +:+ ">" +:+ name +:+ "</div>" +:+ nl +:+
  "      <div class=" +:+ dq +:+ "stress-card-desc" +:+ dq +:+ ">" +:+ description +:+ "</div>" +:+ nl +:+
  "      <div class=" +:+ dq +:+ "stress-card-losses" +:+ dq +:+ ">" +:+ nl +:+
  "        <div class=" +:+ dq +:+ "stress-loss" +:+ dq +:+ ">" +:+ nl +:+
  "          <div class=" +:+ dq +:+ "stress-loss-label" +:+ dq +:+ ">Current</div>" +:+ nl +:+
  "          <div class=" +:+ dq +:+ "stress-loss-value negative" +:+ dq +:+ ">" +:+ lossCur +:+ "%</div>" +:+ nl +:+
  "        </div>" +:+ nl +:+
  "        <div class=" +:+ dq +:+ "stress-loss" +:+ dq +:+ ">" +:+ nl +:+
  "          <div class=" +:+ dq +:+ "stress-loss-label" +:+ dq +:+ ">IV-adjusted</div>" +:+ nl +:+
  "          <div class=" +:+ dq +:+ "stress-loss-value negative" +:+ dq +:+ ">" +:+ lossIv +:+ "%</div>" +:+ nl +:+
  "        </div>" +:+ nl +:+
  "      </div>" +:+ nl +:+
  "    </div>" +:+ nl +:+
  "  ").

(** *** Writing to the dashboard elements *)

Definition set_regimeBadge (t : string) (d : dom) : dom :=
  {| loginScreen := loginScreen d; appScreen := appScreen d;
     dashboardSections := dashboardSections d; onboardingView := onboardingView d;
     regimeBadge := t; clientGrid := clientGrid d;
     signalsBody := signalsBody d; stressGrid := stressGrid d;
     metricRegime := metricRegime d; metricAvgIv := metricAvgIv d;
     metricHighFear := metricHighFear d; metricMaxIvr := metricMaxIvr d |}.

Definition set_clientGrid (h : string) (d : dom) : dom :=
  {| loginScreen := loginScreen d; appScreen := appScreen d;
     dashboardSections := dashboardSections d; onboardingView := onboardingView d;
     regimeBadge := regimeBadge d; clientGrid := h;
     signalsBody := signalsBody d; stressGrid := stressGrid d;
     metricRegime := metricRegime d; metricAvgIv := metricAvgIv d;
     metricHighFear := metricHighFear d; metricMaxIvr := metricMaxIvr d |}.

Definition set_signalsBody (h : string) (d : dom) : dom :=
  {| loginScreen := loginScreen d; appScreen := appScreen d;
     dashboardSections := dashboardSections d; onboardingView := onboardingView d;
     regimeBadge := regimeBadge d; clientGrid := clientGrid d;
     signalsBody := h; stressGrid := stressGrid d;
     metricRegime := metricRegime d; metricAvgIv := metricAvgIv d;
     metricHighFear := metricHighFear d; metricMaxIvr := metricMaxIvr d |}.

Definition set_stressGrid (h : string) (d : dom) : dom :=
  {| loginScreen := loginScreen d; appScreen := appScreen d;
     dashboardSections := dashboardSections d; onboardingView := onboardingView d;
     regimeBadge := regimeBadge d; clientGrid := clientGrid d;
     signalsBody := signalsBody d; stressGrid := h;
     metricRegime := metricRegime d; metricAvgIv := metricAvgIv d;
     metricHighFear := metricHighFear d; metricMaxIvr := metricMaxIvr d |}.

(** [if (el) el.textContent = t]: nothing is written when the tile is
    missing. *)
Definition write_tile (t : string) (el : option string) : option string :=
  match el with
  | Some _ => Some t
  | None => None
  end.

Definition set_metricRegime (t : string) (d : dom) : dom :=
  {| loginScreen := loginScreen d; appScreen := appScreen d;
     dashboardSections := dashboardSections d; onboardingView := onboardingView d;
     regimeBadge := regimeBadge d; clientGrid := clientGrid d;
     signalsBody := signalsBody d; stressGrid := stressGrid d;
     metricRegime := write_tile t (metricRegime d); metricAvgIv := metricAvgIv d;
     metricHighFear := metricHighFear d; metricMaxIvr := metricMaxIvr d |}.

Definition set_metricAvgIv (t : string) (d : dom) : dom :=
  {| loginScreen := loginScreen d; appScreen := appScreen d;
     dashboardSections := dashboardSections d; onboardingView := onboardingView d;
     regimeBadge := regimeBadge d; clientGrid := clientGrid d;
     signalsBody := signalsBody d; stressGrid := stressGrid d;
     metricRegime := metricRegime d; metricAvgIv := write_tile t (metricAvgIv d);
     metricHighFear := metricHighFear d; metricMaxIvr := metricMaxIvr d |}.

Definition set_metricHighFear (t : string) (d : dom) : dom :=
  {| loginScreen := loginScreen d; appScreen := appScreen d;
     dashboardSections := dashboardSections d; onboardingView := onboardingView d;
     regimeBadge := regimeBadge d; clientGrid := clientGrid d;
     signalsBody := signalsBody d; stressGrid := stressGrid d;
     metricRegime := metricRegime d; metricAvgIv := metricAvgIv d;
     metricHighFear := write_tile t (metricHighFear d); metricMaxIvr := metricMaxIvr d |}.

Definition set_metricMaxIvr (t : string) (d : dom) : dom :=
  {| loginScreen := loginScreen d; appScreen := appScreen d;
     dashboardSections := dashboardSections d; onboardingView := onboardingView d;
     regimeBadge := regimeBadge d; clientGrid := clientGrid d;
     signalsBody := signalsBody d; stressGrid := stressGrid d;
     metricRegime := metricRegime d; metricAvgIv := metricAvgIv d;
     metricHighFear := metricHighFear d; metricMaxIvr := write_tile t (metricMaxIvr d) |}.

(** *** Aggregate metrics (lines 224-250) *)

Record metrics := {
  avgIv : float;
  highFearCount : nat;
  maxIvr : float
}.

(** The callback of [reduce] on line 226. *)
Definition addIv (sum : float) (s : value) : result float :=
  iv ← Get s "iv";
  Ok (add sum (match iv with VNum x => x | _ => pzero end)).

Definition hasNumericIv (s : value) : result bool :=
  iv ← Get s "iv"; Ok (typeof_number iv).

Definition isFearful (s : value) : result bool :=
  fear_level ← Get s "fear_level";
  Ok (strict_eq_str fear_level "HIGH_FEAR" || strict_eq_str fear_level "ELEVATED_FEAR").

(** [typeof v === "number" && Number.isFinite(v)] *)
Definition finiteNumber (v : value) : bool :=
  match v with
  | VNum x => isFinite x
  | _ => false
  end.

(** Lines 225-235, for the elements of a non-empty array. *)
Definition computeMetrics (signals : list value) : result metrics :=
  sum ← foldM addIv signals pzero;
  numeric ← filterM hasNumericIv signals;
  let avgIv := div sum (of_nat (length numeric)) in
  fearful ← filterM isFearful signals;
  let highFearCount := length fearful in
  ivrs ← mapM (fun s => Get s "ivr") signals;
  maxIvr ← Math_max (List.filter finiteNumber ivrs);
  Ok {| avgIv := avgIv; highFearCount := highFearCount; maxIvr := maxIvr |}.

(** Lines 237-245. *)
Definition showMetrics (m : metrics) (d : dom) : dom :=
  let d := if isFinite (avgIv m)
           then set_metricAvgIv (toFixed (mul (avgIv m) c_100) 1 +:+ "%") d else d in
  let d := set_metricHighFear (digits (N.of_nat (highFearCount m))) d in
  if isFinite (maxIvr m) then set_metricMaxIvr (toFixed (maxIvr m) 2) d else d.

(** Lines 247-249. *)
Definition showNoMetrics (d : dom) : dom :=
  set_metricMaxIvr "—" (set_metricHighFear "—" (set_metricAvgIv "—" d)).

(** Lines 224-250: [signals] is [signalsRes.signals || []]. *)
Definition updateMetrics (signals : value) (d : dom) : dom * result unit :=
  match len ← Get signals "length"; ToNumber len with
  | Throw e => (d, Throw e)
  | Ok len =>
      if gt len pzero then
        match items ← as_array signals; computeMetrics items with
        | Ok m => (showMetrics m d, Ok ())
        | Throw e => (d, Throw e)
        end
      else (showNoMetrics d, Ok ())
  end.

(** *** loadDashboard (lines 195-268) *)

(** Code that writes to the page and may throw: the page as it is at
    the [throw] is kept. *)
Definition M (A : Type) : Type := dom -> dom * result A.

Definition lift {A} (r : result A) : M A := fun d => (d, r).
Definition write (f : dom -> dom) : M unit := fun d => (f d, Ok ()).

#[export] Instance M_ret : MRet M := fun A a d => (d, Ok a).
#[export] Instance M_bind : MBind M := fun A B k m d =>
  match m d with
  | (d', Ok a) => k a d'
  | (d', Throw e) => (d', Throw e)
  end.

(** Line 218. *)
Definition regimeOf (universeRes signalsRes : value) : result value :=
  r ← Get universeRes "regime";
  if ToBoolean r then Ok r
  else r' ← Get signalsRes "regime"; Ok (or_else r' (VStr "—")).

(** Lines 218-259: the body of [try] once the four responses are in. *)
Definition renderDashboard (universeRes signalsRes portfoliosRes stressRes : value) : M unit :=
  regime ← lift (regimeOf universeRes signalsRes);
  text ← lift (DOMString regime);
  _ ← write (set_regimeBadge text);
  signals ← lift (Get signalsRes "signals");
  let signals := or_else signals (VArr []) in
  text ← lift (DOMString regime);
  _ ← write (set_metricRegime text);
  _ ← updateMetrics signals;
  portfolios ← lift (Get portfoliosRes "portfolios");
  portfolios ← lift (as_array (or_else portfolios (VArr [])));
  cards ← lift (mapM renderClientCard portfolios);
  _ ← write (set_clientGrid (join "" cards));
  signals' ← lift (Get signalsRes "signals");
  table ← lift (renderSignalsTable (or_else signals' (VArr [])));
  _ ← write (set_signalsBody table);
  scenarios ← lift (Get stressRes "scenarios");
  scenarios ← lift (as_array (or_else scenarios (VArr [])));
  stress ← lift (mapM renderStressCard scenarios);
  write (set_stressGrid (join "" stress)).

Definition unreachableMessage : string :=
  "<p class=" +:+ dq +:+ "error" +:+ dq +:+
  ">API unreachable. Start backend: <code>cd backend && uvicorn app.main:app --reload --port 8001</code></p>".

Definition loadingMessage : string :=
  "<p class=" +:+ dq +:+ "loading" +:+ dq +:+ ">Loading…</p>".

(** [e.message === "Session expired"]; the messages of the exceptions
    the platform raises are other texts. *)
Definition isSessionExpired (e : exn) : bool :=
  match e with
  | Error message => bool_decide (message = "Session expired")
  | TypeError | SyntaxError | NetworkError => false
  end.

(** Lines 260-267. *)
Definition onFailure (e : exn) (d : dom) : dom :=
  if negb (isSessionExpired e) then
    set_stressGrid "" (set_signalsBody "" (set_clientGrid unreachableMessage (set_regimeBadge "—" d)))
  else d.

(** Lines 205-208. *)
Definition showLoading (d : dom) : dom :=
  set_stressGrid loadingMessage (set_signalsBody "" (set_clientGrid loadingMessage (set_regimeBadge "Loading…" d))).

(** The four requests of line 211-216. *)
Inductive endpoint := Universe | Signals | Portfolios | StressTests.

#[export] Instance endpoint_eq_dec : EqDecision endpoint.
Proof. solve_decision. Defined.

Definition endpoints : list endpoint := [Universe; Signals; Portfolios; StressTests].

Definition path (ep : endpoint) : string :=
  match ep with
  | Universe => "/api/universe"
  | Signals => "/api/signals"
  | Portfolios => "/api/portfolios"
  | StressTests => "/api/stress-tests"
  end.

(** The state of [Promise.all]: the values that are in, or settled. *)
Record fulfilled := {
  universeRes : option value;
  signalsRes : option value;
  portfoliosRes : option value;
  stressRes : option value
}.

Inductive cycle :=
| Waiting (got : fulfilled)
| Finished.

Definition none_yet : fulfilled :=
  {| universeRes := None; signalsRes := None; portfoliosRes := None; stressRes := None |}.

Definition fulfil (ep : endpoint) (v : value) (got : fulfilled) : fulfilled :=
  match ep with
  | Universe => {| universeRes := Some v; signalsRes := signalsRes got;
                   portfoliosRes := portfoliosRes got; stressRes := stressRes got |}
  | Signals => {| universeRes := universeRes got; signalsRes := Some v;
                  portfoliosRes := portfoliosRes got; stressRes := stressRes got |}
  | Portfolios => {| universeRes := universeRes got; signalsRes := signalsRes got;
                     portfoliosRes := Some v; stressRes := stressRes got |}
  | StressTests => {| universeRes := universeRes got; signalsRes := signalsRes got;
                      portfoliosRes := portfoliosRes got; stressRes := Some v |}
  end.

(** The [try] body with its [catch]. *)
Definition renderOrFail (u s p t : value) (d : dom) : dom :=
  match renderDashboard u s p t d with
  | (d', Ok _) => d'
  | (d', Throw e) => onFailure e d'
  end.

(** One response comes in, with its body when it has one.  Its
    [fetchAPI] call resumes whatever the state of the cycle; the first
    rejection ends the [await] and runs the [catch] before the next
    response is handled; the fourth value ends it and runs the rest of
    [try]. *)
Definition arrive (st : world * cycle) (a : endpoint * outcome) : world * cycle :=
  let '(w, c) := st in
  let '(ep, r) := a in
  let '(w, res) := fetchAPI_receive (path ep) r w in
  match c with
  | Finished => (w, Finished)
  | Waiting got =>
      match res with
      | Throw e => (with_document (onFailure e) w, Finished)
      | Ok v =>
          let got := fulfil ep v got in
          match universeRes got, signalsRes got, portfoliosRes got, stressRes got with
          | Some u, Some s, Some p, Some t => (with_document (renderOrFail u s p t) w, Finished)
          | _, _, _, _ => (w, Waiting got)
          end
      end
  end.

(** A refresh cycle; [arrivals] are the responses in the order in which
    they come in. *)
Definition loadDashboard (arrivals : list (endpoint * outcome)) (w : world) : world * cycle :=
  let w := with_document showLoading w in
  let w := fold_left (fun w ep => fetchAPI_send (path ep) w) endpoints w in
  fold_left arrive arrivals (w, Waiting none_yet).


(** *** init (lines 270-285) *)

Definition init (me : outcome) (arrivals : list (endpoint * outcome)) (w : world) : world :=
  match getToken w with
  | None => showLogin w
  | Some token =>
      if bool_decide (token = "") then showLogin w
      else
        match fetchAPI "/api/auth/me" me w with
        | (w, Throw _) => showLogin w
        | (w, Ok _) => (loadDashboard arrivals (showView "dashboard" (showApp w))).1
        end
  end.

End App.

(** ** The statements of the specification *)

Module Spec.

Import Num JS App.

(** The three statuses of a client card, and the one a class name stands
    for. *)
Inductive status := GOOD | RISK | NEUTRAL.

Definition status_of (class : string) : status :=
  if bool_decide (class = "client-card--good") then GOOD
  else if bool_decide (class = "client-card--risk") then RISK
  else NEUTRAL.

(** The ratio of the two volatilities; undefined when the target is not
    positive or either volatility is not a number. *)
Definition ratio_of (currentVol targetVol : value) : option float :=
  match currentVol, targetVol with
  | VNum currentVol, VNum targetVol =>
      if le targetVol pzero then None else Some (div currentVol targetVol)
  | _, _ => None
  end.

(** The three-branch rule of the specification. *)
Definition classify (ratio : option float) (misaligned : bool) : status :=
  match ratio with
  | None => NEUTRAL
  | Some ratio =>
      if le ratio c_1_1 && negb misaligned then GOOD
      else if ge ratio c_1_3 || misaligned then RISK
      else NEUTRAL
  end.

(** A value that is there: neither [undefined] nor [null]. *)
Definition present (v : value) : bool :=
  match v with
  | VUndefined | VNull => false
  | _ => true
  end.

(** A value that converts to a string and to a number: it holds no
    object with a property named [toString]. *)
Definition convertible (v : value) : bool :=
  match ToString v with
  | Ok _ => true
  | Throw _ => false
  end.

(** What renderClientCard needs of a portfolio: the client, the drift
    mapping, and a numeric Sharpe ratio in the optimised metrics. *)
Definition card_inputs_present (portfolio : value) : bool :=
  match Get portfolio "client", Get portfolio "drift_from_optimal",
        Get portfolio "iv_adjusted_optimal" with
  | Ok c, Ok drift, Ok iv =>
      present c && present drift &&
      match Get iv "sharpe" with
      | Ok sharpe => typeof_number sharpe
      | Throw _ => false
      end
  | _, _, _ => false
  end.

(** The fields renderClientCard converts to text or to numbers are
    convertible. *)
Definition field_convertible (v : value) (k : string) : bool :=
  match Get v k with
  | Ok x => convertible x
  | Throw _ => false
  end.

Definition card_fields_convertible (portfolio : value) : bool :=
  match Get portfolio "client", Get portfolio "drift_from_optimal" with
  | Ok c, Ok drift =>
      field_convertible c "client_id" && field_convertible c "name" &&
      field_convertible c "risk_label" && field_convertible c "target_annual_vol" &&
      field_convertible portfolio "current_annual_vol" &&
      match Object_entries drift with
      | Ok entries => forallb (fun e => convertible e.2) entries
      | Throw _ => false
      end
  | _, _ => false
  end.

(** A computation whose only exception is a TypeError. *)
Definition type_errors_only {A} (r : result A) : Prop :=
  forall e, r = Throw e -> e = TypeError.

(** A portfolio as the backend sends it, and the same without its drift
    mapping. *)
Definition client1 : value :=
  VObj [("client_id", VStr "c1"); ("name", VStr "Ada"); ("risk_label", VStr "MODERATE");
        ("target_annual_vol", VNum (of_decimal false 10 (-2)))].

Definition portfolio1 : value :=
  VObj [("client", client1);
        ("iv_adjusted_optimal", VObj [("sharpe", VNum (of_decimal false 123 (-2)))]);
        ("current_annual_vol", VNum (of_decimal false 8 (-2)));
        ("misaligned_with_profile", VBool false);
        ("drift_from_optimal",
         VObj [("AAPL", VNum (of_decimal false 5 (-2))); ("MSFT", VNum (of_decimal true 2 (-1)));
               ("X", VNum (of_decimal false 5 (-3))); ("GOOG", VNum (of_decimal false 11 (-2)));
               ("T", VNum (of_decimal true 3 (-2)))])].

Definition portfolio_without_drift : value :=
  VObj [("client", client1);
        ("iv_adjusted_optimal", VObj [("sharpe", VNum (of_decimal false 123 (-2)))]);
        ("current_annual_vol", VNum (of_decimal false 8 (-2)));
        ("misaligned_with_profile", VBool false)].

(** The implied volatility of a signal when it is a number, and the
    implied volatilities of a collection that are numbers. *)
Definition numericIv (s : value) : option float :=
  match Get s "iv" with
  | Ok (VNum x) => Some x
  | _ => None
  end.

Definition numericIvs (signals : list value) : list float := omap numericIv signals.

(** Those of them that are finite. *)
Definition finiteIvs (signals : list value) : list float :=
  List.filter isFinite (numericIvs signals).

(** The arithmetic mean, in the arithmetic of the script. *)
Definition mean (l : list float) : float :=
  div (fold_left add l pzero) (of_nat (length l)).

(** A signal of elevated or high fear. *)
Definition fearful (s : value) : bool :=
  match Get s "fear_level" with
  | Ok f => strict_eq_str f "HIGH_FEAR" || strict_eq_str f "ELEVATED_FEAR"
  | Throw _ => false
  end.

(** The implied-vol ranks of a collection that are finite numbers. *)
Definition finiteRank (s : value) : option float :=
  match Get s "ivr" with
  | Ok (VNum x) => if isFinite x then Some x else None
  | _ => None
  end.

Definition finiteRanks (signals : list value) : list float := omap finiteRank signals.

(** The mean the script computes for a collection. *)
Definition avgIv_of (signals : list value) : result float :=
  m ← computeMetrics signals; Ok (avgIv m).

(** The three signals of the specification's example. *)
Definition signals_example : list value :=
  [VObj [("iv", VNum (of_decimal false 2 (-1)))];
   VObj [("iv", VNum (of_decimal false 3 (-1)))];
   VObj [("iv", VStr "n/a")]].

(** A collection with nothing to aggregate: no implied volatility, no
    rank, no fear. *)
Definition signals_no_eligible : list value :=
  [VObj [("symbol", VStr "AAPL"); ("fear_level", VStr "NONE")]].

(** [{"iv": 0.2}, {"iv": 1e999}] as JSON decodes it. *)
Definition signals_with_infinity : list value :=
  [VObj [("iv", VNum (of_decimal false 2 (-1)))];
   VObj [("iv", VNum (of_decimal false 1 999))]].

(** The error taxonomy of the specification, with a fourth kind for a
    body that is not JSON. *)
Inductive kind :=
| SessionExpired
| APIError (status : N)
| Unreachable
| Malformed.

(** The kind of failure a response stands for; [None] for a success. *)
Definition kind_of (r : outcome) : option kind :=
  match r with
  | NoResponse => Some Unreachable
  | Response status body =>
      if (status =? 401)%N then Some SessionExpired
      else if negb (ok status) then Some (APIError status)
      else match body with
           | Some _ => None
           | None => Some Malformed
           end
  end.

(** The exception that carries a kind. *)
Definition raised (k : kind) : exn :=
  match k with
  | SessionExpired => Error "Session expired"
  | APIError status => Error ("API error: " +:+ digits status)
  | Unreachable => NetworkError
  | Malformed => SyntaxError
  end.

Definition succeeded (a : endpoint * outcome) : Prop := kind_of a.2 = None.

(** The parts of the page: the two screens, the four panels, the four
    metric tiles. *)
Definition screens (d : dom) : string * string := (loginScreen d, appScreen d).

Definition panels (d : dom) : string * string * string * string :=
  (regimeBadge d, clientGrid d, signalsBody d, stressGrid d).

Definition tiles (d : dom) : option string * option string * option string * option string :=
  (metricRegime d, metricAvgIv d, metricHighFear d, metricMaxIvr d).

(** Logged out: no token, login screen shown, application hidden. *)
Definition loggedOut (w : world) : Prop :=
  getToken w = None /\ screens (document w) = ("block", "none").

(** The panels while loading, and after a failure other than an expired
    session. *)
Definition loadingPanels : string * string * string * string :=
  ("Loading…", loadingMessage, "", loadingMessage).

Definition failurePanels : string * string * string * string :=
  ("—", unreachableMessage, "", "").

(** The [Authorization] header a request carries in a given state. *)
Definition authorization (w : world) : option string :=
  match getToken w with
  | Some token => if bool_decide (token = "") then None else Some ("Bearer " +:+ token)
  | None => None
  end.

(** The events of a refresh cycle: four requests, then the responses. *)
Definition requests (w : world) : list event :=
  map (fun ep => Fetched (API_BASE +:+ path ep) (authorization w)) endpoints.

Definition settlements (arrivals : list (endpoint * outcome)) : list event :=
  map (fun a => Settled (API_BASE +:+ path a.1) a.2) arrivals.

Definition is_request (e : event) : bool :=
  match e with
  | Fetched _ _ => true
  | Settled _ _ => false
  end.

(** The values that came in, by endpoint. *)
Definition record_response (got : fulfilled) (a : endpoint * outcome) : fulfilled :=
  match a.2 with
  | Response _ (Some v) => fulfil a.1 v got
  | _ => got
  end.


(** The state in which the four requests have left. *)
Definition started (w : world) : world :=
  fold_left (fun w ep => fetchAPI_send (path ep) w) endpoints (with_document showLoading w).

(** Code that leaves the two screens as they are. *)
Definition keeps_screens {A} (m : M A) : Prop :=
  forall d, screens (m d).1 = screens d.

(** The value an endpoint delivered. *)
Definition response_of (ep : endpoint) (got : fulfilled) : option value :=
  match ep with
  | Universe => universeRes got
  | Signals => signalsRes got
  | Portfolios => portfoliosRes got
  | StressTests => stressRes got
  end.

(** Bodies the four endpoints may deliver. *)
Definition universe1 : value := VObj [("regime", VStr "STRESS")].

Definition signals1 : value :=
  VObj [("regime", VStr "NORMAL");
        ("signals",
         VArr [VObj [("symbol", VStr "AAPL"); ("iv", VNum (of_decimal false 2 (-1)));
                     ("predicted_hv", VNum (of_decimal false 1 (-1)));
                     ("ivr", VNum (of_decimal false 2 0));
                     ("iv_percentile", VNum (of_decimal false 9 (-1)));
                     ("regime", VStr "NORMAL"); ("fear_level", VStr "HIGH_FEAR");
                     ("recommended_action", VStr "hedge")]])].

Definition portfolios1 : value := VObj [("portfolios", VArr [portfolio1])].

Definition stress1 : value :=
  VObj [("scenarios",
         VArr [VObj [("name", VStr "gfc_2008"); ("description", VStr "2008 crisis");
                     ("portfolio_loss_pct_current", VNum (of_decimal true 3 (-1)));
                     ("portfolio_loss_pct_iv_adjusted", VNum (of_decimal true 25 (-2)))]])].

(** The absolute value by which an entry is ranked. *)
Definition abs_of (v : value) : float :=
  match Math_abs v with
  | Ok a => a
  | Throw _ => NaN
  end.

(** The ranking in the words of the specification: retain the entries
    above 0.01 in absolute value, sort them in descending order of absolute
    value, keep the first three. *)
Definition above_threshold (e : string * value) : bool := gt (abs_of e.2) c_0_01.

Definition by_abs_desc (a b : string * value) : float := sub (abs_of b.2) (abs_of a.2).

Fixpoint insert_sorted {A} (compare : A -> A -> float) (x : A) (l : list A) : list A :=
  match l with
  | [] => [x]
  | y :: l' => if gt (compare x y) pzero then y :: insert_sorted compare x l' else x :: l
  end.

Definition stable_sort {A} (compare : A -> A -> float) (l : list A) : list A :=
  foldr (insert_sorted compare) [] l.

Definition ranking (entries : list (string * value)) : list (string * value) :=
  take 3 (stable_sort by_abs_desc (List.filter above_threshold entries)).

(** Descending order of absolute value, and the order of a comparator:
    it does not ask to put [y] before [x]. *)
Definition desc_abs (x y : string * value) : Prop :=
  le (abs_of y.2) (abs_of x.2) = true.

Definition in_order {A} (compare : A -> A -> float) (x y : A) : Prop :=
  gt (compare x y) pzero = false.

(** An entry of a drift mapping: a symbol with a number of binary64. *)
Definition drift_number (e : string * value) : Prop :=
  exists x, e.2 = VNum x /\ valid x = true.

(** An entry that is a number and passes the filter. *)
Definition ranked_number (e : string * value) : Prop :=
  drift_number e /\ above_threshold e = true.

(** A number that [toFixed] prints in decimals: finite and below 10^21
    in magnitude. *)
Definition printable (x : float) : Prop :=
  isFinite x = true /\ Qle_bool (pow10 21) (to_Q (abs x)) = false.

Definition negative (x : float) : bool :=
  match x with
  | S754_zero s | S754_infinity s | S754_finite s _ _ => s
  | S754_nan => false
  end.

Definition is_digit (c : ascii) : bool :=
  (48 <=? nat_of_ascii c)%nat && (nat_of_ascii c <=? 57)%nat.

Fixpoint all_digits (s : string) : bool :=
  match s with
  | EmptyString => true
  | String c s' => is_digit c && all_digits s'
  end.

(** The natural number a string of decimal digits denotes. *)
Definition read_digits (s : string) : option N :=
  N.of_uint <$> NilEmpty.uint_of_string s.

(** [n] is the integer nearest to [q], the larger one of two that are
    equally near. *)
Definition nearest (n : N) (q : Q) : Prop :=
  (inject_Z (Z.of_N n) <= q + (1 # 2) /\ q + (1 # 2) < inject_Z (Z.of_N n) + 1)%Q.

(** [text] is [y] written with one decimal: a minus sign when [y] is
    negative, then digits, a point and one digit, which read together are
    the number of tenths nearest to the magnitude of [y]. *)
Definition one_decimal (y : float) (text : string) : Prop :=
  exists ip d n,
    text = (if lt y pzero then "-" else "") +:+ ip +:+ "." +:+ String d "" /\
    all_digits ip = true /\ ip <> "" /\ is_digit d = true /\
    read_digits (ip +:+ String d "") = Some n /\
    nearest n (to_Q (abs y) * inject_Z 10).

(** A text of digits, a point and one digit, whatever its sign. *)
Definition decimal_shape (text : string) : Prop :=
  exists sign ip d,
    text = sign +:+ ip +:+ "." +:+ String d "" /\
    (sign = "" \/ sign = "-") /\ all_digits ip = true /\ is_digit d = true.

(** A drift mapping as the backend sends it. *)
Definition drift1 : list (string * value) :=
  [("AAPL", VNum (of_decimal false 5 (-2))); ("MSFT", VNum (of_decimal true 2 (-1)));
   ("X", VNum (of_decimal false 5 (-3))); ("GOOG", VNum (of_decimal false 11 (-2)));
   ("T", VNum (of_decimal true 3 (-2)))].

(** A mapping with one drift of 1e19, a number JSON can carry. *)
Definition drift_huge : list (string * value) :=
  [("S", VNum (of_decimal false 1 19))].

(** A page and a browser state to run the script on. *)
Definition page0 : dom :=
  {| loginScreen := "none"; appScreen := "block";
     dashboardSections := "block"; onboardingView := "none";
     regimeBadge := "NORMAL"; clientGrid := "<article>old card</article>";
     signalsBody := "<tr>old row</tr>"; stressGrid := "<div>old scenario</div>";
     metricRegime := Some "NORMAL"; metricAvgIv := Some "21.5%";
     metricHighFear := Some "2"; metricMaxIvr := Some "1.80" |}.

Definition world0 : world :=
  {| localStorage := {[ TOKEN_KEY := "t0k3n" ]}; document := page0; trace := [] |}.

End Spec.

(** * The rest of the page: modal, forms and handlers *)

Module Page.

Import Num JS App.

(** *** The elements outside the dashboard *)

(** The browser state of the dashboard together with the other elements
    whose content or visibility the script sets: the [aria-hidden]
    attribute of the modal and the [innerHTML] of its body, the
    [textContent] and [style.display] of the error line of the login form
    and of the error and success lines of the onboarding form.  The
    controls of the two forms are not part of the page: what a handler
    reads from them goes into the body of its request, which the trace
    does not keep, and what the onboarding handler writes to them
    ([form.reset()], the default of the target field) is not followed. *)
Record page := {
  browser : world;
  modalHidden : string;
  modalBody : string;
  loginError : string;
  loginErrorDisplay : string;
  onboardingError : string;
  onboardingErrorDisplay : string;
  onboardingSuccess : string;
  onboardingSuccessDisplay : string
}.

Definition with_browser (f : world -> world) (p : page) : page :=
  {| browser := f (browser p);
     modalHidden := modalHidden p; modalBody := modalBody p;
     loginError := loginError p; loginErrorDisplay := loginErrorDisplay p;
     onboardingError := onboardingError p;
     onboardingErrorDisplay := onboardingErrorDisplay p;
     onboardingSuccess := onboardingSuccess p;
     onboardingSuccessDisplay := onboardingSuccessDisplay p |}.

Definition set_modal (hidden body : string) (p : page) : page :=
  {| browser := browser p;
     modalHidden := hidden; modalBody := body;
     loginError := loginError p; loginErrorDisplay := loginErrorDisplay p;
     onboardingError := onboardingError p;
     onboardingErrorDisplay := onboardingErrorDisplay p;
     onboardingSuccess := onboardingSuccess p;
     onboardingSuccessDisplay := onboardingSuccessDisplay p |}.

Definition set_loginError (text display : string) (p : page) : page :=
  {| browser := browser p;
     modalHidden := modalHidden p; modalBody := modalBody p;
     loginError := text; loginErrorDisplay := display;
     onboardingError := onboardingError p;
     onboardingErrorDisplay := onboardingErrorDisplay p;
     onboardingSuccess := onboardingSuccess p;
     onboardingSuccessDisplay := onboardingSuccessDisplay p |}.

Definition set_onboardingError (text display : string) (p : page) : page :=
  {| browser := browser p;
     modalHidden := modalHidden p; modalBody := modalBody p;
     loginError := loginError p; loginErrorDisplay := loginErrorDisplay p;
     onboardingError := text;
     onboardingErrorDisplay := display;
     onboardingSuccess := onboardingSuccess p;
     onboardingSuccessDisplay := onboardingSuccessDisplay p |}.

Definition set_onboardingSuccess (text display : string) (p : page) : page :=
  {| browser := browser p;
     modalHidden := modalHidden p; modalBody := modalBody p;
     loginError := loginError p; loginErrorDisplay := loginErrorDisplay p;
     onboardingError := onboardingError p;
     onboardingErrorDisplay := onboardingErrorDisplay p;
     onboardingSuccess := text;
     onboardingSuccessDisplay := display |}.

(** [e.message]: the text the script gave to [new Error], or, for an
    exception the platform raises, the text [engine] that the platform
    gives it in this run. *)
Definition message (engine : string) (e : exn) : string :=
  match e with
  | Error m => m
  | TypeError | SyntaxError | NetworkError => engine
  end.

(** [text || fallback] on strings. *)
Definition or_text (text fallback : string) : string :=
  if bool_decide (text = "") then fallback else text.

(** *** The modal (lines 155-164) *)

Definition showModal (html : string) (p : page) : page := set_modal "false" html p.

Definition hideModal (p : page) : page := set_modal "true" (modalBody p) p.

(** *** openClientNarrative (lines 166-193) *)

(** The callback of [map] on lines 173-174. *)
Definition fearItem (s : value) : result string :=
  symbol ← Get s "symbol";
  symbol ← escapeHtml symbol;
  ivr ← Get s "ivr";
  ivr ← call_toFixed ivr 2;
  recommended_action ← Get s "recommended_action";
  recommended_action ← escapeHtml recommended_action;
  Ok ("<li><strong>" +:+ symbol +:+ "</strong> IVR " +:+ ivr +:+ " — " +:+ recommended_action +:+ "</li>").

(** Lines 169-177.  [top?.length] is [undefined] when [top] is
    [undefined] or [null]. *)
Definition fearList (data : value) : result string :=
  top ← Get data "top_fear_signals";
  len ← match top with
        | VUndefined | VNull => Ok VUndefined
        | _ => Get top "length"
        end;
  len ← ToNumber len;
  if gt len pzero then
    top ← Get data "top_fear_signals";
    items ← as_array top;
    items ← mapM fearItem items;
    Ok ("<ul class=" +:+ dq +:+ "narrative-fear-list" +:+ dq +:+ ">" +:+ join "" items +:+ "</ul>")
  else Ok "<p>No elevated fear signals for this client.</p>".

(** The callback of [map] on line 183. *)
Definition keyPoint (p : value) : result string :=
  p ← escapeHtml p; Ok ("<li>" +:+ p +:+ "</li>").

(** Lines 169-188. *)
Definition narrativeHtml (data : value) : result string :=
  fearList ← fearList data;
  title ← Get data "title";
  title ← escapeHtml title;
  regime ← Get data "regime";
  regime ← escapeHtml regime;
  body ← Get data "body";
  body ← escapeHtml body;
  key_points ← Get data "key_points";
  points ← as_array (or_else key_points (VArr []));
  points ← mapM keyPoint points;
  Ok (
  nl +:+
  "      <h3 class=" +:+ dq +:+ "narrative-title" +:+ dq +:+ ">" +:+ title +:+ "</h3>" +:+ nl +:+
  "      <div class=" +:+ dq +:+ "narrative-regime" +:+ dq +:+ ">Regime: " +:+ regime +:+ "</div>" +:+ nl +:+
  "      <div class=" +:+ dq +:+ "narrative-body" +:+ dq +:+ ">" +:+ body +:+ "</div>" +:+ nl +:+
  "      <ul class=" +:+ dq +:+ "narrative-points" +:+ dq +:+ ">" +:+ join "" points +:+ "</ul>" +:+ nl +:+
  "      <div class=" +:+ dq +:+ "narrative-fear" +:+ dq +:+ ">" +:+ nl +:+
  "        <div class=" +:+ dq +:+ "narrative-fear-title" +:+ dq +:+ ">Top fear signals</div>" +:+ nl +:+
  "        " +:+ fearList +:+ nl +:+
  "      </div>" +:+ nl +:+
  "    ").

(** Line 191. *)
Definition narrativeError (text : string) : string :=
  "<p class=" +:+ dq +:+ "error" +:+ dq +:+ ">Failed to load narrative: " +:+ text +:+ "</p>".

(** [clientId] is the [data-client-id] of the card that was clicked,
    [r] what the network delivers for the request. *)
Definition openClientNarrative (clientId : string) (r : outcome) (engine : string)
    (p : page) : page :=
  let '(w, data) := fetchAPI ("/api/explain/" +:+ clientId) r (browser p) in
  let p := with_browser (fun _ => w) p in
  match data ≫= narrativeHtml with
  | Ok html => showModal html p
  | Throw e =>
      match escapeHtml (VStr (message engine e)) with
      | Ok text => showModal (narrativeError text) p
      | Throw _ => p
      end
  end.

(** *** The login form (lines 288-316) *)

(** The handler sends its request with [fetch], without the token.
    [res.json()] is awaited before the status is looked at. *)
Definition loginSubmit (r : outcome) (arrivals : list (endpoint * outcome)) (engine : string)
    (p : page) : page :=
  let p := set_loginError (loginError p) "none" p in
  let url := API_BASE +:+ "/api/auth/login" in
  let p := with_browser (with_event (Fetched url None)) p in
  let p := with_browser (with_event (Settled url r)) p in
  let attempt : result page :=
    match r with
    | NoResponse => Throw NetworkError
    | Response status body =>
        data ← match body with Some v => Ok v | None => Throw SyntaxError end;
        if negb (ok status) then
          detail ← Get data "detail";
          text ← DOMString (or_else detail (VStr "Invalid email or password"));
          Ok (set_loginError text "block" p)
        else
          token ← Get data "token";
          token ← ToString token;
          Ok (with_browser
                (fun w => (loadDashboard arrivals
                             (showView "dashboard" (showApp (setToken token w)))).1) p)
    end in
  match attempt with
  | Ok p => p
  | Throw e => set_loginError (or_text (message engine e) "Connection failed") "block" p
  end.

(** *** Logout and navigation (lines 318-330) *)

Definition logoutClick (p : page) : page :=
  with_browser (fun w => showLogin (clearToken w)) p.

(** [view] is the [data-view] of the link. *)
Definition navClick (view : string) (p : page) : page :=
  with_browser (showView view) p.

(** *** The onboarding form (lines 333-360) *)

(** The text of line 351. *)
Definition addedText (client : value) : result string :=
  name ← Get client "name";
  name ← escapeHtml name;
  client_id ← Get client "client_id";
  client_id ← ToString client_id;
  Ok ("Added " +:+ name +:+ " (" +:+ client_id +:+ "). They will appear in the dashboard.").

Definition onboardingSubmit (r : outcome) (arrivals : list (endpoint * outcome))
    (engine : string) (p : page) : page :=
  let p := set_onboardingError (onboardingError p) "none" p in
  let p := set_onboardingSuccess (onboardingSuccess p) "none" p in
  let '(w, client) := fetchAPI "/api/clients" r (browser p) in
  let p := with_browser (fun _ => w) p in
  match client ≫= addedText with
  | Ok text =>
      let p := set_onboardingSuccess text "block" p in
      with_browser (fun w => (loadDashboard arrivals w).1) p
  | Throw e => set_onboardingError (or_text (message engine e) "Failed to add client") "block" p
  end.

(** *** The events of the page *)

(** What happens on the page: the script starts (line 371), a form is
    submitted, a link, a card or the modal's close button is clicked; each
    with what the network delivers to the handler.  A handler runs to its
    end, responses included, before the next event is taken. *)
Inductive action :=
| Start (me : outcome) (arrivals : list (endpoint * outcome))
| SubmitLogin (r : outcome) (arrivals : list (endpoint * outcome)) (engine : string)
| ClickLogout
| ClickNav (view : string)
| ClickCard (clientId : string) (r : outcome) (engine : string)
| CloseModal
| SubmitOnboarding (r : outcome) (arrivals : list (endpoint * outcome)) (engine : string).

Definition handle (p : page) (a : action) : page :=
  match a with
  | Start me arrivals => with_browser (init me arrivals) p
  | SubmitLogin r arrivals engine => loginSubmit r arrivals engine p
  | ClickLogout => logoutClick p
  | ClickNav view => navClick view p
  | ClickCard clientId r engine => openClientNarrative clientId r engine p
  | CloseModal => hideModal p
  | SubmitOnboarding r arrivals engine => onboardingSubmit r arrivals engine p
  end.

Definition run (actions : list action) (p : page) : page := fold_left handle actions p.

End Page.

(** * Notions for further properties *)

Module Notions.

Import Num JS App Spec.

(** *** Escaped text *)

Definition begins (p : string) (l : list ascii) : bool :=
  match strip_prefix (list_ascii_of_string p) l with
  | Some _ => true
  | None => false
  end.

Definition nbsp : string := String (ascii_of_nat 194) (String (ascii_of_nat 160) "").

(** The character references [innerHTML] writes for a text node. *)
Definition entities : list string := ["&amp;"; "&lt;"; "&gt;"; "&nbsp;"].

(** Markup that holds text only: no [<], no [>], and every [&] begins
    one of the four references. *)
Fixpoint text_only (l : list ascii) : bool :=
  match l with
  | [] => true
  | c :: l' =>
      negb (bool_decide (c = "<"%char)) && negb (bool_decide (c = ">"%char)) &&
      (negb (bool_decide (c = "&"%char)) || existsb (fun e => begins e l) entities) &&
      text_only l'
  end.

(** Text that needs no escaping: no [&], [<], [>] and no no-break
    space. *)
Fixpoint plain (l : list ascii) : bool :=
  match l with
  | [] => true
  | c :: l' =>
      negb (bool_decide (c = "&"%char)) && negb (bool_decide (c = "<"%char)) &&
      negb (bool_decide (c = ">"%char)) && negb (begins nbsp l) && plain l'
  end.

(** Reading the four references back; [skip] characters of a reference
    are still to be passed over. *)
Fixpoint unescape (skip : nat) (l : list ascii) : list ascii :=
  match l with
  | [] => []
  | c :: l' =>
      match skip with
      | S k => unescape k l'
      | O =>
          if begins "&amp;" l then "&"%char :: unescape 4 l'
          else if begins "&lt;" l then "<"%char :: unescape 3 l'
          else if begins "&gt;" l then ">"%char :: unescape 3 l'
          else if begins "&nbsp;" l then list_ascii_of_string nbsp ++ unescape 5 l'
          else c :: unescape 0 l'
      end
  end.

(** *** What the renderers can print *)

(** A signal renderSignalsTable prints: it is there, its rank is a
    number and its other fields convert to text and numbers. *)
Definition signal_printable (s : value) : bool :=
  present s &&
  match Get s "ivr" with
  | Ok ivr => typeof_number ivr
  | Throw _ => false
  end &&
  forallb (field_convertible s)
          ["symbol"; "iv"; "predicted_hv"; "iv_percentile"; "regime"; "fear_level";
           "recommended_action"].

Definition table_printable (signals : value) : bool :=
  match signals with
  | VArr rows => forallb signal_printable rows
  | _ => false
  end.

(** A scenario renderStressCard prints: it is there, its name is a
    string and its other fields convert. *)
Definition scenario_printable (scenario : value) : bool :=
  present scenario &&
  match Get scenario "name" with
  | Ok (VStr _) => true
  | _ => false
  end &&
  forallb (field_convertible scenario)
          ["portfolio_loss_pct_current"; "portfolio_loss_pct_iv_adjusted"; "description"].

(** A signal and a scenario as the backend sends them, and a signal
    whose rank is missing. *)
Definition signal1 : value :=
  VObj [("symbol", VStr "AAPL"); ("iv", VNum (of_decimal false 2 (-1)));
        ("predicted_hv", VNum (of_decimal false 1 (-1)));
        ("ivr", VNum (of_decimal false 2 0));
        ("iv_percentile", VNum (of_decimal false 9 (-1)));
        ("regime", VStr "NORMAL"); ("fear_level", VStr "HIGH_FEAR");
        ("recommended_action", VStr "hedge")].

Definition signal_without_rank : value :=
  VObj [("symbol", VStr "TSLA"); ("iv", VNum (of_decimal false 4 (-1)));
        ("predicted_hv", VNull); ("ivr", VNull);
        ("iv_percentile", VNum (of_decimal false 5 (-1)));
        ("regime", VStr "NORMAL"); ("fear_level", VStr "NONE");
        ("recommended_action", VStr "hold")].

Definition scenario1 : value :=
  VObj [("name", VStr "gfc_2008"); ("description", VStr "2008 crisis");
        ("portfolio_loss_pct_current", VNum (of_decimal true 3 (-1)));
        ("portfolio_loss_pct_iv_adjusted", VNum (of_decimal true 25 (-2)))].

(** *** The regime label *)

(** The property [k] of [v] when it is truthy. *)
Definition truthy_field (v : value) (k : string) : option value :=
  match Get v k with
  | Ok x => if ToBoolean x then Some x else None
  | Throw _ => None
  end.

(** *** Rendering that fails *)

(** Code that writes to the page and raises nothing but a TypeError. *)
Definition page_type_errors_only {A} (m : M A) : Prop :=
  forall d d' e, m d = (d', Throw e) -> e = TypeError.

(** The four responses of a refresh in which the portfolio has lost its
    drift mapping. *)
Definition portfolios_without_drift : value :=
  VObj [("portfolios", VArr [portfolio_without_drift])].

(** *** What a refresh leaves alone *)

(** The two views of the application screen. *)
Definition views (d : dom) : string * string := (dashboardSections d, onboardingView d).

(** Code that leaves the two views as they are. *)
Definition keeps_views {A} (m : M A) : Prop :=
  forall d, views (m d).1 = views d.

(** A response that is not a 401. *)
Definition not_expired (a : endpoint * outcome) : Prop :=
  kind_of a.2 <> Some SessionExpired.

(** *** The session across the handlers *)

Import Page.

(** The lines of the two forms. *)
Definition forms (p : page) : (string * string) * (string * string) * (string * string) :=
  ((loginError p, loginErrorDisplay p),
   (onboardingError p, onboardingErrorDisplay p),
   (onboardingSuccess p, onboardingSuccessDisplay p)).

Definition modal (p : page) : string * string := (modalHidden p, modalBody p).

(** One of the two screens is shown, and the application screen only
    while a token is stored. *)
Definition session_consistent (w : world) : Prop :=
  (screens (document w) = ("block", "none") \/ screens (document w) = ("none", "block")) /\
  (appScreen (document w) = "block" -> getToken w <> None).

(** A request without the [Authorization] header, or a response. *)
Definition anonymous (e : event) : Prop :=
  match e with
  | Fetched _ authorization => authorization = None
  | Settled _ _ => True
  end.

(** A login that the backend accepts: a 2xx status with a body. *)
Definition accepted_login (a : action) : bool :=
  match a with
  | SubmitLogin (Response status (Some _)) _ _ => ok status
  | _ => false
  end.

(** A 401 among the responses. *)
Definition expired (a : endpoint * outcome) : Prop := kind_of a.2 = Some SessionExpired.

(** A page to run the handlers on. *)
Definition page1 : page :=
  {| browser := world0; modalHidden := "true"; modalBody := "";
     loginError := ""; loginErrorDisplay := "none";
     onboardingError := ""; onboardingErrorDisplay := "none";
     onboardingSuccess := ""; onboardingSuccessDisplay := "none" |}.

(** *** The text of a metric tile *)

Definition starts_with_digit (s : string) : bool :=
  match s with
  | String c _ => is_digit c
  | EmptyString => false
  end.

(** A text that begins as the text of a number that is not NaN does: a
    digit or the I of Infinity, after a minus sign or not. *)
Definition number_text (s : string) : bool :=
  match s with
  | String c s' =>
      if bool_decide (c = "-"%char)
      then starts_with_digit s' || begins "Infinity" (list_ascii_of_string s')
      else is_digit c || begins "Infinity" (list_ascii_of_string s)
  | EmptyString => false
  end.

(** What a tile that was shown as [before] may show after the metrics
    were updated: the same, the dash, or the text of a number. *)
Definition tile_shows (before after : option string) : Prop :=
  after = before \/ after = Some "—" \/
  exists text, after = Some text /\ number_text text = true.

(** A signal whose implied volatility is finite while a hundred times
    it is not. *)
Definition signal_huge : value := VObj [("iv", VNum (of_decimal false 1 307))].

(** *** The page after a refresh *)

(** What a piece of code writes to the page, element by element:
    [Some t] where it wrote [t] last, [None] where it wrote nothing. *)
Record assignment := {
  to_loginScreen : option string;
  to_appScreen : option string;
  to_dashboardSections : option string;
  to_onboardingView : option string;
  to_regimeBadge : option string;
  to_clientGrid : option string;
  to_signalsBody : option string;
  to_stressGrid : option string;
  to_metricRegime : option string;
  to_metricAvgIv : option string;
  to_metricHighFear : option string;
  to_metricMaxIvr : option string
}.

Definition put (new : option string) (old : string) : string :=
  match new with
  | Some t => t
  | None => old
  end.

Definition put_tile (new : option string) (old : option string) : option string :=
  match new with
  | Some t => write_tile t old
  | None => old
  end.

Definition assign (a : assignment) (d : dom) : dom :=
  {| loginScreen := put (to_loginScreen a) (loginScreen d);
     appScreen := put (to_appScreen a) (appScreen d);
     dashboardSections := put (to_dashboardSections a) (dashboardSections d);
     onboardingView := put (to_onboardingView a) (onboardingView d);
     regimeBadge := put (to_regimeBadge a) (regimeBadge d);
     clientGrid := put (to_clientGrid a) (clientGrid d);
     signalsBody := put (to_signalsBody a) (signalsBody d);
     stressGrid := put (to_stressGrid a) (stressGrid d);
     metricRegime := put_tile (to_metricRegime a) (metricRegime d);
     metricAvgIv := put_tile (to_metricAvgIv a) (metricAvgIv d);
     metricHighFear := put_tile (to_metricHighFear a) (metricHighFear d);
     metricMaxIvr := put_tile (to_metricMaxIvr a) (metricMaxIvr d) |}.

Definition or_earlier (later earlier : option string) : option string :=
  match later with
  | Some t => Some t
  | None => earlier
  end.

(** First [a], then [b]. *)
Definition then_assign (a b : assignment) : assignment :=
  {| to_loginScreen := or_earlier (to_loginScreen b) (to_loginScreen a);
     to_appScreen := or_earlier (to_appScreen b) (to_appScreen a);
     to_dashboardSections := or_earlier (to_dashboardSections b) (to_dashboardSections a);
     to_onboardingView := or_earlier (to_onboardingView b) (to_onboardingView a);
     to_regimeBadge := or_earlier (to_regimeBadge b) (to_regimeBadge a);
     to_clientGrid := or_earlier (to_clientGrid b) (to_clientGrid a);
     to_signalsBody := or_earlier (to_signalsBody b) (to_signalsBody a);
     to_stressGrid := or_earlier (to_stressGrid b) (to_stressGrid a);
     to_metricRegime := or_earlier (to_metricRegime b) (to_metricRegime a);
     to_metricAvgIv := or_earlier (to_metricAvgIv b) (to_metricAvgIv a);
     to_metricHighFear := or_earlier (to_metricHighFear b) (to_metricHighFear a);
     to_metricMaxIvr := or_earlier (to_metricMaxIvr b) (to_metricMaxIvr a) |}.

Definition nothing : assignment :=
  {| to_loginScreen := None;
     to_appScreen := None;
     to_dashboardSections := None;
     to_onboardingView := None;
     to_regimeBadge := None;
     to_clientGrid := None;
     to_signalsBody := None;
     to_stressGrid := None;
     to_metricRegime := None;
     to_metricAvgIv := None;
     to_metricHighFear := None;
     to_metricMaxIvr := None |}.

(** Code whose writes and whose result do not depend on the page. *)
Definition assigns {A} (m : M A) : Prop :=
  exists a r, forall d, m d = (assign a d, r).

(** *** Responses that can be rendered *)

(** A portfolio renderClientCard prints. *)
Definition card_printable (portfolio : value) : bool :=
  card_inputs_present portfolio && card_fields_convertible portfolio.

(** An array all of whose elements satisfy [p]. *)
Definition array_of (p : value -> bool) (v : value) : bool :=
  match v with
  | VArr l => forallb p l
  | _ => false
  end.

(** The four responses of a refresh can be rendered: they are there,
    the regime converts to text, and the signals, the portfolios and the
    scenarios, where they are given, are arrays of what the renderers
    print. *)
Definition dashboard_printable (u s p t : value) : bool :=
  match regimeOf u s, Get s "signals", Get p "portfolios", Get t "scenarios" with
  | Ok regime, Ok signals, Ok portfolios, Ok scenarios =>
      convertible regime &&
      table_printable (or_else signals (VArr [])) &&
      array_of card_printable (or_else portfolios (VArr [])) &&
      array_of scenario_printable (or_else scenarios (VArr []))
  | _, _, _, _ => false
  end.

End Notions.

(** * Properties *)

Import Num JS App Spec.

(** ** Arithmetic of binary64 *)

Module NumFacts.

Lemma digits2_pos_lower (m : positive) : 2 ^ (Zpos (digits2_pos m) - 1) <= Zpos m.
Proof.
  induction m as [m IH | m IH |]; cbn [digits2_pos].
  - rewrite Pos2Z.inj_succ. replace (Z.succ (Zpos (digits2_pos m)) - 1) with (Z.succ (Zpos (digits2_pos m) - 1)) by lia.
    rewrite Z.pow_succ_r by lia. lia.
  - rewrite Pos2Z.inj_succ. replace (Z.succ (Zpos (digits2_pos m)) - 1) with (Z.succ (Zpos (digits2_pos m) - 1)) by lia.
    rewrite Z.pow_succ_r by lia. lia.
  - reflexivity.
Qed.

Lemma digits2_pos_upper (m : positive) : Zpos m < 2 ^ Zpos (digits2_pos m).
Proof.
  induction m as [m IH | m IH |]; cbn [digits2_pos].
  - rewrite Pos2Z.inj_succ, Z.pow_succ_r by lia. lia.
  - rewrite Pos2Z.inj_succ, Z.pow_succ_r by lia. lia.
  - reflexivity.
Qed.

Lemma shr_1_m (mrs : shr_record) :
  0 <= shr_m mrs -> shr_m (shr_1 mrs) = shr_m mrs / 2.
Proof.
  destruct mrs as [m r s]; cbn [shr_m]. intros Hm.
  destruct m as [|[p|p|]|p]; cbn [shr_1 shr_m]; try lia; try reflexivity.
  - apply Z.div_unique with (r := 1); lia.
  - apply Z.div_unique with (r := 0); lia.
Qed.

Lemma pow2_xO (p : positive) : 2 ^ Zpos p~0 = 2 ^ Zpos p * 2 ^ Zpos p.
Proof. rewrite Pos2Z.inj_xO, <- Z.pow_add_r by lia. f_equal. lia. Qed.

Lemma pow2_xI (p : positive) : 2 ^ Zpos p~1 = 2 * (2 ^ Zpos p * 2 ^ Zpos p).
Proof.
  rewrite Pos2Z.inj_xI, <- Z.pow_add_r by lia.
  replace (2 * Zpos p + 1) with (Z.succ (Zpos p + Zpos p)) by lia.
  rewrite Z.pow_succ_r by lia. reflexivity.
Qed.

Lemma iter_shr_1_m (p : positive) : forall mrs,
  0 <= shr_m mrs -> shr_m (SpecFloat.iter_pos shr_1 p mrs) = shr_m mrs / 2 ^ Zpos p.
Proof.
  induction p as [p IH | p IH |]; intros mrs Hm; cbn [SpecFloat.iter_pos].
  - assert (H1 : 0 <= shr_m (shr_1 mrs)) by (rewrite shr_1_m by lia; apply Z.div_pos; lia).
    assert (H2 : 0 <= shr_m (SpecFloat.iter_pos shr_1 p (shr_1 mrs))) by (rewrite IH by lia; apply Z.div_pos; lia).
    rewrite IH, IH, shr_1_m by lia.
    rewrite !Z.div_div by lia. rewrite pow2_xI. reflexivity.
  - assert (H2 : 0 <= shr_m (SpecFloat.iter_pos shr_1 p mrs)) by (rewrite IH by lia; apply Z.div_pos; lia).
    rewrite IH, IH by lia.
    rewrite !Z.div_div by lia. rewrite pow2_xO. reflexivity.
  - rewrite shr_1_m by lia. reflexivity.
Qed.

(** A positive mantissa at an exponent not below [emin] stays positive
    through the shift that brings it to its canonical exponent. *)
Lemma shr_fexp_pos (m e : Z) (l : location) :
  0 < m -> emin prec emax <= e ->
  0 < shr_m (fst (shr_fexp prec emax m e l)) /\ emin prec emax <= snd (shr_fexp prec emax m e l).
Proof.
  intros Hm He. unfold shr_fexp.
  assert (Hrec : shr_m (shr_record_of_loc m l) = m) by (destruct l as [|[]]; reflexivity).
  destruct m as [|p|p]; try lia. cbn [Zdigits2].
  unfold shr.
  destruct (fexp prec emax (Zpos (digits2_pos p) + e) - e) as [|n|n] eqn:En; cbn [fst snd];
    try (rewrite Hrec; lia).
  rewrite iter_shr_1_m by (rewrite Hrec; lia). rewrite Hrec. split; [|lia].
  assert (Hn : Zpos n <= Zpos (digits2_pos p) - 1).
  { unfold fexp, prec in *. lia. }
  pose proof (digits2_pos_lower p) as Hlo.
  assert (Hle : 2 ^ Zpos n <= 2 ^ (Zpos (digits2_pos p) - 1)) by (apply Z.pow_le_mono_r; lia).
  apply Z.div_str_pos. lia.
Qed.

Lemma round_nearest_even_pos (m : Z) (l : location) : 0 < m -> 0 < round_nearest_even m l.
Proof. intros Hm. destruct l as [|[]]; cbn; try lia. destruct (Z.even m); lia. Qed.

Lemma binary_round_aux_signed (s : bool) (m e : Z) (l : location) :
  0 < m -> emin prec emax <= e -> signed s (binary_round_aux prec emax s m e l).
Proof.
  intros Hm He. unfold binary_round_aux.
  pose proof (shr_fexp_pos m e l Hm He) as [H1 H1'].
  destruct (shr_fexp prec emax m e l) as [mrs' e'] eqn:E1. cbn [fst snd] in *.
  pose proof (round_nearest_even_pos (shr_m mrs') (loc_of_shr_record mrs') H1) as H2.
  pose proof (shr_fexp_pos _ e' loc_Exact H2 H1') as [H3 H3'].
  destruct (shr_fexp prec emax _ e' loc_Exact) as [mrs'' e''] eqn:E2. cbn [fst snd] in *.
  destruct (shr_m mrs'') as [|q|q]; try lia.
  destruct (e'' <=? emax - prec); constructor; assumption.
Qed.

Lemma binary_round_signed (s : bool) (m : positive) (e : Z) :
  emin prec emax <= e -> signed s (binary_round prec emax s m e).
Proof.
  intros He. unfold binary_round, shl_align.
  destruct (fexp prec emax (Zpos (digits2_pos m) + e) - e) eqn:En;
    apply binary_round_aux_signed; try lia.
  unfold fexp. lia.
Qed.

Lemma iter_xO_value (d m : positive) : Zpos (Pos.iter xO m d) = Zpos m * 2 ^ Zpos d.
Proof.
  induction d as [|d IH] using Pos.peano_ind.
  - cbn. lia.
  - rewrite Pos.iter_succ, Pos2Z.inj_xO, IH, Pos2Z.inj_succ, Z.pow_succ_r by lia. lia.
Qed.

Lemma shl_align_value (m : positive) (e e' : Z) :
  e' <= e -> Zpos (fst (shl_align m e e')) = Zpos m * 2 ^ (e - e').
Proof.
  intros He. unfold shl_align.
  destruct (e' - e) as [|d|d] eqn:Ed; cbn [fst]; try lia.
  - replace (e - e') with 0 by lia. lia.
  - rewrite iter_xO_value. f_equal. f_equal. lia.
Qed.

(** Canonical mantissas: at most [prec] digits, and exactly [prec] above [emin]. *)
Lemma canonical_digits (m : positive) (e : Z) :
  canonical_mantissa prec emax m e = true ->
  emin prec emax <= e /\ Zpos (digits2_pos m) <= prec /\
  (emin prec emax < e -> Zpos (digits2_pos m) = prec).
Proof.
  unfold canonical_mantissa, fexp. intros H. apply Z.eqb_eq in H. unfold prec in *. lia.
Qed.

Lemma compare_aligned (mx my : positive) (ex ey : Z) :
  canonical_mantissa prec emax mx ex = true ->
  canonical_mantissa prec emax my ey = true ->
  SFcompare (S754_finite false mx ex) (S754_finite false my ey) =
  Some (Zpos (fst (shl_align mx ex (Z.min ex ey))) ?= Zpos (fst (shl_align my ey (Z.min ex ey)))).
Proof.
  intros Hx Hy.
  apply canonical_digits in Hx as (Hx1 & Hx2 & Hx3).
  apply canonical_digits in Hy as (Hy1 & Hy2 & Hy3).
  rewrite !shl_align_value by lia.
  pose proof (digits2_pos_lower mx) as Lx. pose proof (digits2_pos_upper mx) as Ux.
  pose proof (digits2_pos_lower my) as Ly. pose proof (digits2_pos_upper my) as Uy.
  cbn [SFcompare]. f_equal.
  destruct (Z.compare_spec ex ey) as [E|E|E].
  - subst ey. rewrite Z.min_id, Z.sub_diag, Z.pow_0_r, !Z.mul_1_r. reflexivity.
  - rewrite Z.min_l by lia. rewrite Z.sub_diag, Z.pow_0_r, Z.mul_1_r.
    symmetry. apply Z.compare_lt_iff.
    rewrite Hy3 in Ly by lia.
    assert (Hp : 2 ^ 1 <= 2 ^ (ey - ex)) by (apply Z.pow_le_mono_r; lia).
    assert (Hq : 2 ^ Zpos (digits2_pos mx) <= 2 ^ prec) by (apply Z.pow_le_mono_r; lia).
    assert (Hr : 2 ^ prec = 2 * 2 ^ (prec - 1)) by reflexivity.
    nia.
  - rewrite Z.min_r by lia. rewrite Z.sub_diag, Z.pow_0_r, Z.mul_1_r.
    symmetry. apply Z.compare_gt_iff.
    rewrite Hx3 in Lx by lia.
    assert (Hp : 2 ^ 1 <= 2 ^ (ex - ey)) by (apply Z.pow_le_mono_r; lia).
    assert (Hq : 2 ^ Zpos (digits2_pos my) <= 2 ^ prec) by (apply Z.pow_le_mono_r; lia).
    assert (Hr : 2 ^ prec = 2 * 2 ^ (prec - 1)) by reflexivity.
    nia.
Qed.

Lemma signed_gt0 (s : bool) (x : float) : signed s x -> gt x pzero = negb s.
Proof. intros [m e _|]; destruct s; reflexivity. Qed.

(** On valid non-negative numbers the sign of a difference is the order. *)
Lemma sub_gt_0 (a b : float) :
  valid a = true -> valid b = true ->
  nonneg a -> nonneg b ->
  gt (sub b a) pzero = lt a b.
Proof.
  intros Va Vb Na Nb.
  destruct a as [[]|[]| |[] mx ex], b as [[]|[]| |[] my ey]; try contradiction; try reflexivity.
  unfold valid in Va, Vb. cbn [valid_binary] in Va, Vb. unfold bounded in Va, Vb.
  apply andb_true_iff in Va as [Ca _], Vb as [Cb _].
  unfold lt, SFltb. rewrite (compare_aligned _ _ _ _ Ca Cb).
  unfold sub, SFsub. cbn [cond_Zopp].
  rewrite (Z.min_comm ex ey).
  apply canonical_digits in Ca as (Ha & _), Cb as (Hb & _).
  set (A := Zpos (fst (shl_align mx ex (Z.min ey ex)))).
  set (B := Zpos (fst (shl_align my ey (Z.min ey ex)))).
  destruct (Z.compare_spec A B) as [E|E|E].
  - rewrite E, Z.sub_diag. reflexivity.
  - destruct (B - A) as [|d|d] eqn:Ed; try lia. cbn [binary_normalize].
    apply (signed_gt0 false), binary_round_signed. lia.
  - destruct (B - A) as [|d|d] eqn:Ed; try lia. cbn [binary_normalize].
    apply (signed_gt0 true), binary_round_signed. lia.
Qed.

Lemma compare_cont_antisym (p q : positive) :
  Pos.compare_cont Eq q p = CompOpp (Pos.compare_cont Eq p q).
Proof. apply (Pos.compare_antisym p q). Qed.

Lemma SFcompare_antisym (a b : float) :
  SFcompare b a = option_map CompOpp (SFcompare a b).
Proof.
  destruct a as [[]|[]| |[] m1 e1], b as [[]|[]| |[] m2 e2]; try reflexivity;
    cbn [SFcompare option_map]; f_equal;
    rewrite (Z.compare_antisym e1 e2); destruct (e1 ?= e2); cbn [CompOpp]; try reflexivity;
    rewrite compare_cont_antisym; try reflexivity;
    rewrite ?CompOpp_involutive; reflexivity.
Qed.

Lemma lt_not_le (a b : float) : lt a b = true -> le b a = false.
Proof.
  unfold lt, le, SFltb, SFleb. rewrite (SFcompare_antisym a b).
  destruct (SFcompare a b) as [[]|]; cbn; congruence.
Qed.

Lemma le_or_lt (a b : float) :
  isNaN a = false -> isNaN b = false -> lt a b = false -> le b a = true.
Proof.
  unfold lt, le, SFltb, SFleb. rewrite (SFcompare_antisym a b). intros Ha Hb.
  destruct (SFcompare a b) as [[]|] eqn:E; cbn; try congruence.
  destruct a as [[]|[]| |[] m1 e1], b as [[]|[]| |[] m2 e2]; discriminate.
Qed.

Lemma le_key (a b : float) :
  le a b = true <-> isNaN a = false /\ isNaN b = false /\ key_le (key a) (key b).
Proof.
  unfold le, SFleb.
  destruct a as [[]|[]| |[] m1 e1], b as [[]|[]| |[] m2 e2]; cbn [SFcompare key key_le isNaN];
    try (split; [intros _; repeat split; lia | reflexivity]);
    try (split; [discriminate | intros (? & ? & ?); first [discriminate | lia]]).
  - destruct (Z.compare_spec e1 e2) as [E|E|E].
    + subst. change (Pos.compare_cont Eq m1 m2) with (Zpos m1 ?= Zpos m2).
      destruct (Z.compare_spec (Zpos m1) (Zpos m2)); cbn [CompOpp];
        (split; [intros; repeat split; try reflexivity; lia | intros (_ & _ & ?); first [reflexivity | lia]]) || (split; [discriminate | intros (_ & _ & ?); lia]).
    + split; [discriminate | intros (_ & _ & ?); lia].
    + split; [intros; repeat split; try reflexivity; lia | reflexivity].
  - destruct (Z.compare_spec e1 e2) as [E|E|E].
    + subst. change (Pos.compare_cont Eq m1 m2) with (Zpos m1 ?= Zpos m2).
      destruct (Z.compare_spec (Zpos m1) (Zpos m2));
        (split; [intros; repeat split; try reflexivity; lia | intros (_ & _ & ?); first [reflexivity | lia]]) || (split; [discriminate | intros (_ & _ & ?); lia]).
    + split; [intros; repeat split; try reflexivity; lia | reflexivity].
    + split; [discriminate | intros (_ & _ & ?); lia].
Qed.

Lemma le_trans (a b c : float) : le a b = true -> le b c = true -> le a c = true.
Proof.
  rewrite !le_key. intros (Ha & Hb & H1) (_ & Hc & H2). repeat split; try assumption.
  destruct (key a) as [[a1 a2] a3], (key b) as [[b1 b2] b3], (key c) as [[c1 c2] c3].
  cbn in *. lia.
Qed.

Lemma valid_exp_ok (x : float) : valid x = true -> exp_ok x.
Proof.
  destruct x as [| | |s m e]; cbn; try exact (fun _ => I).
  unfold bounded. intros H. apply andb_true_iff in H as [H _].
  apply canonical_digits in H. tauto.
Qed.

Lemma signed_exp_ok (s : bool) (x : float) : signed s x -> exp_ok x /\ x <> S754_zero true.
Proof. intros [m e He|]; split; cbn; try assumption; try exact I; discriminate. Qed.

(** Adding [+0] changes nothing but the sign of [-0]. *)
Lemma add_pzero (a : float) : a <> S754_zero true -> add a pzero = a.
Proof. destruct a as [[]| | |]; intros H; try reflexivity. contradiction H. reflexivity. Qed.

(** A sum that is not [-0] stays so, whatever is added. *)
Lemma add_keeps (a x : float) :
  a <> S754_zero true -> exp_ok a -> exp_ok x ->
  add a x <> S754_zero true /\ exp_ok (add a x).
Proof.
  intros Ha Ea Ex.
  destruct a as [[]|[]| |sa ma ea], x as [[]|[]| |sx mx ex]; cbn;
    try (split; [discriminate | first [exact I | assumption]]);
    try (contradiction Ha; reflexivity).
  cbn in Ea, Ex. unfold add, SFadd.
  set (D := cond_Zopp sa _ + cond_Zopp sx _).
  destruct D as [|d|d]; cbn [binary_normalize].
  - split; [discriminate | exact I].
  - pose proof (binary_round_signed false d (Z.min ea ex) ltac:(lia)) as H.
    apply signed_exp_ok in H. tauto.
  - pose proof (binary_round_signed true d (Z.min ea ex) ltac:(lia)) as H.
    apply signed_exp_ok in H. tauto.
Qed.

(** A positive integer converts to a positive number. *)
Lemma of_Z_pos (n : Z) : 0 < n -> gt (of_Z n) pzero = true.
Proof.
  intros Hn. destruct n as [|p|p]; try lia.
  apply (signed_gt0 false). apply binary_round_signed. unfold emin, prec, emax. lia.
Qed.

(** A result rounded with a negative sign is not positive. *)
Lemma binary_round_aux_negative (m e : Z) (l : location) :
  gt (binary_round_aux prec emax true m e l) pzero = false.
Proof.
  unfold binary_round_aux.
  destruct (shr_fexp prec emax m e l) as [mrs' e'].
  destruct (shr_fexp prec emax _ e' loc_Exact) as [mrs'' e''].
  destruct (shr_m mrs'') as [|q|q]; try reflexivity.
  destruct (e'' <=? emax - prec); reflexivity.
Qed.

Lemma binary_normalize_positive (D e : Z) :
  gt (binary_normalize prec emax D e false) pzero = true -> 0 < D.
Proof.
  destruct D as [|d|d]; cbn [binary_normalize]; [discriminate | lia |].
  unfold binary_round. destruct (shl_align _ _ _) as [mz ez].
  rewrite binary_round_aux_negative. discriminate.
Qed.

(** Two differences taken in opposite order are not both positive. *)
Lemma sub_antisym (a b : float) :
  gt (sub a b) pzero = true -> gt (sub b a) pzero = false.
Proof.
  destruct a as [[]|[]| |sa ma ea], b as [[]|[]| |sb mb eb];
    try reflexivity; try discriminate;
    try (destruct sa; try reflexivity; discriminate);
    try (destruct sb; try reflexivity; discriminate).
  unfold sub, SFsub. intros H. apply binary_normalize_positive in H.
  rewrite (Z.min_comm eb ea).
  destruct (gt (binary_normalize prec emax _ (Z.min ea eb) false) pzero) eqn:E; [|reflexivity].
  apply binary_normalize_positive in E. lia.
Qed.

End NumFacts.

(** ** Float order facts used by the classification *)

Module OrderFacts.

Import NumFacts.

Lemma gt_zero_not_le (x : float) : isNaN x = false -> gt x pzero = negb (le x pzero).
Proof. destruct x as [[]|[]| |[] m e]; intros H; try reflexivity; discriminate. Qed.

Lemma le_1_1_not_ge_1_3 (r : float) : le r c_1_1 = true -> ge r c_1_3 = false.
Proof.
  intros H. unfold ge. destruct (SFleb c_1_3 r) eqn:E; [|reflexivity].
  pose proof (le_trans _ _ _ E H) as F. vm_compute in F. discriminate.
Qed.

End OrderFacts.

(** ** Exceptions in the renderers *)

Module RenderFacts.

Lemma Get_present (v : value) (k : string) :
  present v = true -> exists x, Get v k = Ok x.
Proof. destruct v; try discriminate; intros _; eexists; reflexivity. Qed.

Lemma Get_absent (v : value) (k : string) :
  present v = false -> Get v k = Throw TypeError.
Proof. destruct v; try discriminate; reflexivity. Qed.

Lemma Object_entries_present (v : value) :
  present v = true -> exists es, Object_entries v = Ok es.
Proof. destruct v; try discriminate; intros _; eexists; reflexivity. Qed.

Lemma call_toFixed_number (v : value) (f : nat) :
  typeof_number v = true -> exists t, call_toFixed v f = Ok t.
Proof. destruct v; try discriminate; intros _; eexists; reflexivity. Qed.

End RenderFacts.

(** ** The aggregate metrics *)

Module MetricFacts.

Import NumFacts RenderFacts.

(** The step of the sum on line 226, once reading [s.iv] has succeeded. *)
Lemma addIv_present (sum : float) (s : value) :
  present s = true ->
  addIv sum s = Ok (add sum (match numericIv s with Some x => x | None => pzero end)).
Proof.
  intros Hs. unfold addIv, numericIv.
  destruct (Get_present s "iv" Hs) as [iv ->]. cbn [mbind result_bind bind].
  destruct iv; reflexivity.
Qed.

Lemma foldM_addIv (signals : list value) : forall sum,
  Forall (fun s => present s = true) signals ->
  foldM addIv signals sum =
  Ok (fold_left (fun a s => add a (match numericIv s with Some x => x | None => pzero end))
                signals sum).
Proof.
  induction signals as [|s l IH]; intros sum H; [reflexivity|].
  inversion H as [|? ? Hs Hl]; subst. cbn [foldM fold_left].
  rewrite (addIv_present sum s Hs). cbn [mbind result_bind bind]. apply IH, Hl.
Qed.

(** Entries without a numeric implied volatility leave the sum as it is:
    the sum over all entries is the sum over the numeric ones. *)
Lemma sum_skips_non_numbers (signals : list value) : forall sum,
  sum <> S754_zero true -> exp_ok sum ->
  Forall (fun x => valid x = true) (numericIvs signals) ->
  fold_left (fun a s => add a (match numericIv s with Some x => x | None => pzero end))
            signals sum
  = fold_left add (numericIvs signals) sum.
Proof.
  induction signals as [|s l IH]; intros sum Hz He Hv; [reflexivity|].
  unfold numericIvs in *. cbn [fold_left omap list_omap] in *.
  destruct (numericIv s) as [x|]; cbn [fold_left] in *.
  - inversion Hv as [|? ? Hx Hl]; subst.
    destruct (add_keeps sum x Hz He (valid_exp_ok x Hx)) as [Hz' He'].
    apply IH; assumption.
  - rewrite (add_pzero sum Hz). apply IH; assumption.
Qed.

Lemma numericIvs_cons (s : value) (l : list value) :
  numericIvs (s :: l) =
  match numericIv s with Some x => x :: numericIvs l | None => numericIvs l end.
Proof. reflexivity. Qed.

Lemma finiteRanks_cons (s : value) (l : list value) :
  finiteRanks (s :: l) =
  match finiteRank s with Some x => x :: finiteRanks l | None => finiteRanks l end.
Proof. reflexivity. Qed.

Lemma hasNumericIv_present (s : value) :
  present s = true ->
  hasNumericIv s = Ok (match numericIv s with Some _ => true | None => false end).
Proof.
  intros Hs. unfold hasNumericIv, numericIv.
  destruct (Get_present s "iv" Hs) as [iv ->]. cbn [mbind result_bind bind].
  destruct iv; reflexivity.
Qed.

Lemma isFearful_present (s : value) :
  present s = true -> isFearful s = Ok (fearful s).
Proof.
  intros Hs. unfold isFearful, fearful.
  destruct (Get_present s "fear_level" Hs) as [f ->]. reflexivity.
Qed.

Lemma filterM_hasNumericIv (signals : list value) :
  Forall (fun s => present s = true) signals ->
  exists numeric, filterM hasNumericIv signals = Ok numeric /\
                  length numeric = length (numericIvs signals).
Proof.
  induction signals as [|s l IH]; intros H; [exists []; split; reflexivity|].
  inversion H as [|? ? Hs Hl]; subst. destruct (IH Hl) as (numeric & E & L).
  cbn [filterM]. rewrite (hasNumericIv_present s Hs), E, numericIvs_cons.
  cbn [mbind result_bind bind].
  destruct (numericIv s); eexists; (split; [reflexivity|]); cbn [length]; congruence.
Qed.

Lemma filterM_isFearful (signals : list value) :
  Forall (fun s => present s = true) signals ->
  filterM isFearful signals = Ok (List.filter fearful signals).
Proof.
  induction signals as [|s l IH]; intros H; [reflexivity|].
  inversion H as [|? ? Hs Hl]; subst.
  cbn [filterM List.filter]. rewrite (isFearful_present s Hs), (IH Hl). reflexivity.
Qed.

Lemma mapM_ivr (signals : list value) :
  Forall (fun s => present s = true) signals ->
  exists ivrs, mapM (fun s => Get s "ivr") signals = Ok ivrs /\
               mapM ToNumber (List.filter finiteNumber ivrs) = Ok (finiteRanks signals).
Proof.
  induction signals as [|s l IH]; intros H; [exists []; split; reflexivity|].
  inversion H as [|? ? Hs Hl]; subst. destruct (IH Hl) as (ivrs & E & L).
  cbn [mapM]. rewrite finiteRanks_cons. unfold finiteRank.
  destruct (Get_present s "ivr" Hs) as [v ->]. rewrite E. cbn [mbind result_bind bind].
  eexists; split; [reflexivity|].
  cbn [List.filter]. unfold finiteNumber at 1.
  destruct v as [| | |x| | |]; try exact L.
  destruct (isFinite x); [|exact L].
  cbn [mapM ToNumber]. rewrite L. reflexivity.
Qed.

(** What lines 225-235 compute on a collection whose entries can be
    read. *)
Lemma computeMetrics_present (signals : list value) :
  Forall (fun s => present s = true) signals ->
  exists m, computeMetrics signals = Ok m /\
    avgIv m = div (fold_left (fun a s => add a (match numericIv s with Some x => x | None => pzero end))
                             signals pzero)
                  (of_nat (length (numericIvs signals))) /\
    highFearCount m = length (List.filter fearful signals) /\
    maxIvr m = highest_of (finiteRanks signals).
Proof.
  intros H. unfold computeMetrics.
  rewrite (foldM_addIv signals pzero H). cbn [mbind result_bind bind].
  destruct (filterM_hasNumericIv signals H) as (numeric & -> & L). cbn [mbind result_bind bind].
  rewrite (filterM_isFearful signals H). cbn [mbind result_bind bind].
  destruct (mapM_ivr signals H) as (ivrs & -> & R). cbn [mbind result_bind bind].
  unfold Math_max. rewrite R. cbn [mbind result_bind bind].
  eexists; split; [reflexivity|]. cbn [avgIv highFearCount maxIvr].
  rewrite L. repeat split; reflexivity.
Qed.

(** [signals.length > 0] on a non-empty array. *)
Lemma length_positive (signals : list value) :
  signals <> [] -> gt (of_nat (length signals)) pzero = true.
Proof.
  intros H. apply of_Z_pos. destruct signals; [contradiction|]. cbn [length]. lia.
Qed.

Lemma updateMetrics_present (signals : list value) (d : dom) :
  signals <> [] -> Forall (fun s => present s = true) signals ->
  exists m, computeMetrics signals = Ok m /\ updateMetrics (VArr signals) d = (showMetrics m d, Ok ()).
Proof.
  intros Hne H. destruct (computeMetrics_present signals H) as (m & E & _).
  exists m. split; [exact E|]. unfold updateMetrics. cbn [Get].
  rewrite bool_decide_eq_true_2 by reflexivity. cbn [ToNumber mbind result_bind bind].
  rewrite (length_positive signals Hne). cbn [as_array mbind result_bind bind].
  rewrite E. reflexivity.
Qed.

(** The tiles after lines 237-245. *)
Lemma showMetrics_tiles (m : metrics) (d : dom) :
  metricHighFear (showMetrics m d)
  = write_tile (digits (N.of_nat (highFearCount m))) (metricHighFear d) /\
  (isFinite (avgIv m) = true ->
   metricAvgIv (showMetrics m d)
   = write_tile (toFixed (mul (avgIv m) c_100) 1 +:+ "%") (metricAvgIv d)) /\
  (isFinite (maxIvr m) = true ->
   metricMaxIvr (showMetrics m d) = write_tile (toFixed (maxIvr m) 2) (metricMaxIvr d)).
Proof.
  unfold showMetrics.
  destruct (isFinite (avgIv m)), (isFinite (maxIvr m)); repeat split; try discriminate;
    reflexivity.
Qed.

End MetricFacts.

(** ** The refresh cycle *)

Module CycleFacts.

Import NumFacts.

Lemma digits_inj (a b : N) : digits a = digits b -> a = b.
Proof.
  unfold digits. intros H. apply DecimalN.Unsigned.to_uint_inj.
  assert (Ha : N.to_uint a <> Decimal.Nil) by (destruct a as [|p]; cbn; [discriminate | apply DecimalPos.Unsigned.to_uint_nonnil]).
  assert (Hb : N.to_uint b <> Decimal.Nil) by (destruct b as [|p]; cbn; [discriminate | apply DecimalPos.Unsigned.to_uint_nonnil]).
  pose proof (NilZero.usu _ Ha) as Ua. pose proof (NilZero.usu _ Hb) as Ub.
  rewrite H in Ua. congruence.
Qed.

(** What fetchAPI does with a response, by kind. *)
Lemma fetchAPI_receive_kind (p : string) (r : outcome) (w : world) :
  fetchAPI_receive p r w =
  let w' := with_event (Settled (API_BASE +:+ p) r) w in
  match kind_of r with
  | Some SessionExpired => (showLogin (clearToken w'), Throw (raised SessionExpired))
  | Some k => (w', Throw (raised k))
  | None => (w', match r with Response _ (Some v) => Ok v | _ => Throw SyntaxError end)
  end.
Proof.
  unfold fetchAPI_receive, kind_of. destruct r as [|status body]; [reflexivity|].
  destruct (status =? 401)%N; [reflexivity|].
  destruct (negb (ok status)); [reflexivity|]. destruct body; reflexivity.
Qed.

Lemma isSessionExpired_raised (k : kind) :
  isSessionExpired (raised k) = true <-> k = SessionExpired.
Proof. destruct k; cbn; split; intros H; try reflexivity; discriminate. Qed.

(** *** What one response changes *)

Lemma receive_trace (p : string) (r : outcome) (w : world) :
  trace (fetchAPI_receive p r w).1 = trace w ++ [Settled (API_BASE +:+ p) r].
Proof. rewrite fetchAPI_receive_kind. cbn zeta. destruct (kind_of r) as [[]|]; reflexivity. Qed.

Lemma receive_page (p : string) (r : outcome) (w : world) :
  panels (document (fetchAPI_receive p r w).1) = panels (document w) /\
  tiles (document (fetchAPI_receive p r w).1) = tiles (document w).
Proof. rewrite fetchAPI_receive_kind. cbn zeta. destruct (kind_of r) as [[]|]; split; reflexivity. Qed.

Lemma receive_logged_out (p : string) (r : outcome) (w : world) :
  loggedOut w \/ kind_of r = Some SessionExpired -> loggedOut (fetchAPI_receive p r w).1.
Proof.
  rewrite fetchAPI_receive_kind. cbn zeta. unfold loggedOut, getToken.
  intros [[Ht Hs]|Hk].
  - destruct (kind_of r) as [[]|]; cbn; try (split; assumption).
    split; [apply lookup_delete_eq | reflexivity].
  - rewrite Hk. cbn. split; [apply lookup_delete_eq | reflexivity].
Qed.

Lemma receive_other (p : string) (r : outcome) (w : world) :
  kind_of r <> Some SessionExpired ->
  localStorage (fetchAPI_receive p r w).1 = localStorage w /\
  document (fetchAPI_receive p r w).1 = document w.
Proof.
  rewrite fetchAPI_receive_kind. cbn zeta.
  destruct (kind_of r) as [[]|]; intros H; try (split; reflexivity). contradiction H. reflexivity.
Qed.

Lemma receive_result (p : string) (r : outcome) (w : world) :
  (fetchAPI_receive p r w).2 =
  match kind_of r with
  | Some k => Throw (raised k)
  | None => match r with Response _ (Some v) => Ok v | _ => Throw SyntaxError end
  end.
Proof. rewrite fetchAPI_receive_kind. cbn zeta. destruct (kind_of r) as [[]|]; reflexivity. Qed.

Lemma succeeded_body (r : outcome) :
  kind_of r = None -> exists status v, r = Response status (Some v).
Proof.
  destruct r as [|status [v|]]; cbn; try discriminate.
  - intros _. eauto.
  - destruct (status =? 401)%N; [discriminate|]. destruct (negb (ok status)); discriminate.
Qed.

(** *** What the handlers change *)

Lemma onFailure_page (e : exn) (d : dom) :
  screens (onFailure e d) = screens d /\
  tiles (onFailure e d) = tiles d /\
  panels (onFailure e d) = if isSessionExpired e then panels d else failurePanels.
Proof. unfold onFailure. destruct (isSessionExpired e); repeat split; reflexivity. Qed.

Lemma keeps_lift {A} (r : result A) : keeps_screens (lift r).
Proof. intros d. reflexivity. Qed.

Lemma keeps_write (f : dom -> dom) :
  (forall d, screens (f d) = screens d) -> keeps_screens (write f).
Proof. intros H d. apply H. Qed.

Lemma keeps_bind {A B} (m : M A) (k : A -> M B) :
  keeps_screens m -> (forall a, keeps_screens (k a)) -> keeps_screens (m ≫= k).
Proof.
  intros Hm Hk d. unfold mbind, M_bind. specialize (Hm d).
  destruct (m d) as [d' [a|e]]; cbn [fst] in *; [rewrite Hk|]; exact Hm.
Qed.

Lemma keeps_updateMetrics (signals : value) : keeps_screens (updateMetrics signals).
Proof.
  intros d. unfold updateMetrics.
  destruct (_ ≫= _) as [len|e]; [|reflexivity].
  destruct (gt len pzero); [|reflexivity].
  destruct (_ ≫= _) as [m|e]; [|reflexivity].
  unfold showMetrics. destruct (isFinite (avgIv m)), (isFinite (maxIvr m)); reflexivity.
Qed.

Lemma keeps_renderDashboard (u s p t : value) : keeps_screens (renderDashboard u s p t).
Proof.
  unfold renderDashboard.
  repeat first
    [ apply keeps_lift
    | apply keeps_updateMetrics
    | apply keeps_write; intros; reflexivity
    | apply keeps_bind; [|intros ?] ].
Qed.

Lemma renderOrFail_screens (u s p t : value) (d : dom) :
  screens (renderOrFail u s p t d) = screens d.
Proof.
  unfold renderOrFail. pose proof (keeps_renderDashboard u s p t d) as H.
  destruct (renderDashboard u s p t d) as [d' [a|e]]; cbn [fst] in H; [exact H|].
  rewrite (proj1 (onFailure_page e d')). exact H.
Qed.

(** *** One step of the cycle *)

Lemma arrive_finished (w : world) (a : endpoint * outcome) :
  arrive (w, Finished) a = ((fetchAPI_receive (path a.1) a.2 w).1, Finished).
Proof. destruct a as [ep r]. unfold arrive. destruct (fetchAPI_receive _ _ _). reflexivity. Qed.

Lemma arrive_failure (w : world) (got : fulfilled) (a : endpoint * outcome) (k : kind) :
  kind_of a.2 = Some k ->
  arrive (w, Waiting got) a =
  (with_document (onFailure (raised k)) (fetchAPI_receive (path a.1) a.2 w).1, Finished).
Proof.
  destruct a as [ep r]. intros Hk. unfold arrive.
  pose proof (receive_result (path ep) r w) as Hr. cbn [fst snd] in *. rewrite Hk in Hr.
  destruct (fetchAPI_receive _ _ _) as [w' res]. cbn [fst snd] in *. subst res. reflexivity.
Qed.

Lemma arrive_success (w : world) (got : fulfilled) (ep : endpoint) (status : N) (v : value) :
  kind_of (Response status (Some v)) = None ->
  arrive (w, Waiting got) (ep, Response status (Some v)) =
  let w' := with_event (Settled (API_BASE +:+ path ep) (Response status (Some v))) w in
  let got' := fulfil ep v got in
  match universeRes got', signalsRes got', portfoliosRes got', stressRes got' with
  | Some u, Some s, Some p, Some t => (with_document (renderOrFail u s p t) w', Finished)
  | _, _, _, _ => (w', Waiting got')
  end.
Proof.
  intros Hk. unfold arrive. rewrite fetchAPI_receive_kind, Hk. reflexivity.
Qed.

Lemma response_of_fulfil (ep ep' : endpoint) (v : value) (got : fulfilled) :
  response_of ep' (fulfil ep v got) = if decide (ep = ep') then Some v else response_of ep' got.
Proof. destruct ep, ep'; reflexivity. Qed.

(** A value that comes in while another endpoint is still out leaves
    the cycle waiting and the page and the store as they are. *)
Lemma arrive_still_waiting (w : world) (got : fulfilled) (a : endpoint * outcome) (ep0 : endpoint) :
  succeeded a -> a.1 <> ep0 -> response_of ep0 got = None ->
  exists w',
    arrive (w, Waiting got) a = (w', Waiting (record_response got a)) /\
    response_of ep0 (record_response got a) = None /\
    document w' = document w /\ localStorage w' = localStorage w.
Proof.
  destruct a as [ep r]. unfold succeeded, record_response. cbn [fst snd]. intros Hk Hne H0.
  destruct (succeeded_body r Hk) as (status & v & ->).
  rewrite (arrive_success w got ep status v Hk). cbn zeta.
  assert (H0' : response_of ep0 (fulfil ep v got) = None).
  { rewrite response_of_fulfil. destruct (decide (ep = ep0)); [contradiction | exact H0]. }
  exists (with_event (Settled (API_BASE +:+ path ep) (Response status (Some v))) w).
  split; [|split; [exact H0'|split; reflexivity]].
  destruct (fulfil ep v got) as [gu gs gp gt].
  destruct gu, gs, gp, gt, ep0;
    cbn [response_of universeRes signalsRes portfoliosRes stressRes] in *;
    try discriminate; reflexivity.
Qed.

(** *** Runs of the cycle *)

Lemma arrive_trace (w : world) (c : cycle) (a : endpoint * outcome) :
  trace (arrive (w, c) a).1 = trace w ++ [Settled (API_BASE +:+ path a.1) a.2].
Proof.
  destruct c as [got|]; [|rewrite arrive_finished; apply receive_trace].
  destruct (kind_of a.2) as [k|] eqn:Hk.
  - rewrite (arrive_failure w got a k Hk). apply receive_trace.
  - destruct a as [ep r]. destruct (succeeded_body r Hk) as (status & v & ->).
    rewrite (arrive_success w got ep status v Hk). cbn zeta.
    destruct (fulfil ep v got) as [gu gs gp gt]. destruct gu, gs, gp, gt; reflexivity.
Qed.

Lemma run_trace (l : list (endpoint * outcome)) : forall w c,
  trace (fold_left arrive l (w, c)).1 = trace w ++ settlements l.
Proof.
  induction l as [|a l IH]; intros w c; cbn [fold_left settlements map].
  - symmetry. apply app_nil_r.
  - destruct (arrive (w, c) a) as [w' c'] eqn:E. rewrite IH.
    pose proof (arrive_trace w c a) as H. rewrite E in H. cbn [fst] in H. rewrite H.
    rewrite <- app_assoc. reflexivity.
Qed.

Lemma arrive_logged_out (w : world) (c : cycle) (a : endpoint * outcome) :
  loggedOut w \/ kind_of a.2 = Some SessionExpired -> loggedOut (arrive (w, c) a).1.
Proof.
  intros H. destruct c as [got|]; [|rewrite arrive_finished; apply receive_logged_out, H].
  destruct (kind_of a.2) as [k|] eqn:Hk.
  - rewrite (arrive_failure w got a k Hk). cbn [fst].
    pose proof (receive_logged_out (path a.1) a.2 w) as [Ht Hs]; [rewrite Hk; exact H|].
    split; [exact Ht|]. cbn [document with_document].
    rewrite (proj1 (onFailure_page _ _)). exact Hs.
  - destruct H as [[Ht Hs]|]; [|discriminate].
    destruct a as [ep r]. destruct (succeeded_body r Hk) as (status & v & ->).
    rewrite (arrive_success w got ep status v Hk). cbn zeta.
    destruct (fulfil ep v got) as [gu gs gp gt].
    destruct gu, gs, gp, gt; cbn [universeRes signalsRes portfoliosRes stressRes fst];
      (split; [exact Ht|]); cbn [document with_document with_event];
      rewrite ?renderOrFail_screens; exact Hs.
Qed.

Lemma run_logged_out (l : list (endpoint * outcome)) : forall w c,
  loggedOut w -> loggedOut (fold_left arrive l (w, c)).1.
Proof.
  induction l as [|a l IH]; intros w c H; [exact H|]. cbn [fold_left].
  pose proof (arrive_logged_out w c a (or_introl H)) as H'.
  destruct (arrive (w, c) a) as [w' c']. apply IH, H'.
Qed.

(** Once the cycle has ended, later responses change neither the panels
    nor the tiles. *)
Lemma run_finished (l : list (endpoint * outcome)) : forall w,
  (fold_left arrive l (w, Finished)).2 = Finished /\
  panels (document (fold_left arrive l (w, Finished)).1) = panels (document w) /\
  tiles (document (fold_left arrive l (w, Finished)).1) = tiles (document w).
Proof.
  induction l as [|a l IH]; intros w; [repeat split|]. cbn [fold_left].
  rewrite arrive_finished. destruct (IH (fetchAPI_receive (path a.1) a.2 w).1) as (Hc & Hp & Ht).
  destruct (receive_page (path a.1) a.2 w) as [Hp' Ht'].
  split; [exact Hc|]. split; congruence.
Qed.

(** While an endpoint is still out and every response is a value, the
    cycle waits: the page and the store stay as they are. *)
Lemma run_waiting (l : list (endpoint * outcome)) (ep0 : endpoint) : forall w got,
  Forall succeeded l -> ep0 ∉ map fst l -> response_of ep0 got = None ->
  exists w',
    fold_left arrive l (w, Waiting got) = (w', Waiting (fold_left record_response l got)) /\
    response_of ep0 (fold_left record_response l got) = None /\
    document w' = document w /\ localStorage w' = localStorage w.
Proof.
  induction l as [|a l IH]; intros w got Hs Hn H0; [exists w; repeat split; assumption|].
  inversion Hs as [|? ? Ha Hl]; subst. cbn [map] in Hn.
  apply not_elem_of_cons in Hn as [Hne Hn].
  destruct (arrive_still_waiting w got a ep0 Ha (not_eq_sym Hne) H0) as (w1 & E & H1 & Hd & Hst).
  cbn [fold_left]. rewrite E.
  destruct (IH w1 (record_response got a) Hl Hn H1) as (w2 & E2 & H2 & Hd2 & Hst2).
  exists w2. repeat split; [exact E2 | exact H2 | congruence | congruence].
Qed.

Lemma started_world (w : world) :
  document (started w) = showLoading (document w) /\
  localStorage (started w) = localStorage w /\
  trace (started w) = trace w ++ requests w.
Proof.
  repeat split; try reflexivity.
  unfold started, requests, endpoints, fetchAPI_send, authorization.
  cbn [fold_left map with_event trace]. rewrite <- !app_assoc. reflexivity.
Qed.

Lemma loadDashboard_started (arrivals : list (endpoint * outcome)) (w : world) :
  loadDashboard arrivals w = fold_left arrive arrivals (started w, Waiting none_yet).
Proof. reflexivity. Qed.

(** The first failure ends the cycle: the tiles are as before the
    refresh, the panels show the failure or, for an expired session,
    still the loading placeholders. *)
Lemma run_first_failure (pre post : list (endpoint * outcome)) (a : endpoint * outcome)
      (k : kind) (w : world) :
  Forall succeeded pre -> a.1 ∉ map fst pre -> kind_of a.2 = Some k ->
  (loadDashboard (pre ++ a :: post) w).2 = Finished /\
  tiles (document (loadDashboard (pre ++ a :: post) w).1) = tiles (document w) /\
  panels (document (loadDashboard (pre ++ a :: post) w).1)
  = if isSessionExpired (raised k) then loadingPanels else failurePanels.
Proof.
  intros Hpre Hn Hk. rewrite loadDashboard_started, fold_left_app.
  destruct (run_waiting pre a.1 (started w) none_yet Hpre Hn) as (w1 & -> & _ & Hd & _);
    [destruct a as [[] ?]; reflexivity|].
  cbn [fold_left]. rewrite (arrive_failure w1 _ a k Hk).
  destruct (run_finished post (with_document (onFailure (raised k))
                                 (fetchAPI_receive (path a.1) a.2 w1).1)) as (Hc & Hp & Ht).
  destruct (receive_page (path a.1) a.2 w1) as [Hp1 Ht1].
  destruct (onFailure_page (raised k) (document (fetchAPI_receive (path a.1) a.2 w1).1))
    as (_ & Ht2 & Hp2).
  split; [exact Hc|]. rewrite Hp, Ht. cbn [document with_document].
  rewrite Hp2, Ht2, Hp1, Ht1, Hd. rewrite (proj1 (started_world w)).
  split; [reflexivity|]. destruct (isSessionExpired (raised k)); reflexivity.
Qed.




(** No request follows a response among requests sent ahead of the
    responses. *)
Lemma nothing_after (reqs sets l1 l2 : list event) (x : event) :
  Forall (fun e => is_request e = true) reqs ->
  Forall (fun e => is_request e = false) sets ->
  reqs ++ sets = l1 ++ x :: l2 -> is_request x = false ->
  Forall (fun e => is_request e = false) l2.
Proof.
  revert l1. induction reqs as [|r reqs IH]; intros l1 Hr Hs E Hx.
  - cbn in E. subst sets. apply Forall_app in Hs as [_ Hs]. apply Forall_cons_1 in Hs. tauto.
  - apply Forall_cons_1 in Hr as [Hr Hrs]. destruct l1 as [|y l1]; cbn in E.
    + injection E as -> _. congruence.
    + injection E as _ E. exact (IH l1 Hrs Hs E Hx).
Qed.

Lemma requests_are_requests (w : world) : Forall (fun e => is_request e = true) (requests w).
Proof. repeat constructor. Qed.

Lemma settlements_are_not (l : list (endpoint * outcome)) :
  Forall (fun e => is_request e = false) (settlements l).
Proof. induction l; constructor; [reflexivity | assumption]. Qed.

End CycleFacts.

(** ** Sorting with a comparator *)

Module SortFacts.

Import NumFacts.

Section Comparator.

Context {A : Type} (compare : A -> A -> float).

(** The comparator never asks for both orders. *)
Hypothesis consistent :
  forall x y, gt (compare x y) pzero = true -> gt (compare y x) pzero = false.

Lemma insert_sorted_perm (x : A) (l : list A) :
  Permutation (insert_sorted compare x l) (x :: l).
Proof.
  induction l as [|y l IH]; cbn [insert_sorted]; [reflexivity|].
  destruct (gt (compare x y) pzero); [|reflexivity].
  rewrite IH. apply perm_swap.
Qed.

Lemma stable_sort_perm (l : list A) : Permutation (stable_sort compare l) l.
Proof.
  induction l as [|x l IH]; [reflexivity|].
  unfold stable_sort in *. cbn [foldr]. rewrite insert_sorted_perm. constructor. exact IH.
Qed.

Lemma insert_sorted_head (x y : A) (l : list A) :
  HdRel (in_order compare) y l -> in_order compare y x ->
  HdRel (in_order compare) y (insert_sorted compare x l).
Proof.
  intros Hl Hx. destruct l as [|z l]; cbn [insert_sorted]; [constructor; exact Hx|].
  destruct (gt (compare x z) pzero); constructor; [|exact Hx].
  inversion Hl; assumption.
Qed.

Lemma insert_sorted_sorted (x : A) (l : list A) :
  Sorted (in_order compare) l -> Sorted (in_order compare) (insert_sorted compare x l).
Proof.
  induction l as [|y l IH]; intros Hs; cbn [insert_sorted]; [repeat constructor|].
  inversion Hs as [|? ? Hl Hy]; subst.
  destruct (gt (compare x y) pzero) eqn:E.
  - constructor; [apply IH, Hl|]. apply insert_sorted_head; [exact Hy|].
    apply consistent, E.
  - constructor; [exact Hs|]. constructor. exact E.
Qed.

Lemma stable_sort_sorted (l : list A) : Sorted (in_order compare) (stable_sort compare l).
Proof.
  induction l as [|x l IH]; [constructor|].
  unfold stable_sort in *. cbn [foldr]. apply insert_sorted_sorted, IH.
Qed.

(** Sorting what is in order already changes nothing. *)
Lemma stable_sort_id (l : list A) :
  Sorted (in_order compare) l -> stable_sort compare l = l.
Proof.
  induction l as [|x l IH]; intros Hs; [reflexivity|].
  inversion Hs as [|? ? Hl Hx]; subst.
  unfold stable_sort in *. cbn [foldr]. rewrite (IH Hl).
  destruct l as [|y l]; [reflexivity|]. cbn [insert_sorted].
  inversion Hx as [|? ? Hxy]; subst. unfold in_order in Hxy. rewrite Hxy. reflexivity.
Qed.

(** The sort of the script, with a comparator that may throw, is this
    sort as long as the comparator returns on the elements of the list. *)
Context (comparefn : A -> A -> result float).

Lemma sort_insert_returns (x : A) (l : list A) :
  (forall y, y ∈ l -> comparefn x y = Ok (compare x y)) ->
  sort_insert comparefn x l = Ok (insert_sorted compare x l).
Proof.
  induction l as [|y l IH]; intros H; [reflexivity|].
  cbn [sort_insert insert_sorted]. rewrite (H y) by left.
  cbn [mbind result_bind bind].
  destruct (gt (compare x y) pzero); [|reflexivity].
  rewrite IH; [reflexivity|]. intros z Hz. apply H. right. exact Hz.
Qed.

Lemma Array_sort_returns (l : list A) :
  (forall x y, x ∈ l -> y ∈ l -> comparefn x y = Ok (compare x y)) ->
  Array_sort comparefn l = Ok (stable_sort compare l).
Proof.
  induction l as [|x l IH]; intros H; [reflexivity|].
  cbn [Array_sort]. rewrite IH by (intros y z Hy Hz; apply H; right; assumption).
  cbn [mbind result_bind bind]. unfold stable_sort. cbn [foldr].
  apply sort_insert_returns. intros y Hy. apply H; [left|]. right.
  rewrite <- (stable_sort_perm l). exact Hy.
Qed.

End Comparator.

Lemma Sorted_take {A} (R : A -> A -> Prop) (n : nat) : forall l,
  Sorted R l -> Sorted R (take n l).
Proof.
  induction n as [|n IH]; intros l Hs; [constructor|].
  destruct l as [|x l]; [constructor|]. inversion Hs as [|? ? Hl Hx]; subst.
  cbn [take]. constructor; [apply IH, Hl|].
  destruct Hx as [|y l' Hxy]; destruct n; cbn [take]; constructor; assumption.
Qed.

(** Sortedness moves along an implication that holds on the elements
    of the list. *)
Lemma Sorted_on {A} (P : A -> Prop) (R R' : A -> A -> Prop) (l : list A) :
  (forall x y, P x -> P y -> R x y -> R' x y) ->
  Forall P l -> Sorted R l -> Sorted R' l.
Proof.
  intros H. induction l as [|x l IH]; intros Hp Hs; [constructor|].
  inversion Hp as [|? ? Px Pl]; subst. inversion Hs as [|? ? Hl Hx]; subst.
  constructor; [apply IH; assumption|].
  destruct l as [|y l]; [constructor|]. constructor.
  inversion Pl; subst. inversion Hx; subst. apply H; assumption.
Qed.

Lemma filter_all {A} (p : A -> bool) (l : list A) :
  Forall (fun x => p x = true) l -> List.filter p l = l.
Proof.
  induction l as [|x l IH]; intros H; [reflexivity|].
  inversion H as [|? ? Hx Hl]; subst. cbn [List.filter]. rewrite Hx, (IH Hl). reflexivity.
Qed.

(** *** The comparator of the drift ranking *)

Lemma by_abs_desc_consistent (x y : string * value) :
  gt (by_abs_desc x y) pzero = true -> gt (by_abs_desc y x) pzero = false.
Proof. unfold by_abs_desc. apply sub_antisym. Qed.

Lemma abs_valid (x : float) : valid x = true -> valid (abs x) = true.
Proof. destruct x; intros H; exact H. Qed.

Lemma gt_not_nan (a b : float) : gt a b = true -> isNaN a = false.
Proof. destruct a, b; try reflexivity; discriminate. Qed.

Lemma ranked_abs (e : string * value) :
  ranked_number e ->
  valid (abs_of e.2) = true /\ nonneg (abs_of e.2) /\ isNaN (abs_of e.2) = false.
Proof.
  intros [(x & Hx & Hv) Hk]. unfold above_threshold in Hk. rewrite Hx in *.
  change (abs_of (VNum x)) with (abs x) in *.
  pose proof (gt_not_nan _ _ Hk) as Hn.
  split; [apply abs_valid, Hv|]. split; [|exact Hn].
  destruct x as [[]|[]| |[] m e']; cbn; try exact I; discriminate.
Qed.

(** On numbers that were kept, the order of the comparator is the
    descending order of absolute value. *)
Lemma in_order_desc (x y : string * value) :
  ranked_number x -> ranked_number y ->
  (in_order by_abs_desc x y <-> desc_abs x y).
Proof.
  intros Hx Hy.
  destruct (ranked_abs x Hx) as (Vx & Nx & Ax), (ranked_abs y Hy) as (Vy & Ny & Ay).
  unfold in_order, by_abs_desc, desc_abs.
  rewrite (sub_gt_0 (abs_of x.2) (abs_of y.2) Vx Vy Nx Ny).
  split.
  - intros H. apply le_or_lt; assumption.
  - intros H. destruct (lt (abs_of x.2) (abs_of y.2)) eqn:E; [|reflexivity].
    apply lt_not_le in E. congruence.
Qed.

End SortFacts.

(** ** The printed form of a percentage *)

Module PrintFacts.

Import NumFacts.

Lemma append_cons (x : ascii) (a b : string) : String x a +:+ b = String x (a +:+ b).
Proof. reflexivity. Qed.

Lemma append_assoc (a b c : string) : (a +:+ b) +:+ c = a +:+ b +:+ c.
Proof.
  induction a as [|x a IH]; [reflexivity|]. rewrite !append_cons, IH. reflexivity.
Qed.

Lemma length_append (a b : string) :
  String.length (a +:+ b) = (String.length a + String.length b)%nat.
Proof.
  induction a as [|x a IH]; [reflexivity|]. rewrite append_cons. cbn [String.length].
  rewrite IH. reflexivity.
Qed.

Lemma all_digits_append (a b : string) :
  all_digits (a +:+ b) = all_digits a && all_digits b.
Proof.
  induction a as [|x a IH]; [reflexivity|]. rewrite append_cons. cbn [all_digits].
  rewrite IH. apply andb_assoc.
Qed.

Lemma zeros_digits (k : nat) : all_digits (zeros k) = true /\ String.length (zeros k) = k.
Proof.
  induction k as [|k [IH1 IH2]]; [split; reflexivity|].
  unfold zeros in *. cbn [repeat string_of_list_ascii all_digits String.length].
  rewrite IH1, IH2. split; reflexivity.
Qed.

Lemma uint_digits (d : Decimal.uint) : all_digits (NilEmpty.string_of_uint d) = true.
Proof. induction d; cbn; try reflexivity; assumption. Qed.

Lemma digits_digits (n : N) : all_digits (digits n) = true /\ digits n <> "".
Proof.
  unfold digits, NilZero.string_of_uint.
  destruct (N.to_uint n) as [|d|d|d|d|d|d|d|d|d|d] eqn:E;
    (split; [first [reflexivity | apply (uint_digits d)] | cbn; discriminate]).
Qed.

Lemma substring_head (j : nat) (x : ascii) (m : string) :
  substring 0 (S j) (String x m) = String x (substring 0 j m).
Proof. reflexivity. Qed.

Lemma substring_tail (j k : nat) (x : ascii) (m : string) :
  substring (S j) k (String x m) = substring j k m.
Proof. reflexivity. Qed.

(** The last character of a non-empty string and what is before it. *)
Lemma last_split (m : string) :
  m <> "" ->
  exists a c, substring 0 (String.length m - 1) m = a /\
              substring (String.length m - 1) 1 m = String c "" /\
              m = a +:+ String c "".
Proof.
  induction m as [|x m IH]; intros H; [contradiction|].
  destruct m as [|y m].
  - exists "", x. repeat split.
  - destruct IH as (a & c & H1 & H2 & H3); [discriminate|].
    exists (String x a), c.
    cbn [String.length Nat.sub] in *. rewrite Nat.sub_0_r in *.
    rewrite substring_head, substring_tail, H1, H2, append_cons, <- H3. repeat split.
Qed.

(** The product by 100 of a number above 0.01 in magnitude keeps its
    sign and is not zero. *)
Lemma percent_signed (x : float) :
  valid x = true -> gt (abs x) c_0_01 = true -> signed (negative x) (mul x c_100).
Proof.
  intros Hv Hk.
  destruct x as [[]|s| |s m e]; try discriminate.
  - destruct s; constructor.
  - change c_100 with (S754_finite false 7036874417766400 (-46)).
    unfold mul, SFmul. rewrite xorb_false_r. cbn [negative].
    apply binary_round_aux_signed; [lia|].
    change c_0_01 with (S754_finite false 5764607523034235 (-59)) in Hk.
    unfold gt, SFltb in Hk. cbn [abs SFabs SFcompare] in Hk.
    destruct (Z.compare_spec (-59) e); try discriminate; unfold emin, prec, emax; lia.
Qed.

Lemma toFixed_finite (s : bool) (m : positive) (e : Z) (f : nat) :
  printable (S754_finite s m e) ->
  toFixed (S754_finite s m e) f
  = (if s then "-" else "") +:+
    fixed_point (round_half_up (to_Q (abs (S754_finite s m e))) f) f.
Proof. intros [_ H]. unfold toFixed. unfold abs in H. rewrite H. reflexivity. Qed.

(** The text of an entry that was kept: the plus sign is printed exactly
    when the percentage is not negative. *)
Lemma driftItem_text (sym : string) (x : float) :
  valid x = true -> gt (abs x) c_0_01 = true ->
  driftItem (sym, VNum x)
  = Ok (sym +:+ " " +:+ (if lt (mul x c_100) pzero then "" else "+") +:+
        toFixed (mul x c_100) 1 +:+ "%").
Proof.
  intros Hv Hk.
  pose proof (percent_signed x Hv Hk) as Hs.
  assert (Hg : gt x pzero = negb (negative x)).
  { destruct x as [[]|[]| |[] m e]; try reflexivity; discriminate. }
  assert (Hl : lt (mul x c_100) pzero = negative x).
  { destruct Hs as [m e He|]; destruct (negative x); reflexivity. }
  unfold driftItem. cbn [ToNumber mbind result_bind bind]. rewrite Hg, Hl.
  destruct (negative x); reflexivity.
Qed.

(** *** The digits [toFixed(1)] prints *)

Lemma read_digits_zeros (k : nat) (s : string) (n : N) :
  read_digits s = Some n -> read_digits (zeros k +:+ s) = Some n.
Proof.
  intros H. induction k as [|k IH]; [exact H|].
  change (zeros (S k) +:+ s) with (String "0" (zeros k +:+ s)).
  unfold read_digits in *. cbn [NilEmpty.uint_of_string].
  destruct (NilEmpty.uint_of_string (zeros k +:+ s)) as [u|]; [exact IH | discriminate IH].
Qed.

Lemma read_digits_digits (n : N) : read_digits (digits n) = Some n.
Proof.
  unfold read_digits, digits.
  pose proof (DecimalN.Unsigned.of_to n) as Hn.
  destruct (N.to_uint n) as [|u|u|u|u|u|u|u|u|u|u] eqn:E;
    [ destruct n; [discriminate E|]; cbn in Hn; discriminate Hn | .. ];
    unfold NilZero.string_of_uint; rewrite NilEmpty.usu; cbn [fmap option_fmap option_map];
    rewrite Hn; reflexivity.
Qed.

(** The digits before and after the point are those of [n]. *)
Lemma fixed_point_reads_back (n : N) :
  exists ip d, fixed_point n 1 = ip +:+ "." +:+ String d "" /\
               all_digits ip = true /\ ip <> "" /\ is_digit d = true /\
               read_digits (ip +:+ String d "") = Some n.
Proof.
  unfold fixed_point.
  destruct (digits_digits n) as [Hd Hne].
  destruct (zeros_digits (2 - String.length (digits n))) as [Hz Hl].
  pose proof (read_digits_zeros (2 - String.length (digits n)) _ n (read_digits_digits n)) as Hr.
  set (m := zeros (2 - String.length (digits n)) +:+ digits n) in *.
  assert (Hm : all_digits m = true) by (unfold m; rewrite all_digits_append, Hz, Hd; reflexivity).
  assert (Hlen : (2 <= String.length m)%nat) by (unfold m; rewrite length_append, Hl; lia).
  destruct (last_split m) as (a & c & H1 & H2 & H3); [intros E; rewrite E in Hlen; cbn in Hlen; lia|].
  exists a, c. rewrite H1, H2. split; [reflexivity|].
  rewrite <- H3. rewrite H3, all_digits_append in Hm. apply andb_true_iff in Hm as [Ha Hc].
  split; [exact Ha|]. split; [|split; [|exact Hr]].
  - intros ->. assert (Hone : String.length m = 1%nat) by (rewrite H3; reflexivity). lia.
  - cbn in Hc. rewrite andb_true_r in Hc. exact Hc.
Qed.

Lemma to_Q_abs_nonneg (y : float) : (0 <= to_Q (abs y))%Q.
Proof.
  destruct y as [s|s| |s m e]; try apply Qle_refl.
  cbn [abs SFabs to_Q cond_Zopp]. apply Qmult_le_0_compat; [discriminate|].
  apply Qpower_0_le. discriminate.
Qed.

(** Step 10.a of [toFixed]: the integer taken is the nearest one. *)
Lemma round_half_up_nearest (q : Q) :
  (0 <= q)%Q -> nearest (round_half_up q 1) (q * inject_Z 10).
Proof.
  intros Hq. unfold nearest, round_half_up.
  change (pow10 (Z.of_nat 1)) with (inject_Z 10).
  set (x := (q * inject_Z 10 + (1 # 2))%Q).
  assert (Hx : (0 <= x)%Q).
  { unfold x. apply (Qle_trans _ (0 + 0)); [apply Qle_refl|].
    apply Qplus_le_compat; [|discriminate].
    apply Qmult_le_0_compat; [exact Hq | discriminate]. }
  assert (Hf : 0 <= Qfloor x) by (change 0 with (Qfloor 0); apply Qfloor_resp_le, Hx).
  rewrite Z2N.id by exact Hf. split; [apply Qfloor_le|].
  pose proof (Qlt_floor x) as H. rewrite inject_Z_plus in H. exact H.
Qed.

(** A number below 10^21 in magnitude is printed with one decimal. *)
Lemma toFixed_one_decimal (y : float) :
  printable y -> one_decimal y (toFixed y 1).
Proof.
  intros Hp.
  assert (E : toFixed y 1
              = (if lt y pzero then "-" else "") +:+
                fixed_point (round_half_up (to_Q (abs y)) 1) 1).
  { destruct y as [s|s| |s m e]; try (destruct Hp as [Hf _]; discriminate Hf).
    - destruct s; reflexivity.
    - rewrite (toFixed_finite s m e 1 Hp). destruct s; reflexivity. }
  destruct (fixed_point_reads_back (round_half_up (to_Q (abs y)) 1))
    as (ip & d & Ef & Hi & Hn & Hd & Hr).
  exists ip, d, (round_half_up (to_Q (abs y)) 1).
  split; [rewrite E, Ef; reflexivity|].
  repeat (split; [assumption|]).
  apply round_half_up_nearest, to_Q_abs_nonneg.
Qed.

(** A text that has a letter where the digits should be is not of the
    decimal shape. *)
Lemma decimal_shape_second (c : ascii) (rest : string) (x : ascii) :
  is_digit x = true -> is_digit c = false -> c <> "."%char ->
  ~ decimal_shape (String x (String c rest)).
Proof.
  intros Hx Hc Hdot (sign & ip & d & E & Hs & Hi & Hd).
  destruct Hs as [-> | ->].
  - change ("" +:+ ip +:+ "." +:+ String d "") with (ip +:+ "." +:+ String d "") in E.
    destruct ip as [|c1 [|c2 ip]].
    + injection E as E1 _. rewrite E1 in Hx. discriminate Hx.
    + injection E as _ E2 _. congruence.
    + injection E as _ E2 _. cbn [all_digits] in Hi. rewrite <- E2, Hc in Hi.
      rewrite andb_false_r in Hi. discriminate Hi.
  - injection E as E1 _. rewrite E1 in Hx. discriminate Hx.
Qed.

End PrintFacts.

(** ** The drift ranking *)

Module RankFacts.

Import NumFacts SortFacts PrintFacts.

(** *** Conversions that return *)

Lemma convertible_number (v : value) :
  convertible v = true -> exists x, ToNumber v = Ok x.
Proof.
  unfold convertible. destruct v as [| |[]| | |l|fs]; try (intros _; eexists; reflexivity);
    unfold ToNumber; destruct (ToString _); try discriminate; intros _; eexists; reflexivity.
Qed.

Lemma number_convertible (v : value) (x : float) :
  ToNumber v = Ok x -> convertible v = true.
Proof.
  unfold convertible. destruct v as [| |[]| | |l|fs]; try reflexivity;
    unfold ToNumber; destruct (ToString _); [reflexivity|discriminate|reflexivity|discriminate].
Qed.

Lemma convertible_string (v : value) :
  convertible v = true -> exists s, ToString v = Ok s.
Proof. unfold convertible. destruct (ToString v); [eexists; reflexivity|discriminate]. Qed.

Lemma Math_abs_returns (v : value) :
  convertible v = true -> Math_abs v = Ok (abs_of v).
Proof.
  intros H. destruct (convertible_number v H) as [x E].
  unfold abs_of, Math_abs. rewrite E. reflexivity.
Qed.

Lemma Math_abs_convertible (v : value) (a : float) :
  Math_abs v = Ok a -> convertible v = true.
Proof.
  unfold Math_abs. destruct (ToNumber v) as [x|e] eqn:E; [|discriminate].
  intros _. exact (number_convertible v x E).
Qed.

Lemma drift_keep_returns (e : string * value) :
  convertible e.2 = true -> drift_keep e = Ok (above_threshold e).
Proof. intros H. unfold drift_keep. rewrite (Math_abs_returns _ H). reflexivity. Qed.

Lemma drift_keep_convertible (e : string * value) (b : bool) :
  drift_keep e = Ok b -> convertible e.2 = true.
Proof.
  unfold drift_keep. destruct (Math_abs e.2) as [a|x] eqn:E; [|discriminate].
  intros _. exact (Math_abs_convertible _ a E).
Qed.

Lemma drift_compare_returns (a b : string * value) :
  convertible a.2 = true -> convertible b.2 = true ->
  drift_compare a b = Ok (by_abs_desc a b).
Proof.
  intros Ha Hb. unfold drift_compare.
  rewrite (Math_abs_returns _ Ha), (Math_abs_returns _ Hb). reflexivity.
Qed.

Lemma filterM_drift_keep (entries : list (string * value)) :
  Forall (fun e => convertible e.2 = true) entries ->
  filterM drift_keep entries = Ok (List.filter above_threshold entries).
Proof.
  induction 1 as [|e l He Hl IH]; [reflexivity|].
  cbn [filterM List.filter]. rewrite (drift_keep_returns e He), IH. reflexivity.
Qed.

Lemma filterM_convertible (entries kept : list (string * value)) :
  filterM drift_keep entries = Ok kept ->
  Forall (fun e => convertible e.2 = true) entries.
Proof.
  revert kept. induction entries as [|e l IH]; intros kept H; [constructor|].
  cbn [filterM] in H. destruct (drift_keep e) as [b|x] eqn:E; [|discriminate].
  cbn [mbind result_bind bind] in H.
  destruct (filterM drift_keep l) as [k|x] eqn:F; [|discriminate].
  constructor; [exact (drift_keep_convertible e b E) | exact (IH k eq_refl)].
Qed.

(** *** The ranking *)

Lemma desc_abs_trans : Transitive desc_abs.
Proof. intros x y z Hxy Hyz. unfold desc_abs in *. exact (le_trans _ _ _ Hyz Hxy). Qed.

Lemma ranking_length (entries : list (string * value)) :
  (length (ranking entries) <= 3)%nat.
Proof. unfold ranking. rewrite length_take. lia. Qed.

Lemma sorted_perm (entries : list (string * value)) :
  Permutation (stable_sort by_abs_desc (List.filter above_threshold entries))
              (List.filter above_threshold entries).
Proof. apply stable_sort_perm. Qed.

Lemma sorted_in_order (entries : list (string * value)) :
  Sorted (in_order by_abs_desc) (stable_sort by_abs_desc (List.filter above_threshold entries)).
Proof. apply stable_sort_sorted, by_abs_desc_consistent. Qed.

Lemma sorted_forall (entries : list (string * value)) :
  Forall (fun e => above_threshold e = true /\ e ∈ entries)
         (stable_sort by_abs_desc (List.filter above_threshold entries)).
Proof.
  rewrite sorted_perm. apply Forall_forall. intros e He.
  apply list_elem_of_In, filter_In in He as [Hin Hk]. split; [exact Hk|].
  apply list_elem_of_In, Hin.
Qed.

Lemma ranking_forall (entries : list (string * value)) :
  Forall (fun e => above_threshold e = true /\ e ∈ entries) (ranking entries).
Proof.
  unfold ranking. apply Forall_forall. intros e He.
  pose proof (sorted_forall entries) as H. rewrite Forall_forall in H. apply H.
  exact (subseteq_take 3 _ e He).
Qed.

Lemma sorted_numbers (entries : list (string * value)) :
  Forall drift_number entries ->
  Forall ranked_number (stable_sort by_abs_desc (List.filter above_threshold entries)).
Proof.
  intros Hn. pose proof (sorted_forall entries) as H.
  rewrite Forall_forall in *. intros e He. destruct (H e He) as [Hk Hin].
  split; [apply Hn, Hin | exact Hk].
Qed.

(** Ranking what was ranked changes nothing. *)
Lemma ranking_idempotent (entries : list (string * value)) :
  ranking (ranking entries) = ranking entries.
Proof.
  unfold ranking at 1.
  rewrite (filter_all above_threshold (ranking entries)).
  - rewrite (stable_sort_id by_abs_desc (ranking entries)).
    + apply take_ge, ranking_length.
    + unfold ranking. apply Sorted_take, sorted_in_order.
  - eapply Forall_impl; [apply ranking_forall|]. intros e [Hk _]. exact Hk.
Qed.

(** *** The ranking of the script *)

Lemma rankDrift_returns (entries : list (string * value)) :
  Forall (fun e => convertible e.2 = true) entries ->
  rankDrift entries = Ok (ranking entries).
Proof.
  intros H. unfold rankDrift. rewrite (filterM_drift_keep entries H).
  cbn [mbind result_bind bind].
  rewrite (Array_sort_returns by_abs_desc drift_compare); [reflexivity|].
  rewrite Forall_forall in H.
  intros x y Hx Hy. apply drift_compare_returns; apply H.
  - apply list_elem_of_In, filter_In in Hx as [Hx _]. apply list_elem_of_In, Hx.
  - apply list_elem_of_In, filter_In in Hy as [Hy _]. apply list_elem_of_In, Hy.
Qed.

Lemma rankDrift_ranking (entries ranked : list (string * value)) :
  rankDrift entries = Ok ranked ->
  Forall (fun e => convertible e.2 = true) entries /\ ranked = ranking entries.
Proof.
  intros H.
  assert (Hc : Forall (fun e => convertible e.2 = true) entries).
  { unfold rankDrift in H. destruct (filterM drift_keep entries) as [k|x] eqn:F; [|discriminate].
    exact (filterM_convertible entries k F). }
  split; [exact Hc|]. rewrite (rankDrift_returns entries Hc) in H. congruence.
Qed.

Lemma number_is_convertible (e : string * value) : drift_number e -> convertible e.2 = true.
Proof. intros (x & -> & _). reflexivity. Qed.

(** *** The summary *)

Lemma mapM_driftItem (l : list (string * value)) :
  Forall (fun e => convertible e.2 = true) l ->
  exists items, Forall2 (fun e t => driftItem e = Ok t) l items /\ mapM driftItem l = Ok items.
Proof.
  induction 1 as [|[s v] l He Hl (items & F & E)]; [exists []; split; [constructor|reflexivity]|].
  destruct (convertible_number v He) as [x Ex].
  assert (Hd : exists t, driftItem (s, v) = Ok t).
  { unfold driftItem. rewrite Ex. eexists. reflexivity. }
  destruct Hd as [t Ht]. exists (t :: items). split; [constructor; assumption|].
  cbn [mapM]. rewrite Ht, E. reflexivity.
Qed.

End RankFacts.

(** ** The exceptions of renderClientCard *)

Module CardFacts.

Import RenderFacts SortFacts RankFacts.

Lemma Ok_type_errors {A} (a : A) : type_errors_only (Ok a).
Proof. intros e H. discriminate H. Qed.

Lemma TypeError_type_errors {A} : type_errors_only (@Throw A TypeError).
Proof. intros e H. congruence. Qed.

Lemma bind_type_errors {A B} (r : result A) (k : A -> result B) :
  type_errors_only r -> (forall a, type_errors_only (k a)) -> type_errors_only (r ≫= k).
Proof.
  intros Hr Hk e. destruct r as [a|e']; cbn [mbind result_bind bind].
  - apply Hk.
  - intros H. apply Hr. congruence.
Qed.

Lemma mapM_type_errors {A B} (f : A -> result B) (l : list A) :
  (forall x, type_errors_only (f x)) -> type_errors_only (mapM f l).
Proof.
  intros Hf. induction l as [|x l IH]; [apply Ok_type_errors|].
  cbn [mapM]. apply bind_type_errors; [apply Hf|]. intros y.
  apply bind_type_errors; [exact IH|]. intros ys. apply Ok_type_errors.
Qed.

Lemma filterM_type_errors {A} (p : A -> result bool) (l : list A) :
  (forall x, type_errors_only (p x)) -> type_errors_only (filterM p l).
Proof.
  intros Hp. induction l as [|x l IH]; [apply Ok_type_errors|].
  cbn [filterM]. apply bind_type_errors; [apply Hp|]. intros b.
  apply bind_type_errors; [exact IH|]. intros ys. apply Ok_type_errors.
Qed.

Lemma sort_insert_type_errors {A} (comparefn : A -> A -> result float) (x : A) (l : list A) :
  (forall a b, type_errors_only (comparefn a b)) ->
  type_errors_only (sort_insert comparefn x l).
Proof.
  intros Hc. induction l as [|y l IH]; [apply Ok_type_errors|].
  cbn [sort_insert]. apply bind_type_errors; [apply Hc|]. intros c.
  destruct (gt c pzero); [|apply Ok_type_errors].
  apply bind_type_errors; [exact IH|]. intros r. apply Ok_type_errors.
Qed.

Lemma Array_sort_type_errors {A} (comparefn : A -> A -> result float) (l : list A) :
  (forall a b, type_errors_only (comparefn a b)) ->
  type_errors_only (Array_sort comparefn l).
Proof.
  intros Hc. induction l as [|x l IH]; [apply Ok_type_errors|].
  cbn [Array_sort]. apply bind_type_errors; [exact IH|]. intros sorted.
  apply sort_insert_type_errors, Hc.
Qed.

Lemma Get_type_errors (v : value) (k : string) : type_errors_only (Get v k).
Proof. destruct v; first [apply Ok_type_errors | apply TypeError_type_errors]. Qed.

Lemma Object_entries_type_errors (v : value) : type_errors_only (Object_entries v).
Proof. destruct v; first [apply Ok_type_errors | apply TypeError_type_errors]. Qed.

Lemma call_toFixed_type_errors (v : value) (f : nat) : type_errors_only (call_toFixed v f).
Proof. destruct v; first [apply Ok_type_errors | apply TypeError_type_errors]. Qed.

Fixpoint ToString_type_errors (v : value) {struct v} : type_errors_only (ToString v).
Proof.
  destruct v as [| |[]| | |l|fs]; try apply Ok_type_errors.
  - cbn [ToString].
    assert (He : forall x, (forall e, ToString x = Throw e -> e = TypeError) ->
                 type_errors_only match x with
                                  | VUndefined | VNull => Ok ""
                                  | _ => ToString x
                                  end).
    { intros x Hx. destruct x; try apply Ok_type_errors; exact Hx. }
    induction l as [|x l IH]; [apply Ok_type_errors|].
    destruct l as [|y l]; [apply He, (ToString_type_errors x)|].
    apply bind_type_errors; [apply He, (ToString_type_errors x)|]. intros a.
    apply bind_type_errors; [exact IH|]. intros b. apply Ok_type_errors.
  - cbn [ToString]. destruct (has_own "toString" fs);
      [apply TypeError_type_errors | apply Ok_type_errors].
Qed.

Lemma ToNumber_type_errors (v : value) : type_errors_only (ToNumber v).
Proof.
  destruct v as [| |[]| | |l|fs]; try apply Ok_type_errors;
    (apply bind_type_errors; [apply ToString_type_errors | intros s; apply Ok_type_errors]).
Qed.

Lemma DOMString_type_errors (v : value) : type_errors_only (DOMString v).
Proof. destruct v; try apply Ok_type_errors; apply ToString_type_errors. Qed.

Lemma escapeHtml_type_errors (v : value) : type_errors_only (escapeHtml v).
Proof.
  apply bind_type_errors; [apply DOMString_type_errors | intros t; apply Ok_type_errors].
Qed.

Lemma Math_abs_type_errors (v : value) : type_errors_only (Math_abs v).
Proof.
  apply bind_type_errors; [apply ToNumber_type_errors | intros x; apply Ok_type_errors].
Qed.

Lemma drift_keep_type_errors (e : string * value) : type_errors_only (drift_keep e).
Proof.
  apply bind_type_errors; [apply Math_abs_type_errors | intros x; apply Ok_type_errors].
Qed.

Lemma drift_compare_type_errors (a b : string * value) : type_errors_only (drift_compare a b).
Proof.
  apply bind_type_errors; [apply Math_abs_type_errors | intros x].
  apply bind_type_errors; [apply Math_abs_type_errors | intros y; apply Ok_type_errors].
Qed.

Lemma rankDrift_type_errors (entries : list (string * value)) :
  type_errors_only (rankDrift entries).
Proof.
  apply bind_type_errors; [apply filterM_type_errors, drift_keep_type_errors | intros kept].
  apply bind_type_errors; [|intros sorted; apply Ok_type_errors].
  apply Array_sort_type_errors, drift_compare_type_errors.
Qed.

Lemma driftItem_type_errors (e : string * value) : type_errors_only (driftItem e).
Proof.
  destruct e as [s v]. apply bind_type_errors; [apply ToNumber_type_errors | intros p].
  apply bind_type_errors; [apply ToNumber_type_errors | intros q; apply Ok_type_errors].
Qed.

Lemma driftSummary_type_errors (l : list (string * value)) : type_errors_only (driftSummary l).
Proof.
  destruct l as [|e l]; [apply Ok_type_errors|].
  apply bind_type_errors; [|intros items; apply Ok_type_errors].
  apply mapM_type_errors, driftItem_type_errors.
Qed.

Lemma renderClientCard_type_errors (portfolio : value) :
  type_errors_only (renderClientCard portfolio).
Proof.
  unfold renderClientCard.
  repeat first
    [ apply Ok_type_errors
    | apply bind_type_errors;
      [ first [ apply Get_type_errors | apply Object_entries_type_errors
              | apply rankDrift_type_errors | apply driftSummary_type_errors
              | apply ToString_type_errors | apply escapeHtml_type_errors
              | apply ToNumber_type_errors | apply call_toFixed_type_errors ]
      | intros ? ] ].
Qed.

(** *** When renderClientCard returns *)

Lemma Get_returns (v x : value) (k : string) : Get v k = Ok x -> present v = true.
Proof. destruct v; try reflexivity; discriminate. Qed.

Lemma Object_entries_returns (v : value) (es : list (string * value)) :
  Object_entries v = Ok es -> present v = true.
Proof. destruct v; try reflexivity; discriminate. Qed.

Lemma call_toFixed_returns (v : value) (f : nat) (t : string) :
  call_toFixed v f = Ok t -> typeof_number v = true.
Proof. destruct v; try reflexivity; discriminate. Qed.

Lemma string_convertible (v : value) (s : string) : ToString v = Ok s -> convertible v = true.
Proof. unfold convertible. intros ->. reflexivity. Qed.

Lemma escapeHtml_convertible (v : value) (s : string) :
  escapeHtml v = Ok s -> convertible v = true.
Proof.
  unfold escapeHtml, DOMString, convertible.
  destruct v; try reflexivity; destruct (ToString _); try reflexivity; discriminate.
Qed.

Lemma escapeHtml_returns (v : value) :
  convertible v = true -> exists s, escapeHtml v = Ok s.
Proof.
  unfold escapeHtml, DOMString, convertible.
  destruct v; try (intros _; eexists; reflexivity);
    destruct (ToString _); try discriminate; intros _; eexists; reflexivity.
Qed.

Lemma forallb_Forall {A} (p : A -> bool) (l : list A) :
  forallb p l = true <-> Forall (fun x => p x = true) l.
Proof.
  induction l as [|x l IH]; [split; [constructor|reflexivity]|].
  cbn [forallb]. rewrite andb_true_iff, IH. split.
  - intros [Hx Hl]. constructor; assumption.
  - intros H. inversion H; subst. split; assumption.
Qed.

Lemma driftSummary_returns (l : list (string * value)) :
  Forall (fun e => convertible e.2 = true) l -> exists s, driftSummary l = Ok s.
Proof.
  intros H. destruct (mapM_driftItem l H) as (items & _ & E).
  unfold driftSummary. destruct l; [eexists; reflexivity|].
  rewrite E. eexists. reflexivity.
Qed.

Lemma ranking_convertible (entries : list (string * value)) :
  Forall (fun e => convertible e.2 = true) entries ->
  Forall (fun e => convertible e.2 = true) (ranking entries).
Proof.
  intros H. pose proof (ranking_forall entries) as Hr.
  rewrite Forall_forall in *. intros e He. apply H, (Hr e He).
Qed.

Lemma renderClientCard_returns (portfolio : value) :
  card_inputs_present portfolio = true -> card_fields_convertible portfolio = true ->
  exists html, renderClientCard portfolio = Ok html.
Proof.
  unfold card_inputs_present, card_fields_convertible, field_convertible, renderClientCard.
  destruct (present portfolio) eqn:Hp.
  2:{ rewrite !(Get_absent portfolio) by exact Hp. discriminate. }
  destruct (Get_present portfolio "client" Hp) as [c ->].
  destruct (Get_present portfolio "drift_from_optimal" Hp) as [drift ->].
  destruct (Get_present portfolio "iv_adjusted_optimal" Hp) as [iv ->].
  destruct (Get_present portfolio "current_annual_vol" Hp) as [cur ->].
  destruct (Get_present portfolio "misaligned_with_profile" Hp) as [mis ->].
  destruct (Get_present portfolio "has_recent_update" Hp) as [upd ->].
  destruct (Get_present portfolio "last_updated" Hp) as [last ->].
  cbn [mbind result_bind bind].
  destruct (present c) eqn:Hc; [|discriminate].
  destruct (Get_present c "target_annual_vol" Hc) as [tgt ->].
  destruct (Get_present c "client_id" Hc) as [cid ->].
  destruct (Get_present c "name" Hc) as [name ->].
  destruct (Get_present c "risk_label" Hc) as [label ->].
  cbn [mbind result_bind bind andb].
  destruct (present drift) eqn:Hd; [|discriminate].
  destruct (Object_entries_present drift Hd) as [es ->].
  cbn [mbind result_bind bind andb].
  destruct (Get iv "sharpe") as [sharpe|e]; [|discriminate].
  intros Hn Hf.
  destruct (call_toFixed_number sharpe 2 Hn) as [t Ht].
  rewrite !andb_true_iff, forallb_Forall in Hf.
  destruct Hf as (((((Hcid & Hname) & Hlabel) & Htgt) & Hcur) & Hes).
  rewrite (rankDrift_returns es Hes). cbn [mbind result_bind bind].
  destruct (driftSummary_returns _ (ranking_convertible es Hes)) as [driftStr ->].
  destruct (convertible_string cid Hcid) as [s1 ->].
  destruct (escapeHtml_returns name Hname) as [s2 ->].
  destruct (convertible_string label Hlabel) as [s3 ->].
  destruct (convertible_number tgt Htgt) as [x1 ->].
  destruct (convertible_number cur Hcur) as [x2 ->].
  cbn [mbind result_bind bind]. rewrite Ht. cbn [mbind result_bind bind].
  eexists. reflexivity.
Qed.

Lemma renderClientCard_needs (portfolio : value) (html : string) :
  renderClientCard portfolio = Ok html ->
  card_inputs_present portfolio = true /\ card_fields_convertible portfolio = true.
Proof.
  unfold card_inputs_present, card_fields_convertible, field_convertible, renderClientCard.
  cbv zeta. intros H.
  destruct (Get portfolio "client") as [c|] eqn:E1; [|discriminate H].
  destruct (Get portfolio "iv_adjusted_optimal") as [iv|] eqn:E2; [|discriminate H].
  destruct (Get portfolio "current_annual_vol") as [cur|] eqn:E3; [|discriminate H].
  cbn [mbind result_bind bind] in H.
  destruct (Get c "target_annual_vol") as [tgt|] eqn:E4; [|discriminate H].
  destruct (Get portfolio "misaligned_with_profile") as [mis|] eqn:E5; [|discriminate H].
  destruct (Get portfolio "has_recent_update") as [upd|] eqn:E6; [|discriminate H].
  destruct (Get portfolio "last_updated") as [last|] eqn:E7; [|discriminate H].
  destruct (Get portfolio "drift_from_optimal") as [drift|] eqn:E8; [|discriminate H].
  cbn [mbind result_bind bind] in H.
  destruct (Object_entries drift) as [es|] eqn:E9; [|discriminate H].
  cbn [mbind result_bind bind] in H.
  destruct (rankDrift es) as [ranked|] eqn:E10; [|discriminate H].
  cbn [mbind result_bind bind] in H.
  destruct (driftSummary ranked) as [driftStr|] eqn:E11; [|discriminate H].
  destruct (Get c "client_id") as [cid|] eqn:E12; [|discriminate H].
  cbn [mbind result_bind bind] in H.
  destruct (ToString cid) as [s1|] eqn:E13; [|discriminate H].
  destruct (Get c "name") as [name|] eqn:E14; [|discriminate H].
  cbn [mbind result_bind bind] in H.
  destruct (escapeHtml name) as [s2|] eqn:E15; [|discriminate H].
  destruct (Get c "risk_label") as [label|] eqn:E16; [|discriminate H].
  cbn [mbind result_bind bind] in H.
  destruct (ToString label) as [s3|] eqn:E17; [|discriminate H].
  cbn [mbind result_bind bind] in H.
  destruct (ToNumber tgt) as [x1|] eqn:E18; [|discriminate H].
  destruct (ToNumber cur) as [x2|] eqn:E19; [|discriminate H].
  cbn [mbind result_bind bind] in H.
  destruct (Get iv "sharpe") as [sharpe|] eqn:E20; [|discriminate H].
  cbn [mbind result_bind bind] in H.
  destruct (call_toFixed sharpe 2) as [t|] eqn:E21; [|discriminate H].
  clear H.
  rewrite (Get_returns c tgt _ E4), (Object_entries_returns drift es E9),
    (call_toFixed_returns sharpe 2 t E21),
    (string_convertible cid s1 E13), (escapeHtml_convertible name s2 E15),
    (string_convertible label s3 E17), (number_convertible tgt x1 E18),
    (number_convertible cur x2 E19).
  split; [reflexivity|]. cbn [andb]. apply forallb_Forall.
  exact (proj1 (rankDrift_ranking es ranked E10)).
Qed.

End CardFacts.

(** * The claims *)

Import NumFacts OrderFacts RenderFacts MetricFacts CycleFacts SortFacts PrintFacts RankFacts
  CardFacts.

(** C1. The class of a client card is the three-branch rule applied to
    (currentVol, targetVol, misaligned), for every target volatility that
    JSON can carry (a number read from JSON is never NaN): NEUTRAL when the
    ratio is undefined; otherwise GOOD exactly when ratio <= 1.1 and not
    misaligned, RISK exactly when ratio >= 1.3 or misaligned, NEUTRAL
    otherwise.  Misalignment suffices for RISK when the ratio is defined,
    a misaligned portfolio is never GOOD, and a ratio strictly between
    1.1 and 1.3 without misalignment is NEUTRAL. *)
Theorem C1_risk_status (currentVol targetVol misaligned : value) :
  targetVol <> VNum NaN ->
  let st := status_of (statusClass currentVol targetVol misaligned) in
  let m := ToBoolean misaligned in
  st = classify (ratio_of currentVol targetVol) m /\
  (ratio_of currentVol targetVol = None -> st = NEUTRAL) /\
  (forall ratio, ratio_of currentVol targetVol = Some ratio ->
     (st = GOOD <-> le ratio c_1_1 = true /\ m = false) /\
     (st = RISK <-> ge ratio c_1_3 = true \/ m = true) /\
     (st = NEUTRAL <->
        ~ (le ratio c_1_1 = true /\ m = false) /\ ~ (ge ratio c_1_3 = true \/ m = true)) /\
     (lt c_1_1 ratio = true -> lt ratio c_1_3 = true -> m = false -> st = NEUTRAL)) /\
  (m = true -> st <> GOOD).
Proof.
  intros Hnan st m.
  assert (Hcode : st = classify (ratio_of currentVol targetVol) m).
  { unfold st, statusClass, classify, ratio_of.
    destruct currentVol as [| | |c| | |]; try reflexivity.
    destruct targetVol as [| | |t| | |]; try reflexivity.
    rewrite (gt_zero_not_le t)
      by (destruct t; try reflexivity; contradiction Hnan; reflexivity).
    destruct (le t pzero); cbn [negb]; [reflexivity|].
    fold m.
    destruct (le (div c t) c_1_1 && negb m); [reflexivity|].
    destruct (ge (div c t) c_1_3 || m); reflexivity. }
  split; [exact Hcode|].
  rewrite Hcode. clearbody st m. clear Hcode.
  split; [intros ->; reflexivity|].
  split.
  - intros ratio ->. unfold classify.
    pose proof (le_1_1_not_ge_1_3 ratio) as H13.
    pose proof (lt_not_le c_1_1 ratio) as H11.
    assert (H13' : lt ratio c_1_3 = true -> ge ratio c_1_3 = false) by apply lt_not_le.
    destruct (le ratio c_1_1), (ge ratio c_1_3), m; cbn [andb orb negb];
      try (specialize (H13 eq_refl); discriminate);
      intuition congruence.
  - intros ->. unfold classify. destruct (ratio_of currentVol targetVol); [|discriminate].
    rewrite andb_false_r, orb_true_r. discriminate.
Qed.

(** The end-to-end example of the specification at the first claim:
    current 0.08, target 0.10, not misaligned. *)
Lemma C1_risk_status_witness :
  VNum (of_decimal false 10 (-2)) <> VNum NaN /\
  status_of (statusClass (VNum (of_decimal false 8 (-2))) (VNum (of_decimal false 10 (-2)))
                         (VBool false))
  = classify (ratio_of (VNum (of_decimal false 8 (-2))) (VNum (of_decimal false 10 (-2)))) false.
Proof.
  assert (H : VNum (of_decimal false 10 (-2)) <> VNum NaN) by (vm_compute; discriminate).
  split; [exact H|].
  exact (proj1 (C1_risk_status (VNum (of_decimal false 8 (-2))) _ (VBool false) H)).
Defined.

(** C2, as the code has it.  For an empty Signal collection each of the
    three metric tiles is set to the marker "—".  For a non-empty
    collection the elevated/high-fear tile is always set to the decimal
    count of such entries, "0" when there is none, and a mean or a maximum
    that is finite is written as its formatted value. *)
Theorem C2_marker_or_count (signals : list value) (d : dom) :
  (metricAvgIv (updateMetrics (VArr []) d).1 = write_tile "—" (metricAvgIv d) /\
   metricHighFear (updateMetrics (VArr []) d).1 = write_tile "—" (metricHighFear d) /\
   metricMaxIvr (updateMetrics (VArr []) d).1 = write_tile "—" (metricMaxIvr d)) /\
  (signals <> [] -> Forall (fun s => present s = true) signals ->
   metricHighFear (updateMetrics (VArr signals) d).1
   = write_tile (digits (N.of_nat (length (List.filter fearful signals)))) (metricHighFear d) /\
   (forall m, computeMetrics signals = Ok m ->
      (isFinite (avgIv m) = true ->
       metricAvgIv (updateMetrics (VArr signals) d).1
       = write_tile (toFixed (mul (avgIv m) c_100) 1 +:+ "%") (metricAvgIv d)) /\
      (isFinite (maxIvr m) = true ->
       metricMaxIvr (updateMetrics (VArr signals) d).1
       = write_tile (toFixed (maxIvr m) 2) (metricMaxIvr d)))).
Proof.
  split; [repeat split; reflexivity|].
  intros Hne H.
  destruct (computeMetrics_present signals H) as (m & E & _ & Hc & _).
  destruct (updateMetrics_present signals d Hne H) as (m' & E' & ->).
  assert (m' = m) as -> by congruence. cbn [fst].
  destruct (showMetrics_tiles m d) as (Hf & Ha & Hm).
  split; [rewrite <- Hc; exact Hf|].
  intros m0 E0. assert (m0 = m) as -> by congruence. split; assumption.
Qed.

(** At a collection with one signal that has nothing to aggregate. *)
Lemma C2_marker_or_count_witness :
  signals_no_eligible <> [] /\
  Forall (fun s => present s = true) signals_no_eligible /\
  metricHighFear (updateMetrics (VArr signals_no_eligible) page0).1
  = write_tile (digits (N.of_nat (length (List.filter fearful signals_no_eligible))))
               (metricHighFear page0).
Proof.
  assert (H1 : signals_no_eligible <> []) by discriminate.
  assert (H2 : Forall (fun s => present s = true) signals_no_eligible)
    by (repeat constructor).
  split; [exact H1|]. split; [exact H2|].
  exact (proj1 (proj2 (C2_marker_or_count signals_no_eligible page0) H1 H2)).
Defined.

(** C2 as stated fails on a non-empty collection with no eligible entry:
    the count tile shows "0", and the two others are not set to the marker
    (they keep what they showed). *)
Lemma C2_counterexample :
  numericIvs signals_no_eligible = [] /\
  finiteRanks signals_no_eligible = [] /\
  List.filter fearful signals_no_eligible = [] /\
  metricHighFear (updateMetrics (VArr signals_no_eligible) page0).1 = Some "0" /\
  metricAvgIv (updateMetrics (VArr signals_no_eligible) page0).1 = Some "21.5%" /\
  metricMaxIvr (updateMetrics (VArr signals_no_eligible) page0).1 = Some "1.80".
Proof. repeat split; vm_compute; reflexivity. Qed.

(** C3, as the code has it.  The mean implied volatility is the
    arithmetic mean, in binary64 arithmetic, over exactly the entries whose
    implied volatility has type number: the other entries count neither in
    the sum nor in the number of entries; an entry whose implied volatility
    is a number counts also when it is not finite.  A finite mean is
    written to its tile as the text [toFixed(1)] gives for a hundred times
    the mean, followed by the percent sign. *)
Theorem C3_mean_over_numbers (signals : list value) (d : dom) :
  Forall (fun s => present s = true) signals ->
  Forall (fun x => valid x = true) (numericIvs signals) ->
  avgIv_of signals = Ok (mean (numericIvs signals)) /\
  (signals <> [] -> isFinite (mean (numericIvs signals)) = true ->
   metricAvgIv (updateMetrics (VArr signals) d).1
   = write_tile (toFixed (mul (mean (numericIvs signals)) c_100) 1 +:+ "%") (metricAvgIv d)).
Proof.
  intros H Hv.
  destruct (computeMetrics_present signals H) as (m & E & Ha & _).
  rewrite sum_skips_non_numbers in Ha by (try discriminate; try exact I; exact Hv).
  fold (mean (numericIvs signals)) in Ha.
  split.
  - unfold avgIv_of. rewrite E. cbn [mbind result_bind bind]. rewrite Ha. reflexivity.
  - intros Hne Hfin. rewrite <- Ha in *.
    destruct (updateMetrics_present signals d Hne H) as (m' & E' & ->).
    assert (m' = m) as -> by congruence. cbn [fst].
    exact (proj1 (proj2 (showMetrics_tiles m d)) Hfin).
Qed.

(** At the example of the specification: over 0.2, 0.3 and "n/a" the mean
    is 0.25, shown as 25.0%. *)
Lemma C3_mean_over_numbers_witness :
  Forall (fun s => present s = true) signals_example /\
  Forall (fun x => valid x = true) (numericIvs signals_example) /\
  avgIv_of signals_example = Ok (of_decimal false 25 (-2)) /\
  metricAvgIv (updateMetrics (VArr signals_example) page0).1 = Some "25.0%".
Proof.
  assert (H1 : Forall (fun s => present s = true) signals_example) by (repeat constructor).
  assert (H2 : Forall (fun x => valid x = true) (numericIvs signals_example))
    by (repeat constructor).
  split; [exact H1|]. split; [exact H2|].
  destruct (C3_mean_over_numbers signals_example page0 H1 H2) as [Hm Ht].
  split.
  - rewrite Hm. vm_compute. reflexivity.
  - rewrite Ht; [vm_compute; reflexivity | discriminate | vm_compute; reflexivity].
Defined.

(** C3 as stated fails when an entry holds an infinite number, which JSON
    can carry (1e999): the entry is not excluded, the mean is infinite
    where the mean over the finite entries is 0.2, and the tile is left as
    it was. *)
Lemma C3_counterexample :
  avgIv_of signals_with_infinity = Ok pInf /\
  mean (finiteIvs signals_with_infinity) = of_decimal false 2 (-1) /\
  metricAvgIv (updateMetrics (VArr signals_with_infinity) page0).1 = Some "21.5%".
Proof. repeat split; vm_compute; reflexivity. Qed.

(** C4, as the code has it.  For a mapping of symbols to drifts (numbers
    of binary64) the ranking of the script returns, and returns the ranking
    of the specification: exactly the entries above 0.01 in absolute value,
    in descending order of absolute value, and of these the first three.
    The summary prints each of them as the symbol, a plus sign when the
    drift is not negative, the text [toFixed(1)] gives for a hundred times
    the drift, and a percent sign.  When that percentage is finite and
    below 10^21 in magnitude the text has one decimal: a minus sign when
    negative, digits, a point and one digit, which are the digits of the
    number of tenths nearest to the percentage.  When no entry is retained
    the summary is the placeholder "—", which is not the empty string. *)
Theorem C4_drift_summary (entries : list (string * value)) :
  Forall drift_number entries ->
  let kept := List.filter above_threshold entries in
  exists ranked,
    rankDrift entries = Ok ranked /\
    ranked = ranking entries /\
    (exists sorted, Permutation sorted kept /\ StronglySorted desc_abs sorted /\
                    ranked = take 3 sorted) /\
    (length ranked <= 3)%nat /\
    (kept = [] -> driftSummary ranked = Ok "—") /\
    "—" <> "" /\
    (kept <> [] ->
     exists items, Forall2 (fun e text => driftItem e = Ok text) ranked items /\
                   driftSummary ranked = Ok (join ", " items)) /\
    (forall sym x, (sym, VNum x) ∈ ranked ->
       let percentage := mul x c_100 in
       driftItem (sym, VNum x)
       = Ok (sym +:+ " " +:+ (if lt percentage pzero then "" else "+") +:+
             toFixed percentage 1 +:+ "%") /\
       (printable percentage -> one_decimal percentage (toFixed percentage 1))).
Proof.
  intros Hnum kept.
  assert (Hc : Forall (fun e => convertible e.2 = true) entries)
    by (eapply Forall_impl; [exact Hnum|exact number_is_convertible]).
  exists (ranking entries).
  split; [exact (rankDrift_returns entries Hc)|].
  split; [reflexivity|].
  split.
  { exists (stable_sort by_abs_desc (List.filter above_threshold entries)).
    split; [apply sorted_perm|]. split; [|reflexivity].
    apply Sorted_StronglySorted; [exact desc_abs_trans|].
    apply (Sorted_on ranked_number (in_order by_abs_desc));
      [intros x y Hx Hy; apply in_order_desc; assumption
      | apply sorted_numbers, Hnum | apply sorted_in_order]. }
  split; [apply ranking_length|].
  split; [unfold ranking; fold kept; intros ->; reflexivity|].
  split; [discriminate|].
  pose proof (ranking_forall entries) as Hr. rewrite Forall_forall in Hr.
  split.
  { intros Hne.
    destruct (mapM_driftItem (ranking entries)) as (items & F & E).
    { apply Forall_forall. intros e He. rewrite Forall_forall in Hc.
      apply Hc, (Hr e He). }
    exists items. split; [exact F|].
    unfold driftSummary. rewrite E.
    pose proof (sorted_perm entries) as Hp. fold kept in Hp. unfold ranking. fold kept.
    destruct (stable_sort by_abs_desc kept) as [|x l].
    - apply Permutation_nil in Hp. congruence.
    - reflexivity. }
  intros sym x Hin percentage.
  destruct (Hr _ Hin) as [Hk Hin'].
  rewrite Forall_forall in Hnum. destruct (Hnum _ Hin') as (x' & E & Hv).
  cbn in E. injection E as <-.
  split; [exact (driftItem_text sym x Hv Hk) | apply toFixed_one_decimal].
Qed.

(** C4 as stated fails at a drift of 1e19: a hundred times it is 10^21,
    which [toFixed(1)] prints in exponent notation, with no decimal. *)
Lemma C4_counterexample :
  Forall drift_number drift_huge /\
  rankDrift drift_huge = Ok drift_huge /\
  driftSummary drift_huge = Ok "S +1e+21%" /\
  toFixed (mul (of_decimal false 1 19) c_100) 1 = "1e+21" /\
  ~ decimal_shape "1e+21".
Proof.
  split; [repeat constructor; eexists; (split; [reflexivity|]); reflexivity|].
  split; [vm_compute; reflexivity|].
  split; [vm_compute; reflexivity|].
  split; [vm_compute; reflexivity|].
  apply decimal_shape_second; [reflexivity | reflexivity | discriminate].
Qed.

(** At a mapping of five drifts, three of them above one per cent. *)
Lemma C4_drift_summary_witness :
  Forall drift_number drift1 /\
  exists ranked,
    rankDrift drift1 = Ok ranked /\
    driftSummary ranked = Ok "MSFT -20.0%, GOOG +11.0%, AAPL +5.0%".
Proof.
  assert (H : Forall drift_number drift1)
    by (repeat constructor; eexists; (split; [reflexivity|]); reflexivity).
  split; [exact H|].
  destruct (C4_drift_summary drift1 H) as (ranked & E & R & _).
  exists ranked. split; [exact E|].
  rewrite R. vm_compute. reflexivity.
Defined.

(** C5. On a mapping whose values convert to numbers, as numbers do, the
    ranking returns.  What it returns has at most three entries, none of
    them with an absolute drift of 0.01 or less, all of them entries of the
    input; ranking what was ranked returns the same; and when the entries
    that pass the filter are already in descending order of absolute value
    the ranking is their first three, in that order. *)
Theorem C5_drift_ranking (entries : list (string * value)) :
  (Forall (fun e => convertible e.2 = true) entries ->
   exists ranked, rankDrift entries = Ok ranked) /\
  (forall ranked, rankDrift entries = Ok ranked ->
     (length ranked <= 3)%nat /\
     (forall e, e ∈ ranked ->
        gt (abs_of e.2) c_0_01 = true /\ le (abs_of e.2) c_0_01 = false /\ e ∈ entries) /\
     rankDrift ranked = Ok ranked /\
     (Forall drift_number entries -> Sorted desc_abs (List.filter above_threshold entries) ->
      ranked = take 3 (List.filter above_threshold entries))).
Proof.
  split; [intros Hc; eexists; exact (rankDrift_returns entries Hc)|].
  intros ranked H. destruct (rankDrift_ranking entries ranked H) as [Hc ->].
  pose proof (ranking_forall entries) as Hr. rewrite Forall_forall in Hr.
  split; [apply ranking_length|].
  split.
  { intros e He. destruct (Hr e He) as [Hk Hin]. split; [exact Hk|]. split; [|exact Hin].
    apply lt_not_le, Hk. }
  split.
  { rewrite rankDrift_returns; [rewrite ranking_idempotent; reflexivity|].
    apply Forall_forall. intros e He. rewrite Forall_forall in Hc. apply Hc, (Hr e He). }
  intros Hnum Hs. unfold ranking. f_equal.
  apply stable_sort_id.
  apply (Sorted_on ranked_number desc_abs);
    [intros x y Hx Hy; apply in_order_desc; assumption | | exact Hs].
  apply Forall_forall. intros e He.
  apply list_elem_of_In, filter_In in He as [Hin Hk]. split; [|exact Hk].
  rewrite Forall_forall in Hnum. apply Hnum, list_elem_of_In, Hin.
Qed.

(** At a mapping whose entries above one per cent are in descending
    order already. *)
Lemma C5_drift_ranking_witness :
  Forall drift_number [("MSFT", VNum (of_decimal true 2 (-1)));
                       ("GOOG", VNum (of_decimal false 11 (-2)));
                       ("X", VNum (of_decimal false 5 (-3)))] /\
  Sorted desc_abs (List.filter above_threshold
                     [("MSFT", VNum (of_decimal true 2 (-1)));
                      ("GOOG", VNum (of_decimal false 11 (-2)));
                      ("X", VNum (of_decimal false 5 (-3)))]) /\
  rankDrift [("MSFT", VNum (of_decimal true 2 (-1)));
             ("GOOG", VNum (of_decimal false 11 (-2)));
             ("X", VNum (of_decimal false 5 (-3)))]
  = Ok (take 3 (List.filter above_threshold
                  [("MSFT", VNum (of_decimal true 2 (-1)));
                   ("GOOG", VNum (of_decimal false 11 (-2)));
                   ("X", VNum (of_decimal false 5 (-3)))])).
Proof.
  assert (H1 : Forall drift_number [("MSFT", VNum (of_decimal true 2 (-1)));
                                    ("GOOG", VNum (of_decimal false 11 (-2)));
                                    ("X", VNum (of_decimal false 5 (-3)))])
    by (repeat constructor; eexists; (split; [reflexivity|]); reflexivity).
  assert (H2 : Sorted desc_abs (List.filter above_threshold
                                  [("MSFT", VNum (of_decimal true 2 (-1)));
                                   ("GOOG", VNum (of_decimal false 11 (-2)));
                                   ("X", VNum (of_decimal false 5 (-3)))]))
    by (repeat constructor; vm_compute; reflexivity).
  split; [exact H1|]. split; [exact H2|].
  destruct (C5_drift_ranking [("MSFT", VNum (of_decimal true 2 (-1)));
                              ("GOOG", VNum (of_decimal false 11 (-2)));
                              ("X", VNum (of_decimal false 5 (-3)))]) as [Hret Hprop].
  destruct Hret as [ranked E].
  { repeat constructor. }
  rewrite E. f_equal.
  exact (proj2 (proj2 (proj2 (Hprop ranked E))) H1 H2).
Defined.

(** C6. A call that receives a 401 fails with the error "Session
    expired", which no other response raises, and leaves the token cleared
    and the login screen up.  In a refresh cycle that receives a 401 the
    system ends logged out; the four requests have all left before the
    first response, so that no request follows the 401; when the 401 is the
    first failure the cycle ends there and the panels are not overwritten
    with the generic failure text.  At start-up a 401 on the session check
    ends the operation without a request for the dashboard. *)
Theorem C6_session_expired (p : string) (body : option value) (w : world)
        (pre post : list (endpoint * outcome)) (ep : endpoint) :
  let arrivals := pre ++ (ep, Response 401 body) :: post in
  (fetchAPI p (Response 401 body) w).2 = Throw (Error "Session expired") /\
  loggedOut (fetchAPI p (Response 401 body) w).1 /\
  (forall r e, (fetchAPI p r w).2 = Throw e -> isSessionExpired e = true ->
               exists b, r = Response 401 b) /\
  loggedOut (loadDashboard arrivals w).1 /\
  trace (loadDashboard arrivals w).1 = trace w ++ requests w ++ settlements arrivals /\
  (forall l1 l2 x, requests w ++ settlements arrivals = l1 ++ x :: l2 ->
                   is_request x = false -> Forall (fun e => is_request e = false) l2) /\
  (Forall succeeded pre -> ep ∉ map fst pre ->
   (loadDashboard arrivals w).2 = Finished /\
   panels (document (loadDashboard arrivals w).1) = loadingPanels /\
   tiles (document (loadDashboard arrivals w).1) = tiles (document w)) /\
  (authorization w <> None ->
   loggedOut (init (Response 401 body) arrivals w) /\
   trace (init (Response 401 body) arrivals w)
   = trace w ++ [Fetched (API_BASE +:+ "/api/auth/me") (authorization w);
                 Settled (API_BASE +:+ "/api/auth/me") (Response 401 body)]).
Proof.
  intros arrivals.
  unfold fetchAPI.
  split; [reflexivity|].
  split; [apply receive_logged_out; right; reflexivity|].
  split.
  { intros r e Hr He. rewrite receive_result in Hr.
    destruct (kind_of r) as [k|] eqn:Hk.
    - injection Hr as <-. apply isSessionExpired_raised in He. subst k.
      destruct r as [|status b]; [discriminate|]. cbn in Hk.
      destruct (status =? 401)%N eqn:E.
      + apply N.eqb_eq in E. subst. eauto.
      + destruct (negb (ok status)); [discriminate|]. destruct b; discriminate.
    - destruct r as [|status [v|]]; try discriminate. injection Hr as <-. discriminate. }
  split.
  { unfold arrivals. rewrite loadDashboard_started, fold_left_app. cbn [fold_left].
    destruct (fold_left arrive pre (started w, Waiting none_yet)) as [w1 c1].
    pose proof (arrive_logged_out w1 c1 (ep, Response 401 body) (or_intror eq_refl)) as H.
    destruct (arrive (w1, c1) (ep, Response 401 body)) as [w2 c2]. apply run_logged_out, H. }
  split.
  { rewrite loadDashboard_started, run_trace, (proj2 (proj2 (started_world w))).
    symmetry. apply app_assoc. }
  split.
  { intros l1 l2 x E Hx.
    exact (nothing_after _ _ l1 l2 x (requests_are_requests w) (settlements_are_not arrivals) E Hx). }
  split.
  { intros Hpre Hn.
    destruct (run_first_failure pre post (ep, Response 401 body) SessionExpired w Hpre Hn eq_refl)
      as (Hc & Ht & Hp).
    repeat split; assumption. }
  intros Hauth. unfold init.
  assert (Htok : exists token, getToken w = Some token /\ bool_decide (token = "") = false).
  { unfold authorization in Hauth. destruct (getToken w) as [token|]; [|contradiction].
    exists token. destruct (bool_decide (token = "")); [contradiction|]. split; reflexivity. }
  destruct Htok as (token & Ht & Hb). rewrite Ht, Hb.
  unfold fetchAPI. rewrite fetchAPI_receive_kind. cbn [kind_of N.eqb Pos.eqb raised].
  cbn zeta. split.
  - split; [apply lookup_delete_eq | reflexivity].
  - unfold authorization, fetchAPI_send.
    cbn [trace showLogin clearToken with_document with_storage with_event].
    rewrite <- app_assoc. reflexivity.
Qed.

(** A cycle in which the signals come in, then the universe request is
    answered 401, then the two others. *)
Lemma C6_session_expired_witness :
  Forall succeeded [(Signals, Response 200 (Some signals1))] /\
  (Universe ∉ map fst [(Signals, Response 200 (Some signals1))]) /\
  authorization world0 <> None /\
  loggedOut (loadDashboard ([(Signals, Response 200 (Some signals1))] ++
                            (Universe, Response 401 None) ::
                            [(Portfolios, NoResponse); (StressTests, Response 200 (Some stress1))])
                           world0).1 /\
  panels (document
            (loadDashboard ([(Signals, Response 200 (Some signals1))] ++
                            (Universe, Response 401 None) ::
                            [(Portfolios, NoResponse); (StressTests, Response 200 (Some stress1))])
                           world0).1) = loadingPanels.
Proof.
  assert (H1 : Forall succeeded [(Signals, Response 200 (Some signals1))])
    by (repeat constructor).
  assert (H2 : Universe ∉ map fst [(Signals, Response 200 (Some signals1))])
    by (vm_compute; intros H; inversion H as [|? ? ? H']; inversion H').
  assert (H3 : authorization world0 <> None) by (vm_compute; discriminate).
  pose proof (C6_session_expired "/api/universe" None world0
                [(Signals, Response 200 (Some signals1))]
                [(Portfolios, NoResponse); (StressTests, Response 200 (Some stress1))]
                Universe) as H.
  cbn zeta in H. destruct H as (_ & _ & _ & Hout & _ & _ & Hfirst & _).
  destruct (Hfirst H1 H2) as (_ & Hp & _).
  repeat split; try assumption; apply Hout.
Defined.

(** C7, as the code has it.  fetchAPI fails with one exception per kind:
    "API error: <status>" for a status that is neither 401 nor 2xx, the
    rejection of the transport when there is no response, "Session
    expired" for a 401; the three are distinguishable, and so are two API
    errors of different status.  The refresh cycle handles every failure
    but the expired session in one way: the regime badge shows "—", the
    client grid the message that tells how to start the backend, the signal
    and stress panels are emptied and the tiles are left alone; for an
    expired session the handler changes nothing. *)
Theorem C7_failure_kinds (p : string) (r : outcome) (k : kind) (w : world) (d : dom) :
  kind_of r = Some k ->
  (fetchAPI_receive p r w).2 = Throw (raised k) /\
  (forall k', raised k = raised k' -> k = k') /\
  (k <> SessionExpired ->
   localStorage (fetchAPI_receive p r w).1 = localStorage w /\
   document (fetchAPI_receive p r w).1 = document w /\
   panels (onFailure (raised k) d) = failurePanels /\
   tiles (onFailure (raised k) d) = tiles d /\
   screens (onFailure (raised k) d) = screens d) /\
  (k = SessionExpired -> onFailure (raised k) d = d) /\
  (forall status body, r = Response status body -> status <> 401%N -> ok status = false ->
                       k = APIError status) /\
  (r = NoResponse -> k = Unreachable).
Proof.
  intros Hk.
  split; [rewrite receive_result, Hk; reflexivity|].
  split.
  { intros k' E. destruct k, k'; cbn in E; try discriminate; try reflexivity.
    injection E as E. apply digits_inj in E. congruence. }
  split.
  { intros Hne.
    destruct (receive_other p r w) as [Hs Hd]; [rewrite Hk; congruence|].
    destruct (onFailure_page (raised k) d) as (Hsc & Ht & Hp).
    assert (Hx : isSessionExpired (raised k) = false).
    { destruct (isSessionExpired (raised k)) eqn:E; [|reflexivity].
      apply isSessionExpired_raised in E. contradiction. }
    rewrite Hx in Hp. repeat split; assumption. }
  split; [intros ->; reflexivity|].
  split.
  - intros status body -> Hs Ho. cbn in Hk. apply N.eqb_neq in Hs. rewrite Hs, Ho in Hk.
    cbn in Hk. congruence.
  - intros ->. cbn in Hk. congruence.
Qed.

(** At a 500 without a body. *)
Lemma C7_failure_kinds_witness :
  kind_of (Response 500 None) = Some (APIError 500) /\
  (fetchAPI_receive "/api/signals" (Response 500 None) world0).2
  = Throw (Error "API error: 500") /\
  panels (onFailure (Error "API error: 500") page0) = failurePanels.
Proof.
  assert (H : kind_of (Response 500 None) = Some (APIError 500)) by reflexivity.
  destruct (C7_failure_kinds "/api/signals" (Response 500 None) (APIError 500) world0 page0 H)
    as (Hr & _ & Hp & _).
  split; [exact H|]. split; [exact Hr|].
  apply Hp. discriminate.
Defined.

(** C7 as stated fails: a refresh in which the signals request is
    answered 500 leaves the page exactly as a refresh in which that request
    gets no response; the start-the-backend message is shown for both, and
    no text carries the status. *)
Lemma C7_counterexample :
  document (loadDashboard [(Universe, Response 200 (Some universe1));
                           (Signals, Response 500 None);
                           (Portfolios, Response 200 (Some portfolios1));
                           (StressTests, Response 200 (Some stress1))] world0).1
  = document (loadDashboard [(Universe, Response 200 (Some universe1));
                             (Signals, NoResponse);
                             (Portfolios, Response 200 (Some portfolios1));
                             (StressTests, Response 200 (Some stress1))] world0).1 /\
  clientGrid (document (loadDashboard [(Universe, Response 200 (Some universe1));
                                       (Signals, Response 500 None);
                                       (Portfolios, Response 200 (Some portfolios1));
                                       (StressTests, Response 200 (Some stress1))] world0).1)
  = unreachableMessage.
Proof. split; vm_compute; reflexivity. Qed.




(** C9, as the code has it.  renderClientCard returns a card for every
    portfolio whose client and drift mapping are present, whose optimised
    metrics hold a numeric Sharpe ratio, and whose printed fields and
    drifts convert to text and numbers (as every string, number, boolean
    and null does), whatever else the portfolio holds; for every other
    portfolio it raises a TypeError. *)
Theorem C9_card_or_type_error (portfolio : value) :
  (card_inputs_present portfolio = true -> card_fields_convertible portfolio = true ->
   exists html, renderClientCard portfolio = Ok html) /\
  (card_inputs_present portfolio = false \/ card_fields_convertible portfolio = false ->
   renderClientCard portfolio = Throw TypeError).
Proof.
  split; [apply renderClientCard_returns|].
  intros H. destruct (renderClientCard portfolio) as [html|e] eqn:E.
  - destruct (renderClientCard_needs portfolio html E) as [H1 H2].
    destruct H as [H|H]; congruence.
  - f_equal. exact (renderClientCard_type_errors portfolio e E).
Qed.

(** At a portfolio as the backend sends it. *)
Lemma C9_card_or_type_error_witness :
  card_inputs_present portfolio1 = true /\ card_fields_convertible portfolio1 = true /\
  exists html, renderClientCard portfolio1 = Ok html.
Proof.
  assert (H1 : card_inputs_present portfolio1 = true) by reflexivity.
  assert (H2 : card_fields_convertible portfolio1 = true) by reflexivity.
  split; [exact H1|]. split; [exact H2|].
  exact (proj1 (C9_card_or_type_error portfolio1) H1 H2).
Defined.

(** C9 as stated fails: a portfolio without its drift mapping makes
    renderClientCard raise a TypeError instead of returning a card with
    a marker in place of the drift. *)
Lemma C9_counterexample :
  renderClientCard portfolio_without_drift = Throw TypeError.
Proof. vm_compute. reflexivity. Qed.

(** C10. The token store round-trips through its key: reading after
    [setToken t] gives [t], reading after [clearToken] gives nothing,
    a second [setToken] replaces the first, and clearing undoes setting. *)
Theorem C10_token_roundtrip (t t1 t2 : string) (w : world) :
  getToken (setToken t w) = Some t /\
  getToken (clearToken w) = None /\
  setToken t2 (setToken t1 w) = setToken t2 w /\
  getToken (setToken t2 (setToken t1 w)) = Some t2 /\
  getToken (clearToken (setToken t w)) = None /\
  getToken (setToken t (clearToken w)) = Some t /\
  (forall k : string, k <> TOKEN_KEY ->
     localStorage (setToken t w) !! k = localStorage w !! k /\
     localStorage (clearToken w) !! k = localStorage w !! k).
Proof.
  unfold getToken, setToken, clearToken, with_storage; cbn.
  repeat split.
  - apply lookup_insert_eq.
  - apply lookup_delete_eq.
  - f_equal. apply insert_insert_eq.
  - apply lookup_insert_eq.
  - apply lookup_delete_eq.
  - apply lookup_insert_eq.
  - apply lookup_insert_ne. congruence.
  - apply lookup_delete_ne. congruence.
Qed.

(** * Further properties *)

Import Notions.

(** ** escapeHtml *)

Module EscapeFacts.

Import PrintFacts.

Lemma list_of_append (a b : string) :
  list_ascii_of_string (a +:+ b) = list_ascii_of_string a ++ list_ascii_of_string b.
Proof.
  induction a as [|x a IH]; [reflexivity|].
  rewrite append_cons. cbn [list_ascii_of_string]. rewrite IH. reflexivity.
Qed.

Lemma serialize_text_cases (c : ascii) (l : list ascii) :
  (c = "&"%char /\ serialize_text (c :: l) = "&amp;" +:+ serialize_text l) \/
  (c = "<"%char /\ serialize_text (c :: l) = "&lt;" +:+ serialize_text l) \/
  (c = ">"%char /\ serialize_text (c :: l) = "&gt;" +:+ serialize_text l) \/
  (exists l', c = ascii_of_nat 194 /\ l = ascii_of_nat 160 :: l' /\
              serialize_text (c :: l) = "&nbsp;" +:+ serialize_text l') \/
  (c <> "&"%char /\ c <> "<"%char /\ c <> ">"%char /\
   begins nbsp (c :: l) = false /\
   serialize_text (c :: l) = String c (serialize_text l)).
Proof.
  cbn [serialize_text].
  destruct (bool_decide (c = "&"%char)) eqn:E1;
    [apply bool_decide_eq_true in E1; left; split; [exact E1|reflexivity]|].
  destruct (bool_decide (c = "<"%char)) eqn:E2;
    [apply bool_decide_eq_true in E2; right; left; split; [exact E2|reflexivity]|].
  destruct (bool_decide (c = ">"%char)) eqn:E3;
    [apply bool_decide_eq_true in E3; right; right; left; split; [exact E3|reflexivity]|].
  apply bool_decide_eq_false in E1, E2, E3.
  right; right; right.
  destruct l as [|c' l'].
  - right. repeat split; try assumption.
    unfold begins, nbsp. cbn [list_ascii_of_string strip_prefix].
    destruct (bool_decide _); reflexivity.
  - destruct (bool_decide (c = ascii_of_nat 194)) eqn:E4.
    + destruct (bool_decide (c' = ascii_of_nat 160)) eqn:E5; cbn [andb].
      * apply bool_decide_eq_true in E4, E5. left. exists l'. subst. repeat split.
      * right. repeat split; try assumption.
        apply bool_decide_eq_true in E4. apply bool_decide_eq_false in E5.
        unfold begins, nbsp. cbn [list_ascii_of_string strip_prefix].
        rewrite bool_decide_eq_true_2 by congruence.
        rewrite bool_decide_eq_false_2 by congruence. reflexivity.
    + cbn [andb]. right. repeat split; try assumption.
      apply bool_decide_eq_false in E4.
      unfold begins, nbsp. cbn [list_ascii_of_string strip_prefix].
      rewrite bool_decide_eq_false_2 by congruence. reflexivity.
Qed.

Lemma length_ind (P : list ascii -> Prop) :
  (forall l, (forall l', (length l' < length l)%nat -> P l') -> P l) -> forall l, P l.
Proof.
  intros H l. remember (length l) as n eqn:E. revert l E.
  induction n as [n IH] using lt_wf_ind. intros l ->. apply H.
  intros l' Hl. exact (IH _ Hl l' eq_refl).
Qed.

Lemma begins_other (p : string) (c : ascii) (l : list ascii) :
  c <> "&"%char -> begins (String "&"%char p) (c :: l) = false.
Proof.
  intros H. unfold begins. cbn [list_ascii_of_string strip_prefix].
  rewrite bool_decide_eq_false_2 by congruence. reflexivity.
Qed.

(** What [innerHTML] gives for a text holds text only. *)
Lemma serialize_text_only (l : list ascii) :
  text_only (list_ascii_of_string (serialize_text l)) = true.
Proof.
  induction l as [l IH] using length_ind. destruct l as [|c l]; [reflexivity|].
  destruct (serialize_text_cases c l)
    as [[-> ->]|[[-> ->]|[[-> ->]|[(l' & -> & -> & ->)|(H1 & H2 & H3 & _ & ->)]]]];
    rewrite ?list_of_append.
  - change (text_only (list_ascii_of_string (serialize_text l)) = true).
    apply IH. cbn [length]. lia.
  - change (text_only (list_ascii_of_string (serialize_text l)) = true).
    apply IH. cbn [length]. lia.
  - change (text_only (list_ascii_of_string (serialize_text l)) = true).
    apply IH. cbn [length]. lia.
  - change (text_only (list_ascii_of_string (serialize_text l')) = true).
    apply IH. cbn [length]. lia.
  - cbn [list_ascii_of_string text_only].
    rewrite !bool_decide_eq_false_2 by assumption. cbn [negb andb orb].
    apply IH. cbn [length]. lia.
Qed.

(** Reading the references back gives the text. *)
Lemma unescape_serialize (l : list ascii) :
  unescape 0 (list_ascii_of_string (serialize_text l)) = l.
Proof.
  induction l as [l IH] using length_ind. destruct l as [|c l]; [reflexivity|].
  destruct (serialize_text_cases c l)
    as [[-> ->]|[[-> ->]|[[-> ->]|[(l' & -> & -> & ->)|(H1 & H2 & H3 & _ & ->)]]]];
    rewrite ?list_of_append.
  - change ("&"%char :: unescape 0 (list_ascii_of_string (serialize_text l)) = "&"%char :: l).
    rewrite IH by (cbn [length]; lia). reflexivity.
  - change ("<"%char :: unescape 0 (list_ascii_of_string (serialize_text l)) = "<"%char :: l).
    rewrite IH by (cbn [length]; lia). reflexivity.
  - change (">"%char :: unescape 0 (list_ascii_of_string (serialize_text l)) = ">"%char :: l).
    rewrite IH by (cbn [length]; lia). reflexivity.
  - change (ascii_of_nat 194 :: ascii_of_nat 160 ::
            unescape 0 (list_ascii_of_string (serialize_text l'))
            = ascii_of_nat 194 :: ascii_of_nat 160 :: l').
    rewrite IH by (cbn [length]; lia). reflexivity.
  - cbn [list_ascii_of_string unescape].
    rewrite !begins_other by assumption.
    rewrite IH by (cbn [length]; lia). reflexivity.
Qed.

(** Text that needs no escaping is left as it is. *)
Lemma serialize_plain (l : list ascii) :
  plain l = true -> serialize_text l = string_of_list_ascii l.
Proof.
  induction l as [|c l IH]; [reflexivity|].
  cbn [plain]. rewrite !andb_true_iff, !negb_true_iff.
  intros ((((H1 & H2) & H3) & H4) & H5).
  apply bool_decide_eq_false in H1, H2, H3.
  destruct (serialize_text_cases c l)
    as [[E _]|[[E _]|[[E _]|[(l' & -> & -> & _)|(_ & _ & _ & _ & ->)]]]];
    try contradiction.
  - discriminate H4.
  - cbn [string_of_list_ascii]. rewrite (IH H5). reflexivity.
Qed.

End EscapeFacts.

Import EscapeFacts.

(** X1. Whatever escapeHtml returns holds text only: it has no [<] and
    no [>], and every [&] in it begins one of the references [&amp;],
    [&lt;], [&gt;], [&nbsp;].  A string without these characters and
    without a no-break space is returned as it is. *)
Theorem X1_escapeHtml_text_only (v : value) (s : string) :
  escapeHtml v = Ok s ->
  text_only (list_ascii_of_string s) = true /\
  (forall t, v = VStr t -> plain (list_ascii_of_string t) = true -> s = t).
Proof.
  unfold escapeHtml. destruct (DOMString v) as [t0|e] eqn:E; [|discriminate].
  cbn [mbind result_bind bind]. intros [= <-].
  split; [apply serialize_text_only|].
  intros t -> Hp. cbn in E. injection E as <-.
  rewrite (serialize_plain _ Hp). apply string_of_list_ascii_of_string.
Qed.

(** At a name that holds markup. *)
Lemma X1_escapeHtml_text_only_witness :
  escapeHtml (VStr "<b>Tom & Jerry</b>") = Ok "&lt;b&gt;Tom &amp; Jerry&lt;/b&gt;" /\
  text_only (list_ascii_of_string "&lt;b&gt;Tom &amp; Jerry&lt;/b&gt;") = true.
Proof.
  assert (H : escapeHtml (VStr "<b>Tom & Jerry</b>") = Ok "&lt;b&gt;Tom &amp; Jerry&lt;/b&gt;")
    by (vm_compute; reflexivity).
  split; [exact H|].
  exact (proj1 (X1_escapeHtml_text_only _ _ H)).
Defined.

(** X2. escapeHtml loses nothing of a string: reading the references
    of its result back gives the string, so that two strings with the same
    result are the same string. *)
Theorem X2_escapeHtml_reads_back (t : string) :
  exists s, escapeHtml (VStr t) = Ok s /\
            unescape 0 (list_ascii_of_string s) = list_ascii_of_string t /\
            (forall t', escapeHtml (VStr t') = Ok s -> t' = t).
Proof.
  exists (serialize_text (list_ascii_of_string t)).
  split; [reflexivity|]. split; [apply unescape_serialize|].
  intros t' H. cbn in H. injection H as H.
  apply (f_equal (fun s => unescape 0 (list_ascii_of_string s))) in H.
  rewrite !unescape_serialize in H.
  rewrite <- (string_of_list_ascii_of_string t'), H.
  apply string_of_list_ascii_of_string.
Qed.

(** ** The table of signals and the stress cards *)

Module TableFacts.

Import RenderFacts RankFacts CardFacts.

Ltac returned H :=
  match type of H with
  | mbind _ ?r = Ok _ =>
      let E := fresh "E" in
      destruct r eqn:E; cbn [mbind result_bind bind] in H; [|discriminate H]
  end.

Ltac collect :=
  repeat match goal with
         | E : Get ?v ?k = Ok ?x |- _ => rewrite ?(Get_returns v x k E); clear E
         | E : escapeHtml ?v = Ok ?s |- _ => rewrite ?(escapeHtml_convertible v s E); clear E
         | E : ToNumber ?v = Ok ?x |- _ => rewrite ?(number_convertible v x E); clear E
         | E : ToString ?v = Ok ?s |- _ => rewrite ?(string_convertible v s E); clear E
         | E : call_toFixed ?v ?f = Ok ?t |- _ => rewrite ?(call_toFixed_returns v f t E); clear E
         end.

Ltac type_errors :=
  repeat first
    [ apply Ok_type_errors
    | apply TypeError_type_errors
    | apply Get_type_errors | apply Object_entries_type_errors
    | apply ToString_type_errors | apply escapeHtml_type_errors
    | apply ToNumber_type_errors | apply call_toFixed_type_errors
    | apply DOMString_type_errors
    | apply bind_type_errors; [|intros ?] ].

Lemma as_array_type_errors (v : value) : type_errors_only (as_array v).
Proof. destruct v; type_errors. Qed.

Lemma mapM_returns {A B} (f : A -> result B) (l : list A) :
  Forall (fun x => exists y, f x = Ok y) l ->
  exists ys, Forall2 (fun x y => f x = Ok y) l ys /\ mapM f l = Ok ys.
Proof.
  induction 1 as [|x l [y Hy] Hl (ys & F & E)]; [exists []; split; [constructor|reflexivity]|].
  exists (y :: ys). split; [constructor; assumption|].
  cbn [mapM]. rewrite Hy, E. reflexivity.
Qed.

Lemma mapM_needs {A B} (f : A -> result B) (l : list A) (ys : list B) :
  mapM f l = Ok ys -> Forall (fun x => exists y, f x = Ok y) l.
Proof.
  revert ys. induction l as [|x l IH]; intros ys H; [constructor|].
  cbn [mapM] in H. destruct (f x) as [y|] eqn:E; [|discriminate H].
  cbn [mbind result_bind bind] in H.
  destruct (mapM f l) as [ys'|] eqn:F; [|discriminate H].
  constructor; [eauto | exact (IH ys' eq_refl)].
Qed.

(** *** renderSignalsTable *)

Lemma renderSignalRow_type_errors (s : value) : type_errors_only (renderSignalRow s).
Proof. unfold renderSignalRow. type_errors. Qed.

Lemma renderSignalRow_needs (s : value) (html : string) :
  renderSignalRow s = Ok html -> signal_printable s = true.
Proof.
  unfold renderSignalRow, signal_printable. cbn [forallb]. unfold field_convertible.
  intros H. repeat returned H. clear H. collect. reflexivity.
Qed.

Lemma renderSignalRow_returns (s : value) :
  signal_printable s = true -> exists html, renderSignalRow s = Ok html.
Proof.
  unfold renderSignalRow, signal_printable. cbn [forallb]. unfold field_convertible.
  destruct (present s) eqn:Hp; [|discriminate].
  destruct (Get_present s "symbol" Hp) as [symbol ->].
  destruct (Get_present s "iv" Hp) as [iv ->].
  destruct (Get_present s "predicted_hv" Hp) as [hv ->].
  destruct (Get_present s "ivr" Hp) as [ivr ->].
  destruct (Get_present s "iv_percentile" Hp) as [pct ->].
  destruct (Get_present s "regime" Hp) as [regime ->].
  destruct (Get_present s "fear_level" Hp) as [fear ->].
  destruct (Get_present s "recommended_action" Hp) as [action ->].
  cbn [mbind result_bind bind andb]. rewrite !andb_true_iff.
  intros (Hn & H1 & H2 & H3 & H4 & H5 & H6 & H7 & _).
  destruct (escapeHtml_returns symbol H1) as [s1 ->].
  destruct (convertible_number iv H2) as [x1 ->].
  destruct (convertible_number hv H3) as [x2 ->].
  destruct (call_toFixed_number ivr 2 Hn) as [t ->].
  destruct (convertible_number pct H4) as [x3 ->].
  destruct (escapeHtml_returns regime H5) as [s2 ->].
  destruct (escapeHtml_returns fear H6) as [s3 ->].
  destruct (escapeHtml_returns action H7) as [s4 ->].
  cbn [mbind result_bind bind]. eexists. reflexivity.
Qed.

Lemma forallb_returns {A B} (p : A -> bool) (f : A -> result B) (l : list A) :
  (forall x, p x = true <-> exists y, f x = Ok y) ->
  forallb p l = true <-> Forall (fun x => exists y, f x = Ok y) l.
Proof.
  intros H. rewrite forallb_Forall.
  split; intros F; (eapply Forall_impl; [exact F|]); intros x; apply H.
Qed.

Lemma signal_printable_iff (s : value) :
  signal_printable s = true <-> exists html, renderSignalRow s = Ok html.
Proof.
  split; [apply renderSignalRow_returns|]. intros [html H].
  exact (renderSignalRow_needs s html H).
Qed.

Lemma renderSignalsTable_type_errors (signals : value) :
  type_errors_only (renderSignalsTable signals).
Proof.
  unfold renderSignalsTable.
  apply bind_type_errors; [apply as_array_type_errors|intros rows].
  apply bind_type_errors; [|intros ?; apply Ok_type_errors].
  apply mapM_type_errors, renderSignalRow_type_errors.
Qed.

(** *** renderStressCard *)

Lemma renderStressCard_type_errors (scenario : value) :
  type_errors_only (renderStressCard scenario).
Proof.
  unfold renderStressCard. cbv zeta.
  repeat first
    [ apply Ok_type_errors
    | apply bind_type_errors;
      [ first [ apply Get_type_errors | apply ToNumber_type_errors
              | apply escapeHtml_type_errors
              | match goal with |- type_errors_only (match ?v with _ => _ end) =>
                  destruct v; first [apply Ok_type_errors | apply TypeError_type_errors]
                end ]
      | intros ? ] ].
Qed.

Lemma renderStressCard_needs (scenario : value) (html : string) :
  renderStressCard scenario = Ok html -> scenario_printable scenario = true.
Proof.
  unfold renderStressCard, scenario_printable. cbn [forallb]. unfold field_convertible.
  cbv zeta. intros H. repeat returned H. clear H.
  match goal with
  | E : match ?v with _ => _ end = Ok _ |- _ => destruct v; try discriminate E; clear E
  end.
  collect. reflexivity.
Qed.

Lemma renderStressCard_returns (scenario : value) :
  scenario_printable scenario = true -> exists html, renderStressCard scenario = Ok html.
Proof.
  unfold renderStressCard, scenario_printable. cbn [forallb]. unfold field_convertible.
  cbv zeta.
  destruct (present scenario) eqn:Hp; [|discriminate].
  destruct (Get_present scenario "portfolio_loss_pct_current" Hp) as [l1 ->].
  destruct (Get_present scenario "portfolio_loss_pct_iv_adjusted" Hp) as [l2 ->].
  destruct (Get_present scenario "name" Hp) as [name ->].
  destruct (Get_present scenario "description" Hp) as [desc ->].
  cbn [mbind result_bind bind andb]. rewrite !andb_true_iff.
  intros (Hn & H1 & H2 & H3 & _).
  destruct (convertible_number l1 H1) as [x1 ->].
  destruct (convertible_number l2 H2) as [x2 ->].
  destruct name as [| | | |n| |]; try discriminate Hn.
  destruct (escapeHtml_returns desc H3) as [s1 ->].
  cbn [mbind result_bind bind]. eexists. reflexivity.
Qed.

End TableFacts.

Import TableFacts.

(** X3. renderSignalsTable returns the rows of an array of signals, one
    after the other, when every signal is there, has a rank that is a
    number and fields that convert; nothing is returned for the empty
    array but the empty string.  On anything else (a value that is not an
    array, a signal that is null, a rank that is missing or not a number)
    it raises a TypeError. *)
Theorem X3_signals_table (signals : value) :
  (table_printable signals = true ->
   exists rows htmls,
     signals = VArr rows /\
     Forall2 (fun s html => renderSignalRow s = Ok html) rows htmls /\
     renderSignalsTable signals = Ok (join "" htmls)) /\
  (table_printable signals = false -> renderSignalsTable signals = Throw TypeError) /\
  renderSignalsTable (VArr []) = Ok "".
Proof.
  split; [|split; [|reflexivity]].
  - destruct signals as [| | | | |rows|]; try discriminate. cbn [table_printable].
    intros H. apply (forallb_returns _ _ _ signal_printable_iff) in H.
    destruct (mapM_returns _ _ H) as (htmls & F & E).
    exists rows, htmls. split; [reflexivity|]. split; [exact F|].
    unfold renderSignalsTable. cbn [as_array mbind result_bind bind]. rewrite E. reflexivity.
  - intros H. destruct (renderSignalsTable signals) as [html|e] eqn:E.
    + exfalso. unfold renderSignalsTable in E.
      destruct signals as [| | | | |rows|]; try discriminate E.
      cbn [as_array mbind result_bind bind] in E.
      destruct (mapM renderSignalRow rows) as [htmls|] eqn:F; [|discriminate E].
      apply mapM_needs in F. apply (forallb_returns _ _ _ signal_printable_iff) in F.
      cbn [table_printable] in H. congruence.
    + f_equal. exact (renderSignalsTable_type_errors signals e E).
Qed.

(** At one signal as the backend sends it. *)
Lemma X3_signals_table_witness :
  table_printable (VArr [signal1]) = true /\
  exists html, renderSignalsTable (VArr [signal1]) = Ok html.
Proof.
  assert (H : table_printable (VArr [signal1]) = true) by reflexivity.
  split; [exact H|].
  destruct (proj1 (X3_signals_table (VArr [signal1])) H) as (rows & htmls & _ & _ & E).
  eexists. exact E.
Defined.

(** X4. renderStressCard returns a card for a scenario that is there,
    whose name is a string and whose losses and description convert; for
    every other scenario (null, a name that is missing or not a string) it
    raises a TypeError. *)
Theorem X4_stress_card (scenario : value) :
  (scenario_printable scenario = true -> exists html, renderStressCard scenario = Ok html) /\
  (scenario_printable scenario = false -> renderStressCard scenario = Throw TypeError).
Proof.
  split; [apply renderStressCard_returns|].
  intros H. destruct (renderStressCard scenario) as [html|e] eqn:E.
  - rewrite (renderStressCard_needs scenario html E) in H. discriminate H.
  - f_equal. exact (renderStressCard_type_errors scenario e E).
Qed.

(** At a scenario as the backend sends it. *)
Lemma X4_stress_card_witness :
  scenario_printable scenario1 = true /\ exists html, renderStressCard scenario1 = Ok html.
Proof.
  assert (H : scenario_printable scenario1 = true) by reflexivity.
  split; [exact H|]. exact (proj1 (X4_stress_card scenario1) H).
Defined.

(** ** The highest rank *)

Module MetricMore.

Import NumFacts RenderFacts MetricFacts.

Lemma le_refl (x : float) : isNaN x = false -> le x x = true.
Proof.
  intros H. apply le_key. repeat split; try assumption.
  destruct (key x) as [[a b] c]. cbn. lia.
Qed.

Lemma lt_le (a b : float) : lt a b = true -> le a b = true.
Proof. unfold lt, le, SFltb, SFleb. destruct (SFcompare a b) as [[]|]; congruence. Qed.

Lemma finite_not_nan (x : float) : isFinite x = true -> isNaN x = false.
Proof. destruct x; try reflexivity; discriminate. Qed.

(** One step of [Math.max] on a number that is not NaN. *)
Lemma highest_step (highest x : float) :
  isNaN highest = false -> isFinite x = true ->
  let r := if isNaN highest || isNaN x then NaN
           else match highest, x with
                | S754_zero true, S754_zero false => x
                | _, _ => if gt x highest then x else highest
                end in
  (r = highest \/ r = x) /\ le highest r = true /\ le x r = true /\ isNaN r = false.
Proof.
  intros Hh Hx. pose proof (finite_not_nan x Hx) as Hn.
  rewrite Hh, Hn. cbn [orb].
  assert (H : let r := if gt x highest then x else highest in
              (r = highest \/ r = x) /\ le highest r = true /\ le x r = true /\
              isNaN r = false).
  { cbn zeta. destruct (gt x highest) eqn:E.
    - split; [right; reflexivity|]. split; [apply lt_le, E|].
      split; [apply le_refl, Hn | exact Hn].
    - split; [left; reflexivity|]. split; [apply le_refl, Hh|].
      split; [apply le_or_lt; assumption | exact Hh]. }
  destruct highest as [[]| | |]; try exact H.
  destruct x as [[]| | |]; try exact H.
  cbn zeta. repeat split; try reflexivity. right. reflexivity.
Qed.

Lemma highest_from (l : list float) : forall highest,
  isNaN highest = false -> Forall (fun x => isFinite x = true) l ->
  let r := fold_left (fun highest x =>
                        if isNaN highest || isNaN x then NaN
                        else match highest, x with
                             | S754_zero true, S754_zero false => x
                             | _, _ => if gt x highest then x else highest
                             end) l highest in
  r ∈ highest :: l /\ le highest r = true /\ (forall x, x ∈ l -> le x r = true).
Proof.
  induction l as [|x l IH]; intros highest Hh Hl; cbn [fold_left].
  - split; [left|]. split; [apply le_refl, Hh|]. intros x Hx. inversion Hx.
  - inversion Hl as [|? ? Hx Hl']; subst.
    destruct (highest_step highest x Hh Hx) as (Hr & H1 & H2 & H3).
    cbn zeta in *.
    set (h := if isNaN highest || isNaN x then NaN
              else match highest, x with
                   | S754_zero true, S754_zero false => x
                   | _, _ => if gt x highest then x else highest
                   end) in *.
    destruct (IH h H3 Hl') as (Hin & Hle & Hall).
    split.
    { apply elem_of_cons in Hin as [Hin|Hin].
      - rewrite Hin. destruct Hr as [->| ->]; [left | right; left].
      - right; right. exact Hin. }
    split; [exact (le_trans _ _ _ H1 Hle)|].
    intros y Hy. apply elem_of_cons in Hy as [->|Hy]; [exact (le_trans _ _ _ H2 Hle)|].
    apply Hall, Hy.
Qed.

(** [Math.max] of finite numbers is one of them and none is above
    it. *)
Lemma highest_of_finite (l : list float) :
  l <> [] -> Forall (fun x => isFinite x = true) l ->
  highest_of l ∈ l /\ (forall x, x ∈ l -> le x (highest_of l) = true) /\
  isFinite (highest_of l) = true.
Proof.
  intros Hne Hl. destruct l as [|x l]; [contradiction|].
  inversion Hl as [|? ? Hx Hl']; subst.
  unfold highest_of. cbn [fold_left].
  assert (E : (if isNaN nInf || isNaN x then NaN
               else match nInf, x with
                    | S754_zero true, S754_zero false => x
                    | _, _ => if gt x nInf then x else nInf
                    end) = x).
  { destruct x as [[]|[]| |[] m e]; try reflexivity; discriminate. }
  rewrite E.
  destruct (highest_from l x (finite_not_nan x Hx) Hl') as (Hin & Hle & Hall).
  cbn zeta in *. split; [exact Hin|]. split.
  - intros y Hy. apply elem_of_cons in Hy as [->|Hy]; [exact Hle | apply Hall, Hy].
  - rewrite Forall_forall in Hl. apply Hl, Hin.
Qed.

Lemma finiteRanks_finite (signals : list value) :
  Forall (fun x => isFinite x = true) (finiteRanks signals).
Proof.
  induction signals as [|s l IH]; [constructor|].
  rewrite finiteRanks_cons. unfold finiteRank.
  destruct (Get s "ivr") as [[| | |x| | |]|]; try exact IH.
  destruct (isFinite x) eqn:E; [constructor; assumption | exact IH].
Qed.

Lemma showMetrics_no_maximum (m : metrics) (d : dom) :
  isFinite (maxIvr m) = false -> metricMaxIvr (showMetrics m d) = metricMaxIvr d.
Proof.
  intros H. unfold showMetrics. rewrite H. destruct (isFinite (avgIv m)); reflexivity.
Qed.

End MetricMore.

Import MetricMore.

(** X5. The regime shown is the universe's when that is truthy, whatever
    the signal response is (null included); otherwise the signal
    response's when that is truthy; otherwise the dash.  It is never a
    falsy value.  A universe response that is null, or a signal response
    that is null when the universe gives no regime, raises a TypeError. *)
Theorem X5_regime_fallback (universeRes signalsRes : value) :
  (forall r, truthy_field universeRes "regime" = Some r ->
             regimeOf universeRes signalsRes = Ok r) /\
  (present universeRes = true -> truthy_field universeRes "regime" = None ->
   present signalsRes = true ->
   regimeOf universeRes signalsRes
   = Ok (match truthy_field signalsRes "regime" with Some r => r | None => VStr "—" end)) /\
  (present universeRes = false \/
   (truthy_field universeRes "regime" = None /\ present signalsRes = false) ->
   regimeOf universeRes signalsRes = Throw TypeError) /\
  (forall r, regimeOf universeRes signalsRes = Ok r -> ToBoolean r = true).
Proof.
  unfold regimeOf, truthy_field.
  destruct (present universeRes) eqn:Hu.
  2:{ rewrite (Get_absent universeRes "regime" Hu). cbn [mbind result_bind bind].
      split; [discriminate|]. split; [discriminate|]. split; [reflexivity | discriminate]. }
  destruct (Get_present universeRes "regime" Hu) as [ru ->].
  cbn [mbind result_bind bind].
  destruct (ToBoolean ru) eqn:Tu.
  { split; [intros r [= <-]; reflexivity|]. split; [discriminate|].
    split; [intros [H|[H _]]; discriminate H|]. intros r [= <-]. exact Tu. }
  split; [discriminate|].
  destruct (present signalsRes) eqn:Hs.
  - destruct (Get_present signalsRes "regime" Hs) as [rs ->].
    cbn [mbind result_bind bind]. unfold or_else.
    split; [intros _ _ _; destruct (ToBoolean rs); reflexivity|].
    split; [intros [H|[_ H]]; discriminate H|].
    intros r [= <-]. destruct (ToBoolean rs) eqn:Ts; [exact Ts | reflexivity].
  - rewrite (Get_absent signalsRes "regime" Hs). cbn [mbind result_bind bind].
    split; [discriminate|]. split; [reflexivity | discriminate].
Qed.

(** At a universe response with a regime and a signal response that is
    null. *)
Lemma X5_regime_fallback_witness :
  truthy_field universe1 "regime" = Some (VStr "STRESS") /\
  regimeOf universe1 VNull = Ok (VStr "STRESS").
Proof.
  assert (H : truthy_field universe1 "regime" = Some (VStr "STRESS")) by reflexivity.
  split; [exact H|]. exact (proj1 (X5_regime_fallback universe1 VNull) _ H).
Defined.

(** X6. On a non-empty collection of signals that are there, the tile of
    the maximum rank is written with one of the finite ranks, and no
    finite rank is above it; when no rank is a finite number the tile is
    left as it was. *)
Theorem X6_highest_rank (signals : list value) (d : dom) :
  signals <> [] -> Forall (fun s => present s = true) signals ->
  (finiteRanks signals = [] ->
   metricMaxIvr (updateMetrics (VArr signals) d).1 = metricMaxIvr d) /\
  (finiteRanks signals <> [] ->
   exists highest,
     highest ∈ finiteRanks signals /\
     (forall x, x ∈ finiteRanks signals -> le x highest = true) /\
     metricMaxIvr (updateMetrics (VArr signals) d).1
     = write_tile (toFixed highest 2) (metricMaxIvr d)).
Proof.
  intros Hne H.
  destruct (computeMetrics_present signals H) as (m & E & _ & _ & Hm).
  destruct (updateMetrics_present signals d Hne H) as (m' & E' & ->).
  assert (m' = m) as -> by congruence. cbn [fst].
  split.
  - intros Hr. apply showMetrics_no_maximum. rewrite Hm, Hr. reflexivity.
  - intros Hr.
    destruct (highest_of_finite _ Hr (finiteRanks_finite signals)) as (Hin & Hall & Hfin).
    exists (highest_of (finiteRanks signals)).
    split; [exact Hin|]. split; [exact Hall|].
    rewrite <- Hm in *. exact (proj2 (proj2 (showMetrics_tiles m d)) Hfin).
Qed.

(** At two signals, one of them without a rank. *)
Lemma X6_highest_rank_witness :
  [signal_without_rank; signal1] <> [] /\
  Forall (fun s => present s = true) [signal_without_rank; signal1] /\
  metricMaxIvr (updateMetrics (VArr [signal_without_rank; signal1]) page0).1 = Some "2.00".
Proof.
  assert (H1 : [signal_without_rank; signal1] <> []) by discriminate.
  assert (H2 : Forall (fun s => present s = true) [signal_without_rank; signal1])
    by (repeat constructor).
  split; [exact H1|]. split; [exact H2|].
  destruct (X6_highest_rank [signal_without_rank; signal1] page0 H1 H2) as [_ H].
  destruct H as (highest & Hin & _ & ->); [discriminate|].
  apply list_elem_of_singleton in Hin. rewrite Hin. vm_compute. reflexivity.
Defined.

(** ** Rendering that fails *)

Module FailureFacts.

Import RenderFacts MetricFacts CycleFacts RankFacts CardFacts TableFacts.

Lemma foldM_type_errors {A B} (f : B -> A -> result B) (l : list A) : forall init,
  (forall b x, type_errors_only (f b x)) -> type_errors_only (foldM f l init).
Proof.
  induction l as [|x l IH]; intros init Hf; [apply Ok_type_errors|].
  cbn [foldM]. apply bind_type_errors; [apply Hf|]. intros acc. apply IH, Hf.
Qed.

Lemma regimeOf_type_errors (u s : value) : type_errors_only (regimeOf u s).
Proof.
  unfold regimeOf. apply bind_type_errors; [apply Get_type_errors|]. intros r.
  destruct (ToBoolean r); type_errors.
Qed.

Lemma computeMetrics_type_errors (signals : list value) :
  type_errors_only (computeMetrics signals).
Proof.
  unfold computeMetrics, Math_max, addIv, hasNumericIv, isFearful. cbv zeta.
  repeat first
    [ apply Ok_type_errors
    | apply foldM_type_errors; intros ? ?
    | apply filterM_type_errors; intros ?
    | apply mapM_type_errors; intros ?
    | apply Get_type_errors | apply ToNumber_type_errors
    | apply bind_type_errors; [|intros ?] ].
Qed.

Lemma lift_type_errors {A} (r : result A) :
  type_errors_only r -> page_type_errors_only (lift r).
Proof. intros H d d' e [= _ E]. apply H, E. Qed.

Lemma write_type_errors (f : dom -> dom) : page_type_errors_only (write f).
Proof. intros d d' e E. discriminate E. Qed.

Lemma page_bind_type_errors {A B} (m : M A) (k : A -> M B) :
  page_type_errors_only m -> (forall a, page_type_errors_only (k a)) ->
  page_type_errors_only (m ≫= k).
Proof.
  intros Hm Hk d d' e. unfold mbind, M_bind.
  destruct (m d) as [d1 [a|e1]] eqn:E.
  - apply Hk.
  - intros [= _ <-]. exact (Hm d d1 e1 E).
Qed.

Lemma updateMetrics_type_errors (signals : value) :
  page_type_errors_only (updateMetrics signals).
Proof.
  intros d d' e. unfold updateMetrics.
  destruct (_ ≫= _) as [len|e1] eqn:E1.
  2:{ intros [= _ <-]. revert E1. type_errors. }
  clear E1. destruct (gt len pzero); [|intros H; discriminate H].
  destruct (_ ≫= _) as [m|e2] eqn:E2; [intros H; discriminate H|].
  intros [= _ <-]. revert E2. apply bind_type_errors; [apply as_array_type_errors|].
  intros items. apply computeMetrics_type_errors.
Qed.

Lemma renderDashboard_type_errors (u s p t : value) :
  page_type_errors_only (renderDashboard u s p t).
Proof.
  unfold renderDashboard.
  repeat first
    [ apply write_type_errors
    | apply updateMetrics_type_errors
    | apply lift_type_errors;
      first [ apply regimeOf_type_errors | apply DOMString_type_errors
            | apply Get_type_errors | apply as_array_type_errors
            | apply renderSignalsTable_type_errors
            | apply mapM_type_errors; intros ?;
              first [apply renderClientCard_type_errors | apply renderStressCard_type_errors] ]
    | apply page_bind_type_errors; [|intros ?] ].
Qed.

End FailureFacts.

Import FailureFacts.

(** X7. When rendering the four responses raises an exception it is a
    TypeError (a malformed portfolio, signal or scenario; a response that
    is null), and the refresh ends as for an unreachable backend: the
    regime badge shows the dash, the client grid the message that tells how
    to start the backend, the signal and stress panels are empty.  The
    metric tiles are not put back: when the regime and the metrics were
    written before the exception they keep the new values. *)
Theorem X7_render_failure (u s p t : value) (d d' : dom) (e : exn) :
  renderDashboard u s p t d = (d', Throw e) ->
  e = TypeError /\
  panels (renderOrFail u s p t d) = failurePanels /\
  tiles (renderOrFail u s p t d) = tiles d' /\
  screens (renderOrFail u s p t d) = screens d /\
  (forall regime text signals d1,
     regimeOf u s = Ok regime -> DOMString regime = Ok text ->
     Get s "signals" = Ok signals ->
     updateMetrics (or_else signals (VArr [])) (set_metricRegime text (set_regimeBadge text d))
     = (d1, Ok ()) ->
     tiles d' = tiles d1).
Proof.
  intros H.
  pose proof (renderDashboard_type_errors u s p t d d' e H) as ->.
  split; [reflexivity|].
  pose proof (renderOrFail_screens u s p t d) as Hs.
  unfold renderOrFail in *. rewrite H in *.
  destruct (onFailure_page TypeError d') as (_ & Ht & Hp).
  split; [exact Hp|]. split; [exact Ht|]. split; [exact Hs|].
  intros regime text signals d1 Hr Hx Hg Hu.
  unfold renderDashboard in H. cbv zeta in H.
  unfold mbind, M_bind, lift, write in H.
  rewrite Hr, Hx, Hg, Hu in H.
  repeat match type of H with
         | context [match ?r with Ok _ => _ | Throw _ => _ end] => destruct r
         end;
    injection H as <-; reflexivity.
Qed.

(** At four responses that are all there, with a portfolio that has
    lost its drift mapping: the tiles show the new metrics and the panels
    the failure. *)
Lemma X7_render_failure_witness :
  renderDashboard universe1 signals1 portfolios_without_drift stress1 page0
  = ((renderDashboard universe1 signals1 portfolios_without_drift stress1 page0).1,
     Throw TypeError) /\
  panels (renderOrFail universe1 signals1 portfolios_without_drift stress1 page0)
  = failurePanels /\
  tiles (renderOrFail universe1 signals1 portfolios_without_drift stress1 page0)
  = (Some "STRESS", Some "20.0%", Some "1", Some "2.00").
Proof.
  assert (H : renderDashboard universe1 signals1 portfolios_without_drift stress1 page0
              = ((renderDashboard universe1 signals1 portfolios_without_drift stress1 page0).1,
                 Throw TypeError)) by (vm_compute; reflexivity).
  split; [exact H|].
  destruct (X7_render_failure _ _ _ _ _ _ _ H) as (_ & Hp & Ht & _).
  split; [exact Hp|]. rewrite Ht. vm_compute. reflexivity.
Defined.

(** ** What a refresh leaves alone *)

Module FrameFacts.

Import CycleFacts.

Lemma views_lift {A} (r : result A) : keeps_views (lift r).
Proof. intros d. reflexivity. Qed.

Lemma views_write (f : dom -> dom) :
  (forall d, views (f d) = views d) -> keeps_views (write f).
Proof. intros H d. apply H. Qed.

Lemma views_bind {A B} (m : M A) (k : A -> M B) :
  keeps_views m -> (forall a, keeps_views (k a)) -> keeps_views (m ≫= k).
Proof.
  intros Hm Hk d. unfold mbind, M_bind. specialize (Hm d).
  destruct (m d) as [d' [a|e]]; cbn [fst] in *; [rewrite Hk|]; exact Hm.
Qed.

Lemma views_updateMetrics (signals : value) : keeps_views (updateMetrics signals).
Proof.
  intros d. unfold updateMetrics.
  destruct (_ ≫= _) as [len|e]; [|reflexivity].
  destruct (gt len pzero); [|reflexivity].
  destruct (_ ≫= _) as [m|e]; [|reflexivity].
  unfold showMetrics. destruct (isFinite (avgIv m)), (isFinite (maxIvr m)); reflexivity.
Qed.

Lemma views_renderDashboard (u s p t : value) : keeps_views (renderDashboard u s p t).
Proof.
  unfold renderDashboard.
  repeat first
    [ apply views_lift
    | apply views_updateMetrics
    | apply views_write; intros; reflexivity
    | apply views_bind; [|intros ?] ].
Qed.

Lemma onFailure_views (e : exn) (d : dom) : views (onFailure e d) = views d.
Proof. unfold onFailure. destruct (negb (isSessionExpired e)); reflexivity. Qed.

Lemma renderOrFail_views (u s p t : value) (d : dom) :
  views (renderOrFail u s p t d) = views d.
Proof.
  unfold renderOrFail. pose proof (views_renderDashboard u s p t d) as H.
  destruct (renderDashboard u s p t d) as [d' [a|e]]; cbn [fst] in H; [exact H|].
  rewrite onFailure_views. exact H.
Qed.

(** *** One response *)

Lemma receive_views (p : string) (r : outcome) (w : world) :
  views (document (fetchAPI_receive p r w).1) = views (document w).
Proof.
  rewrite fetchAPI_receive_kind. cbn zeta.
  destruct (kind_of r) as [[]|]; reflexivity.
Qed.

Lemma receive_other_keys (p : string) (r : outcome) (w : world) (k : string) :
  k <> TOKEN_KEY -> localStorage (fetchAPI_receive p r w).1 !! k = localStorage w !! k.
Proof.
  intros Hk. rewrite fetchAPI_receive_kind. cbn zeta.
  destruct (kind_of r) as [[]|]; try reflexivity.
  cbn. apply lookup_delete_ne. congruence.
Qed.

(** What [arrive] does to the page is what the response and then,
    maybe, a handler of the refresh do. *)
Lemma arrive_world (w : world) (c : cycle) (a : endpoint * outcome) :
  exists f : dom -> dom,
    (arrive (w, c) a).1 = with_document f (fetchAPI_receive (path a.1) a.2 w).1 /\
    (forall d, views (f d) = views d) /\ (forall d, screens (f d) = screens d).
Proof.
  destruct a as [ep r]. unfold arrive. cbn [fst snd].
  destruct (fetchAPI_receive (path ep) r w) as [w' res].
  assert (Hid : exists f : dom -> dom,
             w' = with_document f w' /\
             (forall d, views (f d) = views d) /\ (forall d, screens (f d) = screens d)).
  { exists (fun d => d). split; [destruct w'; reflexivity|]. split; reflexivity. }
  destruct c as [got|]; [|exact Hid].
  destruct res as [v|e].
  - destruct (fulfil ep v got) as [gu gs gp gt].
    cbn [universeRes signalsRes portfoliosRes stressRes].
    destruct gu as [u|]; [|exact Hid]. destruct gs as [s|]; [|exact Hid].
    destruct gp as [p|]; [|exact Hid]. destruct gt as [t|]; [|exact Hid].
    exists (renderOrFail u s p t). split; [reflexivity|].
    split; intros d; [apply renderOrFail_views | apply renderOrFail_screens].
  - exists (onFailure e). split; [reflexivity|].
    split; intros d; [apply onFailure_views | apply (onFailure_page e d)].
Qed.

Lemma arrive_views (w : world) (c : cycle) (a : endpoint * outcome) :
  views (document (arrive (w, c) a).1) = views (document w).
Proof.
  destruct (arrive_world w c a) as (f & -> & Hv & _).
  cbn [document with_document]. rewrite Hv. apply receive_views.
Qed.

Lemma arrive_other_keys (w : world) (c : cycle) (a : endpoint * outcome) (k : string) :
  k <> TOKEN_KEY -> localStorage (arrive (w, c) a).1 !! k = localStorage w !! k.
Proof.
  intros Hk. destruct (arrive_world w c a) as (f & -> & _).
  cbn [localStorage with_document]. apply receive_other_keys, Hk.
Qed.

Lemma arrive_not_expired (w : world) (c : cycle) (a : endpoint * outcome) :
  not_expired a ->
  localStorage (arrive (w, c) a).1 = localStorage w /\
  screens (document (arrive (w, c) a).1) = screens (document w).
Proof.
  intros Ha. destruct (arrive_world w c a) as (f & -> & _ & Hs).
  destruct (receive_other (path a.1) a.2 w Ha) as [H1 H2].
  cbn [localStorage document with_document]. rewrite Hs, H1, H2. split; reflexivity.
Qed.

(** *** All the responses *)

Lemma run_frame (l : list (endpoint * outcome)) : forall w c,
  views (document (fold_left arrive l (w, c)).1) = views (document w) /\
  (forall k, k <> TOKEN_KEY ->
     localStorage (fold_left arrive l (w, c)).1 !! k = localStorage w !! k) /\
  (Forall not_expired l ->
   localStorage (fold_left arrive l (w, c)).1 = localStorage w /\
   screens (document (fold_left arrive l (w, c)).1) = screens (document w)).
Proof.
  induction l as [|a l IH]; intros w c; cbn [fold_left].
  - split; [reflexivity|]. split; [reflexivity|]. split; reflexivity.
  - pose proof (arrive_views w c a) as Hv.
    pose proof (arrive_other_keys w c a) as Hk.
    pose proof (arrive_not_expired w c a) as Hn.
    destruct (arrive (w, c) a) as [w1 c1]. cbn [fst] in *.
    destruct (IH w1 c1) as (IHv & IHk & IHn).
    split; [rewrite IHv; exact Hv|].
    split; [intros k Hne; rewrite (IHk k Hne); apply Hk, Hne|].
    intros Hl. inversion Hl as [|? ? Ha Hl']; subst.
    destruct (IHn Hl') as [H1 H2]. destruct (Hn Ha) as [H3 H4].
    rewrite H1, H2. split; assumption.
Qed.

Lemma loadDashboard_frame (arrivals : list (endpoint * outcome)) (w : world) :
  views (document (loadDashboard arrivals w).1) = views (document w) /\
  trace (loadDashboard arrivals w).1 = trace w ++ requests w ++ settlements arrivals /\
  (forall k, k <> TOKEN_KEY ->
     localStorage (loadDashboard arrivals w).1 !! k = localStorage w !! k) /\
  (Forall not_expired arrivals ->
   localStorage (loadDashboard arrivals w).1 = localStorage w /\
   screens (document (loadDashboard arrivals w).1) = screens (document w)).
Proof.
  rewrite loadDashboard_started.
  destruct (started_world w) as (Hd & Hs & Ht).
  destruct (run_frame arrivals (started w) (Waiting none_yet)) as (Hv & Hk & Hn).
  split; [rewrite Hv, Hd; reflexivity|].
  split; [rewrite run_trace, Ht; symmetry; apply app_assoc|].
  split; [intros k Hne; rewrite (Hk k Hne), Hs; reflexivity|].
  intros Hl. destruct (Hn Hl) as [H1 H2]. rewrite H1, H2, Hs, Hd. split; reflexivity.
Qed.

End FrameFacts.

Import FrameFacts.

(** X8. Whatever the responses are, a refresh leaves the two views as
    they are, sends its four requests before it handles a response, and
    touches no key of the store but the token's.  Unless a response is a
    401 it leaves the token and the two screens as they are too. *)
Theorem X8_refresh_frame (arrivals : list (endpoint * outcome)) (w : world) :
  views (document (loadDashboard arrivals w).1) = views (document w) /\
  trace (loadDashboard arrivals w).1 = trace w ++ requests w ++ settlements arrivals /\
  (forall k, k <> TOKEN_KEY ->
     localStorage (loadDashboard arrivals w).1 !! k = localStorage w !! k) /\
  (Forall not_expired arrivals ->
   localStorage (loadDashboard arrivals w).1 = localStorage w /\
   screens (document (loadDashboard arrivals w).1) = screens (document w)).
Proof. apply loadDashboard_frame. Qed.

(** At a cycle whose second response is a 500. *)
Lemma X8_refresh_frame_witness :
  Forall not_expired [(Signals, Response 200 (Some signals1)); (Universe, Response 500 None)] /\
  localStorage (loadDashboard [(Signals, Response 200 (Some signals1));
                               (Universe, Response 500 None)] world0).1
  = localStorage world0 /\
  screens (document (loadDashboard [(Signals, Response 200 (Some signals1));
                                    (Universe, Response 500 None)] world0).1)
  = ("none", "block").
Proof.
  assert (H : Forall not_expired [(Signals, Response 200 (Some signals1));
                                  (Universe, Response 500 None)])
    by (repeat constructor; discriminate).
  split; [exact H|].
  exact (proj2 (proj2 (proj2 (X8_refresh_frame _ world0))) H).
Defined.

(** X9. Start-up.  Without a token, or with an empty one, the login
    screen is shown and nothing is requested.  With a token the session
    check is the first request and carries it.  When the check fails, for
    whatever reason, the login screen is shown and no dashboard request is
    sent; the token is removed by a 401 only, any other failure keeps it.
    When the check succeeds the dashboard view is shown, the refresh runs
    with the same token, and unless one of its responses is a 401 the
    application screen is up and the token is kept. *)
Theorem X9_start_up (me : outcome) (arrivals : list (endpoint * outcome)) (w : world) :
  let check := [Fetched (API_BASE +:+ "/api/auth/me") (authorization w);
                Settled (API_BASE +:+ "/api/auth/me") me] in
  (authorization w = None -> init me arrivals w = showLogin w) /\
  (authorization w <> None ->
   (forall k, kind_of me = Some k ->
      screens (document (init me arrivals w)) = ("block", "none") /\
      trace (init me arrivals w) = trace w ++ check /\
      panels (document (init me arrivals w)) = panels (document w) /\
      (k = SessionExpired -> getToken (init me arrivals w) = None) /\
      (k <> SessionExpired -> localStorage (init me arrivals w) = localStorage w)) /\
   (kind_of me = None ->
      views (document (init me arrivals w)) = ("block", "none") /\
      trace (init me arrivals w) = trace w ++ check ++ requests w ++ settlements arrivals /\
      (Forall not_expired arrivals ->
       screens (document (init me arrivals w)) = ("none", "block") /\
       localStorage (init me arrivals w) = localStorage w))).
Proof.
  intros check. split.
  { unfold init, authorization. destruct (getToken w) as [token|]; [|reflexivity].
    destruct (bool_decide (token = "")); [reflexivity | discriminate]. }
  intros Hauth.
  assert (Htok : exists token, getToken w = Some token /\ bool_decide (token = "") = false /\
                               authorization w = Some ("Bearer " +:+ token)).
  { unfold authorization in *. destruct (getToken w) as [token|]; [|contradiction].
    exists token. destruct (bool_decide (token = "")); [contradiction|]. repeat split. }
  destruct Htok as (token & Ht & Hb & Ha).
  assert (Hsend : fetchAPI_send "/api/auth/me" w
                  = with_event (Fetched (API_BASE +:+ "/api/auth/me") (authorization w)) w).
  { unfold fetchAPI_send, authorization. reflexivity. }
  unfold init. rewrite Ht, Hb. unfold fetchAPI. rewrite fetchAPI_receive_kind, Hsend.
  cbn zeta. split.
  - intros k Hk. rewrite Hk.
    destruct k; cbn [trace document localStorage showLogin clearToken with_document
                     with_storage with_event getToken];
      (split; [reflexivity|]); (split; [rewrite <- app_assoc; reflexivity|]);
      (split; [reflexivity|]); split; try congruence; try reflexivity.
    intros _. apply lookup_delete_eq.
  - intros Hk. rewrite Hk.
    destruct (succeeded_body me Hk) as (status & v & ->).
    set (w1 := showView "dashboard" (showApp _)).
    destruct (loadDashboard_frame arrivals w1) as (Hv & Htr & _ & Hn).
    split; [rewrite Hv; reflexivity|].
    split.
    { rewrite Htr.
      assert (E1 : trace w1 = (trace w ++ [Fetched (API_BASE +:+ "/api/auth/me")
                                                   (authorization w)])
                              ++ [Settled (API_BASE +:+ "/api/auth/me")
                                          (Response status (Some v))]) by reflexivity.
      assert (E2 : requests w1 = requests w) by reflexivity.
      rewrite E1, E2, <- !app_assoc. reflexivity. }
    intros Hl. destruct (Hn Hl) as [H1 H2]. rewrite H1, H2. split; reflexivity.
Qed.

(** At a session check that is answered 500: the login screen is shown
    and the token is still there. *)
Lemma X9_start_up_witness :
  authorization world0 <> None /\
  kind_of (Response 500 None) = Some (APIError 500) /\
  screens (document (init (Response 500 None) [] world0)) = ("block", "none") /\
  getToken (init (Response 500 None) [] world0) = Some "t0k3n".
Proof.
  assert (H1 : authorization world0 <> None) by (vm_compute; discriminate).
  assert (H2 : kind_of (Response 500 None) = Some (APIError 500)) by reflexivity.
  split; [exact H1|]. split; [exact H2|].
  destruct (proj1 (proj2 (X9_start_up (Response 500 None) [] world0) H1) _ H2)
    as (Hs & _ & _ & _ & Hk).
  split; [exact Hs|]. unfold getToken. rewrite Hk by discriminate. reflexivity.
Defined.

(** ** The handlers *)

Import Page.

Module HandlerFacts.

Import CycleFacts FrameFacts.

(** *** One call of fetchAPI *)

Lemma fetchAPI_trace (p : string) (r : outcome) (w : world) :
  trace (fetchAPI p r w).1
  = trace w ++ [Fetched (API_BASE +:+ p) (authorization w); Settled (API_BASE +:+ p) r].
Proof.
  unfold fetchAPI. rewrite receive_trace. unfold fetchAPI_send, authorization.
  cbn [trace with_event]. rewrite <- app_assoc. reflexivity.
Qed.

Lemma fetchAPI_result (p : string) (r : outcome) (w : world) :
  (fetchAPI p r w).2 =
  match kind_of r with
  | Some k => Throw (raised k)
  | None => match r with Response _ (Some v) => Ok v | _ => Throw SyntaxError end
  end.
Proof. unfold fetchAPI. apply receive_result. Qed.

Lemma fetchAPI_other (p : string) (r : outcome) (w : world) :
  kind_of r <> Some SessionExpired ->
  localStorage (fetchAPI p r w).1 = localStorage w /\
  document (fetchAPI p r w).1 = document w.
Proof.
  intros H. unfold fetchAPI. destruct (receive_other p r (fetchAPI_send p w) H) as [-> ->].
  split; reflexivity.
Qed.

Lemma fetchAPI_expired (p : string) (r : outcome) (w : world) :
  kind_of r = Some SessionExpired ->
  localStorage (fetchAPI p r w).1 = delete TOKEN_KEY (localStorage w) /\
  document (fetchAPI p r w).1 = set_screens "block" "none" (document w).
Proof.
  intros H. unfold fetchAPI. rewrite fetchAPI_receive_kind, H. split; reflexivity.
Qed.

Lemma kind_expired_dec (r : outcome) :
  {kind_of r = Some SessionExpired} + {kind_of r <> Some SessionExpired}.
Proof. destruct (kind_of r) as [[]|]; first [left; reflexivity | right; discriminate]. Qed.

(** *** The session *)

Lemma consistent_same (w w' : world) :
  localStorage w' = localStorage w -> screens (document w') = screens (document w) ->
  session_consistent w -> session_consistent w'.
Proof.
  unfold session_consistent, getToken, screens. intros -> E [H1 H2].
  injection E as -> ->. split; assumption.
Qed.

Lemma consistent_logged_out (w : world) : loggedOut w -> session_consistent w.
Proof.
  unfold loggedOut, session_consistent, screens. intros [Ht [= E1 E2]].
  rewrite E1, E2. split; [left; reflexivity | discriminate].
Qed.

Lemma expired_or_not (l : list (endpoint * outcome)) :
  Forall not_expired l \/ Exists expired l.
Proof.
  induction l as [|a l [IH|IH]]; [left; constructor| |right; constructor 2; exact IH].
  destruct (kind_expired_dec a.2) as [H|H]; [right; constructor 1; exact H|].
  left. constructor; assumption.
Qed.

Lemma run_expired (l : list (endpoint * outcome)) : forall w c,
  Exists expired l -> loggedOut (fold_left arrive l (w, c)).1.
Proof.
  induction l as [|a l IH]; intros w c H; [inversion H|]. cbn [fold_left].
  inversion H as [? ? Ha|? ? Hl]; subst.
  - pose proof (arrive_logged_out w c a (or_intror Ha)) as Hout.
    destruct (arrive (w, c) a) as [w1 c1]. apply run_logged_out, Hout.
  - destruct (arrive (w, c) a) as [w1 c1]. apply IH, Hl.
Qed.

Lemma loadDashboard_expired (arrivals : list (endpoint * outcome)) (w : world) :
  Exists expired arrivals -> loggedOut (loadDashboard arrivals w).1.
Proof. intros H. rewrite loadDashboard_started. apply run_expired, H. Qed.

Lemma loadDashboard_consistent (arrivals : list (endpoint * outcome)) (w : world) :
  session_consistent w -> session_consistent (loadDashboard arrivals w).1.
Proof.
  intros H. destruct (expired_or_not arrivals) as [Hn|He].
  - destruct (loadDashboard_frame arrivals w) as (_ & _ & _ & Hf).
    destruct (Hf Hn) as [H1 H2]. exact (consistent_same w _ H1 H2 H).
  - apply consistent_logged_out, loadDashboard_expired, He.
Qed.

Lemma fetchAPI_consistent (p : string) (r : outcome) (w : world) :
  session_consistent w -> session_consistent (fetchAPI p r w).1.
Proof.
  intros H. destruct (kind_expired_dec r) as [He|Hn].
  - apply consistent_logged_out. unfold fetchAPI.
    apply receive_logged_out. right. exact He.
  - destruct (fetchAPI_other p r w Hn) as [H1 H2].
    apply (consistent_same w); [exact H1 | rewrite H2; reflexivity | exact H].
Qed.

Lemma shown_consistent (token : string) (w : world) :
  session_consistent (showView "dashboard" (showApp (setToken token w))).
Proof.
  split; [right; reflexivity|]. intros _.
  change (getToken (setToken token w) <> None).
  unfold getToken, setToken, with_storage. cbn [localStorage].
  rewrite lookup_insert_eq. discriminate.
Qed.

Lemma init_consistent (me : outcome) (arrivals : list (endpoint * outcome)) (w : world) :
  session_consistent (init me arrivals w).
Proof.
  assert (Hlogin : forall w0, session_consistent (showLogin w0)).
  { intros w0. split; [left; reflexivity | discriminate]. }
  unfold init. destruct (getToken w) as [token|] eqn:Ht; [|apply Hlogin].
  destruct (bool_decide (token = "")); [apply Hlogin|].
  destruct (fetchAPI "/api/auth/me" me w) as [w1 [v|e]] eqn:E; [|apply Hlogin].
  apply loadDashboard_consistent.
  split; [right; reflexivity|]. intros _.
  destruct (kind_expired_dec me) as [He|Hn].
  - pose proof (fetchAPI_result "/api/auth/me" me w) as Hr. rewrite E, He in Hr. discriminate Hr.
  - destruct (fetchAPI_other "/api/auth/me" me w Hn) as [H1 _]. rewrite E in H1.
    cbn [fst] in H1.
    change (getToken w1 <> None). unfold getToken in *. rewrite H1, Ht. discriminate.
Qed.

(** *** What a handler does to the browser state *)

Lemma escapeHtml_text (t : string) :
  escapeHtml (VStr t) = Ok (serialize_text (list_ascii_of_string t)).
Proof. reflexivity. Qed.

Lemma openClientNarrative_page (clientId : string) (r : outcome) (engine : string) (p : page) :
  browser (openClientNarrative clientId r engine p)
  = (fetchAPI ("/api/explain/" +:+ clientId) r (browser p)).1 /\
  forms (openClientNarrative clientId r engine p) = forms p /\
  modalHidden (openClientNarrative clientId r engine p) = "false" /\
  modalBody (openClientNarrative clientId r engine p)
  = match (fetchAPI ("/api/explain/" +:+ clientId) r (browser p)).2 ≫= narrativeHtml with
    | Ok html => html
    | Throw e => narrativeError (serialize_text (list_ascii_of_string (message engine e)))
    end.
Proof.
  unfold openClientNarrative.
  destruct (fetchAPI ("/api/explain/" +:+ clientId) r (browser p)) as [w data].
  cbn [fst snd]. destruct (data ≫= narrativeHtml) as [html|e].
  - repeat split.
  - rewrite escapeHtml_text. repeat split.
Qed.

Lemma loginSubmit_rejected (r : outcome) (arrivals : list (endpoint * outcome))
      (engine : string) (p : page) :
  accepted_login (SubmitLogin r arrivals engine) = false ->
  browser (loginSubmit r arrivals engine p)
  = with_event (Settled (API_BASE +:+ "/api/auth/login") r)
               (with_event (Fetched (API_BASE +:+ "/api/auth/login") None) (browser p)) /\
  loginErrorDisplay (loginSubmit r arrivals engine p) = "block" /\
  modal (loginSubmit r arrivals engine p) = modal p /\
  snd (forms (loginSubmit r arrivals engine p)) = snd (forms p) /\
  snd (fst (forms (loginSubmit r arrivals engine p))) = snd (fst (forms p)).
Proof.
  unfold accepted_login, loginSubmit. intros H.
  destruct r as [|status [data|]]; cbn zeta; cbn [mbind result_bind bind];
    try (repeat split; fail).
  rewrite H. cbn [negb].
  destruct (Get data "detail") as [detail|e]; cbn [mbind result_bind bind];
    [|repeat split].
  destruct (DOMString _) as [text|e]; cbn [mbind result_bind bind]; repeat split.
Qed.

Lemma loginSubmit_browser (r : outcome) (arrivals : list (endpoint * outcome))
      (engine : string) (p : page) :
  let w := with_event (Settled (API_BASE +:+ "/api/auth/login") r)
                      (with_event (Fetched (API_BASE +:+ "/api/auth/login") None) (browser p)) in
  browser (loginSubmit r arrivals engine p) = w \/
  (accepted_login (SubmitLogin r arrivals engine) = true /\
   exists token,
     browser (loginSubmit r arrivals engine p)
     = (loadDashboard arrivals (showView "dashboard" (showApp (setToken token w)))).1).
Proof.
  cbn zeta.
  destruct (accepted_login (SubmitLogin r arrivals engine)) eqn:H;
    [|left; apply (loginSubmit_rejected r arrivals engine p H)].
  unfold accepted_login in H. destruct r as [|status [data|]]; try discriminate H.
  unfold loginSubmit. cbn zeta. cbn [mbind result_bind bind]. rewrite H. cbn [negb].
  destruct (Get data "token") as [tok|e]; cbn [mbind result_bind bind]; [|left; reflexivity].
  destruct (ToString tok) as [token|e]; cbn [mbind result_bind bind]; [|left; reflexivity].
  right. split; [reflexivity|]. exists token. reflexivity.
Qed.

Lemma onboardingSubmit_browser (r : outcome) (arrivals : list (endpoint * outcome))
      (engine : string) (p : page) :
  let w := (fetchAPI "/api/clients" r (browser p)).1 in
  browser (onboardingSubmit r arrivals engine p) = w \/
  (kind_of r = None /\
   browser (onboardingSubmit r arrivals engine p) = (loadDashboard arrivals w).1).
Proof.
  cbn zeta. unfold onboardingSubmit. cbn zeta.
  pose proof (fetchAPI_result "/api/clients" r (browser p)) as Hr.
  change (browser (set_onboardingSuccess _ _ (set_onboardingError _ _ p))) with (browser p).
  destruct (fetchAPI "/api/clients" r (browser p)) as [w res]. cbn [fst snd] in *.
  destruct (_ ≫= _) as [text|e] eqn:E; [|left; reflexivity].
  right. split; [|reflexivity].
  destruct (kind_of r); [|reflexivity]. subst res. discriminate E.
Qed.

(** *** The session is kept consistent *)

Lemma handle_consistent (p : page) (a : action) :
  session_consistent (browser p) -> session_consistent (browser (handle p a)).
Proof.
  intros H. destruct a as [me arrivals|r arrivals engine| |view|clientId r engine| |r arrivals engine];
    cbn [handle].
  - apply init_consistent.
  - destruct (loginSubmit_browser r arrivals engine p) as [->|(_ & token & ->)].
    + apply (consistent_same (browser p)); [reflexivity | reflexivity | exact H].
    + apply loadDashboard_consistent, shown_consistent.
  - split; [left; reflexivity | discriminate].
  - apply (consistent_same (browser p)); [| |exact H].
    + unfold navClick, showView. cbn [browser with_browser].
      destruct (bool_decide _); reflexivity.
    + unfold navClick, showView. cbn [browser with_browser].
      destruct (bool_decide _); reflexivity.
  - rewrite (proj1 (openClientNarrative_page clientId r engine p)).
    apply fetchAPI_consistent, H.
  - exact H.
  - destruct (onboardingSubmit_browser r arrivals engine p) as [->|(_ & ->)].
    + apply fetchAPI_consistent, H.
    + apply loadDashboard_consistent, fetchAPI_consistent, H.
Qed.

Lemma run_consistent (actions : list action) : forall p,
  session_consistent (browser p) -> session_consistent (browser (run actions p)).
Proof.
  induction actions as [|a l IH]; intros p H; [exact H|].
  apply IH, handle_consistent, H.
Qed.

End HandlerFacts.

Import HandlerFacts.

(** X10. From the start of the script on, whatever the events and the
    responses are, as long as each handler ends before the next event: one
    of the login screen and the application screen is shown and the other
    hidden, and the application screen is shown only while a token is
    stored. *)
Theorem X10_session_consistent (me : outcome) (arrivals : list (endpoint * outcome))
        (actions : list action) (p : page) :
  session_consistent (browser (run (Start me arrivals :: actions) p)).
Proof.
  unfold run. cbn [fold_left handle]. apply run_consistent.
  cbn [browser with_browser]. apply init_consistent.
Qed.

(** ** Requests without a token *)

Module AnonymousFacts.

Import CycleFacts FrameFacts HandlerFacts.

Lemma authorization_none (w : world) : getToken w = None -> authorization w = None.
Proof. unfold authorization. intros ->. reflexivity. Qed.

Lemma receive_token_none (p : string) (r : outcome) (w : world) :
  getToken w = None -> getToken (fetchAPI_receive p r w).1 = None.
Proof.
  intros H. rewrite fetchAPI_receive_kind. cbn zeta.
  destruct (kind_of r) as [[]|]; try exact H.
  unfold getToken. cbn. apply lookup_delete_eq.
Qed.

Lemma fetchAPI_anonymous (p : string) (r : outcome) (w : world) :
  getToken w = None ->
  getToken (fetchAPI p r w).1 = None /\
  exists sent, trace (fetchAPI p r w).1 = trace w ++ sent /\ Forall anonymous sent.
Proof.
  intros H. split; [unfold fetchAPI; apply receive_token_none; exact H|].
  eexists. split; [apply fetchAPI_trace|].
  repeat constructor. apply authorization_none, H.
Qed.

Lemma run_token_none (l : list (endpoint * outcome)) : forall w c,
  getToken w = None -> getToken (fold_left arrive l (w, c)).1 = None.
Proof.
  induction l as [|a l IH]; intros w c H; [exact H|]. cbn [fold_left].
  destruct (arrive_world w c a) as (f & E & _).
  destruct (arrive (w, c) a) as [w1 c1]. cbn [fst] in E. apply IH. subst w1.
  change (getToken (fetchAPI_receive (path a.1) a.2 w).1 = None).
  apply receive_token_none, H.
Qed.

Lemma loadDashboard_anonymous (arrivals : list (endpoint * outcome)) (w : world) :
  getToken w = None ->
  getToken (loadDashboard arrivals w).1 = None /\
  exists sent, trace (loadDashboard arrivals w).1 = trace w ++ sent /\ Forall anonymous sent.
Proof.
  intros H. split.
  - rewrite loadDashboard_started. apply run_token_none.
    unfold getToken. rewrite (proj1 (proj2 (started_world w))). exact H.
  - eexists. split; [apply (loadDashboard_frame arrivals w)|].
    apply Forall_app. split.
    + unfold requests. rewrite (authorization_none w H).
      apply Forall_forall. intros e He. apply list_elem_of_fmap in He as (ep & -> & _).
      reflexivity.
    + unfold settlements. apply Forall_forall. intros e He.
      apply list_elem_of_fmap in He as (a & -> & _). exact I.
Qed.

Lemma anonymous_then (w w1 w2 : world) :
  (exists sent, trace w1 = trace w ++ sent /\ Forall anonymous sent) ->
  (exists sent, trace w2 = trace w1 ++ sent /\ Forall anonymous sent) ->
  exists sent, trace w2 = trace w ++ sent /\ Forall anonymous sent.
Proof.
  intros (s1 & E1 & F1) (s2 & E2 & F2). exists (s1 ++ s2).
  split; [rewrite E2, E1, app_assoc; reflexivity|]. apply Forall_app. split; assumption.
Qed.

Lemma anonymous_nothing (w w1 : world) :
  trace w1 = trace w -> exists sent, trace w1 = trace w ++ sent /\ Forall anonymous sent.
Proof. intros E. exists []. split; [rewrite app_nil_r; exact E | constructor]. Qed.

Lemma handle_anonymous (p : page) (a : action) :
  getToken (browser p) = None -> accepted_login a = false ->
  getToken (browser (handle p a)) = None /\
  exists sent, trace (browser (handle p a)) = trace (browser p) ++ sent /\
               Forall anonymous sent.
Proof.
  intros H Ha.
  destruct a as [me arrivals|r arrivals engine| |view|clientId r engine| |r arrivals engine];
    cbn [handle].
  - cbn [browser with_browser]. unfold init. rewrite H.
    split; [exact H | apply anonymous_nothing; reflexivity].
  - rewrite (proj1 (loginSubmit_rejected r arrivals engine p Ha)).
    split; [exact H|]. eexists. split; [cbn [trace with_event]; rewrite <- app_assoc; reflexivity|].
    repeat constructor.
  - split; [apply lookup_delete_eq | apply anonymous_nothing; reflexivity].
  - unfold navClick, showView. cbn [browser with_browser].
    destruct (bool_decide _); (split; [exact H | apply anonymous_nothing; reflexivity]).
  - rewrite (proj1 (openClientNarrative_page clientId r engine p)).
    apply fetchAPI_anonymous, H.
  - split; [exact H | apply anonymous_nothing; reflexivity].
  - destruct (fetchAPI_anonymous "/api/clients" r (browser p) H) as [H1 H2].
    destruct (onboardingSubmit_browser r arrivals engine p) as [->|(_ & ->)].
    + split; assumption.
    + destruct (loadDashboard_anonymous arrivals _ H1) as [H3 H4].
      split; [exact H3|]. exact (anonymous_then _ _ _ H2 H4).
Qed.

Lemma run_anonymous (actions : list action) : forall p,
  getToken (browser p) = None -> Forall (fun a => accepted_login a = false) actions ->
  getToken (browser (run actions p)) = None /\
  exists sent, trace (browser (run actions p)) = trace (browser p) ++ sent /\
               Forall anonymous sent.
Proof.
  induction actions as [|a l IH]; intros p H Hl.
  - split; [exact H | apply anonymous_nothing; reflexivity].
  - inversion Hl as [|? ? Ha Hl']; subst.
    destruct (handle_anonymous p a H Ha) as [H1 H2].
    destruct (IH (handle p a) H1 Hl') as [H3 H4].
    split; [exact H3|]. exact (anonymous_then _ _ _ H2 H4).
Qed.

End AnonymousFacts.

Import AnonymousFacts.

(** X11. After a click on logout no token is stored and no request
    carries an [Authorization] header, whatever is clicked or submitted,
    until the backend accepts a login (each handler ending before the next
    event). *)
Theorem X11_no_token_after_logout (actions : list action) (p : page) :
  Forall (fun a => accepted_login a = false) actions ->
  getToken (browser (run (ClickLogout :: actions) p)) = None /\
  exists sent,
    trace (browser (run (ClickLogout :: actions) p)) = trace (browser p) ++ sent /\
    Forall anonymous sent.
Proof.
  intros H. unfold run. cbn [fold_left handle].
  apply (run_anonymous actions (logoutClick p)); [apply lookup_delete_eq | exact H].
Qed.

(** After the logout: a card is clicked, the script starts again, a
    login is refused. *)
Lemma X11_no_token_after_logout_witness :
  Forall (fun a => accepted_login a = false)
         [ClickCard "c1" (Response 401 None) ""; Start NoResponse [];
          SubmitLogin (Response 401 (Some (VObj [("detail", VStr "Bad credentials")]))) [] ""] /\
  getToken (browser (run [ClickLogout; ClickCard "c1" (Response 401 None) "";
                          Start NoResponse [];
                          SubmitLogin (Response 401 (Some (VObj [("detail",
                                                                   VStr "Bad credentials")])))
                                      [] ""] page1)) = None.
Proof.
  assert (H : Forall (fun a => accepted_login a = false)
                [ClickCard "c1" (Response 401 None) ""; Start NoResponse [];
                 SubmitLogin (Response 401 (Some (VObj [("detail", VStr "Bad credentials")])))
                             [] ""]) by (repeat constructor).
  split; [exact H|]. exact (proj1 (X11_no_token_after_logout _ page1 H)).
Defined.

(** ** The login form *)

(** X12. A login that the backend does not accept (no response, a body
    that is not JSON, a status outside 2xx; a 401 is no exception) stores
    no token and changes neither the screens nor the dashboard: it sends
    one request, without [Authorization] header, and shows the error line
    of the form.  The line holds the [detail] of the response when that is
    a non-empty string, "Invalid email or password" when the response has
    no truthy [detail], and for a failure without a JSON body the text of
    the platform's exception or, when that is empty, "Connection
    failed". *)
Theorem X12_login_rejected (r : outcome) (arrivals : list (endpoint * outcome))
        (engine : string) (p : page) :
  accepted_login (SubmitLogin r arrivals engine) = false ->
  let p' := loginSubmit r arrivals engine p in
  localStorage (browser p') = localStorage (browser p) /\
  document (browser p') = document (browser p) /\
  trace (browser p')
  = trace (browser p) ++ [Fetched (API_BASE +:+ "/api/auth/login") None;
                          Settled (API_BASE +:+ "/api/auth/login") r] /\
  loginErrorDisplay p' = "block" /\
  modal p' = modal p /\
  (forall status data detail,
     r = Response status (Some data) ->
     truthy_field data "detail" = Some (VStr detail) -> loginError p' = detail) /\
  (forall status data,
     r = Response status (Some data) -> present data = true ->
     truthy_field data "detail" = None -> loginError p' = "Invalid email or password") /\
  (r = NoResponse \/ (exists status, r = Response status None) ->
   loginError p' = or_text engine "Connection failed").
Proof.
  intros H p'.
  destruct (loginSubmit_rejected r arrivals engine p H) as (Hb & Hd & Hm & _).
  fold p' in Hb, Hd, Hm. rewrite Hb.
  split; [reflexivity|]. split; [reflexivity|].
  split; [cbn [trace with_event]; rewrite <- app_assoc; reflexivity|].
  split; [exact Hd|]. split; [exact Hm|].
  unfold p', loginSubmit, accepted_login, truthy_field in *. cbn zeta.
  split; [|split].
  - intros status data detail -> Ht. rewrite H. cbn [mbind result_bind bind negb].
    destruct (Get data "detail") as [x|]; [|discriminate Ht].
    cbn [mbind result_bind bind]. unfold or_else.
    destruct (ToBoolean x); [|discriminate Ht]. injection Ht as ->. reflexivity.
  - intros status data -> Hp Ht. rewrite H. cbn [mbind result_bind bind negb].
    destruct (RenderFacts.Get_present data "detail" Hp) as [x Hx]. rewrite Hx in *.
    cbn [mbind result_bind bind]. unfold or_else.
    destruct (ToBoolean x); [discriminate Ht | reflexivity].
  - intros [->|[status ->]]; reflexivity.
Qed.

(** At a 401 with a detail. *)
Lemma X12_login_rejected_witness :
  accepted_login (SubmitLogin (Response 401 (Some (VObj [("detail", VStr "Bad credentials")])))
                              [] "") = false /\
  localStorage (browser (loginSubmit (Response 401 (Some (VObj [("detail",
                                                                  VStr "Bad credentials")])))
                                     [] "" page1))
  = localStorage world0 /\
  loginError (loginSubmit (Response 401 (Some (VObj [("detail", VStr "Bad credentials")])))
                          [] "" page1) = "Bad credentials".
Proof.
  assert (H : accepted_login
                (SubmitLogin (Response 401 (Some (VObj [("detail", VStr "Bad credentials")])))
                             [] "") = false) by reflexivity.
  split; [exact H|].
  destruct (X12_login_rejected _ [] "" page1 H) as (Hs & _ & _ & _ & _ & Ht & _).
  split; [exact Hs|]. exact (Ht _ _ "Bad credentials" eq_refl eq_refl).
Defined.

(** X13. A login that the backend accepts stores the [token] of the
    response as a string (the text "undefined" when the response has no
    token), shows the dashboard view and runs a refresh whose four requests
    carry that token; the login request itself carries none.  Unless a
    response of the refresh is a 401 the application screen is then up and
    the token stored; after a 401 the page is logged out again. *)
Theorem X13_login_accepted (status : N) (data token_value : value) (token : string)
        (arrivals : list (endpoint * outcome)) (engine : string) (p : page) :
  ok status = true -> Get data "token" = Ok token_value -> ToString token_value = Ok token ->
  let r := Response status (Some data) in
  let p' := loginSubmit r arrivals engine p in
  let header := if bool_decide (token = "") then None else Some ("Bearer " +:+ token) in
  trace (browser p')
  = trace (browser p) ++
    [Fetched (API_BASE +:+ "/api/auth/login") None;
     Settled (API_BASE +:+ "/api/auth/login") r] ++
    map (fun ep => Fetched (API_BASE +:+ path ep) header) endpoints ++
    settlements arrivals /\
  views (document (browser p')) = ("block", "none") /\
  loginErrorDisplay p' = "none" /\
  (Forall not_expired arrivals ->
   getToken (browser p') = Some token /\
   screens (document (browser p')) = ("none", "block")) /\
  (Exists expired arrivals -> loggedOut (browser p')).
Proof.
  intros Hok Hg Ht r p' header.
  set (w := with_event (Settled (API_BASE +:+ "/api/auth/login") r)
              (with_event (Fetched (API_BASE +:+ "/api/auth/login") None) (browser p))).
  set (w1 := showView "dashboard" (showApp (setToken token w))).
  assert (E : p' = with_browser (fun _ => (loadDashboard arrivals w1).1)
                     (set_loginError (loginError p) "none" p)).
  { unfold p', loginSubmit, r. cbn zeta. cbn [mbind result_bind bind].
    rewrite Hok, Hg. cbn [negb mbind result_bind bind]. rewrite Ht. reflexivity. }
  rewrite E. cbn [browser with_browser loginErrorDisplay set_loginError].
  destruct (loadDashboard_frame arrivals w1) as (Hv & Htr & _ & Hn).
  split.
  { rewrite Htr.
    assert (E1 : trace w1 = (trace (browser p) ++ [Fetched (API_BASE +:+ "/api/auth/login") None])
                            ++ [Settled (API_BASE +:+ "/api/auth/login") r]) by reflexivity.
    assert (E2 : requests w1 = map (fun ep => Fetched (API_BASE +:+ path ep) header) endpoints).
    { unfold requests, authorization.
      replace (getToken w1) with (Some token); [reflexivity|].
      symmetry. apply lookup_insert_eq. }
    rewrite E1, E2, <- !app_assoc. reflexivity. }
  split; [rewrite Hv; reflexivity|]. split; [reflexivity|].
  split.
  - intros Hl. destruct (Hn Hl) as [H1 H2]. unfold getToken. rewrite H1, H2.
    split; [apply lookup_insert_eq | reflexivity].
  - apply loadDashboard_expired.
Qed.

(** At a response without a token: the text "undefined" is stored and
    sent. *)
Lemma X13_login_accepted_witness :
  ok 200 = true /\ Get (VObj []) "token" = Ok VUndefined /\
  ToString VUndefined = Ok "undefined" /\
  getToken (browser (loginSubmit (Response 200 (Some (VObj []))) [] "" page1))
  = Some "undefined".
Proof.
  assert (H1 : ok 200 = true) by reflexivity.
  assert (H2 : Get (VObj []) "token" = Ok VUndefined) by reflexivity.
  assert (H3 : ToString VUndefined = Ok "undefined") by reflexivity.
  split; [exact H1|]. split; [exact H2|]. split; [exact H3|].
  destruct (X13_login_accepted 200 (VObj []) VUndefined "undefined" [] "" page1 H1 H2 H3)
    as (_ & _ & _ & H & _).
  exact (proj1 (H (List.Forall_nil _))).
Defined.

(** ** The narrative and the onboarding form *)

Module MessageFacts.

Import PrintFacts EscapeFacts CycleFacts HandlerFacts.

(** Characters that escaping leaves alone wherever they stand. *)
Lemma plain_chars (l : list ascii) :
  Forall (fun c => c <> "&"%char /\ c <> "<"%char /\ c <> ">"%char /\ c <> ascii_of_nat 194) l ->
  plain l = true.
Proof.
  induction 1 as [|c l (H1 & H2 & H3 & H4) Hl IH]; [reflexivity|].
  cbn [plain]. rewrite !bool_decide_eq_false_2 by assumption. rewrite IH.
  unfold begins, nbsp. cbn [list_ascii_of_string strip_prefix].
  rewrite bool_decide_eq_false_2 by congruence. reflexivity.
Qed.

Lemma digit_chars (s : string) :
  all_digits s = true ->
  Forall (fun c => c <> "&"%char /\ c <> "<"%char /\ c <> ">"%char /\ c <> ascii_of_nat 194)
         (list_ascii_of_string s).
Proof.
  induction s as [|c s IH]; [constructor|]. cbn [all_digits list_ascii_of_string].
  intros H. apply andb_true_iff in H as [Hc Hs]. constructor; [|exact (IH Hs)].
  repeat split; intros ->; discriminate Hc.
Qed.

(** The text of an API error needs no escaping. *)
Lemma api_error_text (status : N) :
  serialize_text (list_ascii_of_string ("API error: " +:+ digits status))
  = "API error: " +:+ digits status.
Proof.
  rewrite serialize_plain; [apply string_of_list_ascii_of_string|].
  rewrite list_of_append. apply plain_chars, Forall_app. split.
  - repeat constructor; discriminate.
  - apply digit_chars, digits_digits.
Qed.

(** The text of the exception a failed call raises, escaped. *)
Lemma raised_text (engine : string) (k : kind) :
  serialize_text (list_ascii_of_string (message engine (raised k)))
  = match k with
    | SessionExpired => "Session expired"
    | APIError status => "API error: " +:+ digits status
    | Unreachable | Malformed => serialize_text (list_ascii_of_string engine)
    end.
Proof. destruct k; try reflexivity. apply api_error_text. Qed.

Lemma failed_call {A} (p : string) (r : outcome) (w : world) (k : kind)
      (f : value -> result A) :
  kind_of r = Some k -> (fetchAPI p r w).2 ≫= f = Throw (raised k).
Proof. intros H. rewrite fetchAPI_result, H. reflexivity. Qed.

End MessageFacts.

Import MessageFacts.

(** X14. A click on a client card sends one request, carrying the token
    when one is stored, and always ends with the modal open.  It changes
    neither the panels, the tiles and the views of the dashboard nor the
    lines of the forms; unless the response is a 401 it changes neither the
    token nor the screens.  When the call fails the modal holds "Failed to
    load narrative: " and the escaped text of the exception: "Session
    expired" for a 401, which also logs out; "API error: " and the status
    for another status outside 2xx; the platform's text when there was no
    response or no JSON. *)
Theorem X14_narrative_modal (clientId : string) (r : outcome) (engine : string) (p : page) :
  let p' := openClientNarrative clientId r engine p in
  let url := API_BASE +:+ "/api/explain/" +:+ clientId in
  modalHidden p' = "false" /\
  forms p' = forms p /\
  trace (browser p')
  = trace (browser p) ++ [Fetched url (authorization (browser p)); Settled url r] /\
  panels (document (browser p')) = panels (document (browser p)) /\
  tiles (document (browser p')) = tiles (document (browser p)) /\
  views (document (browser p')) = views (document (browser p)) /\
  (kind_of r <> Some SessionExpired ->
   localStorage (browser p') = localStorage (browser p) /\
   document (browser p') = document (browser p)) /\
  (forall k, kind_of r = Some k ->
     modalBody p'
     = narrativeError match k with
                      | SessionExpired => "Session expired"
                      | APIError status => "API error: " +:+ digits status
                      | Unreachable | Malformed => serialize_text (list_ascii_of_string engine)
                      end /\
     (k = SessionExpired -> loggedOut (browser p'))).
Proof.
  intros p' url.
  destruct (openClientNarrative_page clientId r engine p) as (Hb & Hf & Hh & Hm).
  fold p' in Hb, Hf, Hh, Hm. rewrite Hb.
  split; [exact Hh|]. split; [exact Hf|].
  split; [apply fetchAPI_trace|].
  assert (Hd : panels (document (fetchAPI ("/api/explain/" +:+ clientId) r (browser p)).1)
               = panels (document (browser p)) /\
               tiles (document (fetchAPI ("/api/explain/" +:+ clientId) r (browser p)).1)
               = tiles (document (browser p)) /\
               views (document (fetchAPI ("/api/explain/" +:+ clientId) r (browser p)).1)
               = views (document (browser p))).
  { destruct (kind_expired_dec r) as [He|Hn].
    - rewrite (proj2 (fetchAPI_expired _ r (browser p) He)). repeat split.
    - rewrite (proj2 (fetchAPI_other _ r (browser p) Hn)). repeat split. }
  destruct Hd as (H1 & H2 & H3).
  split; [exact H1|]. split; [exact H2|]. split; [exact H3|].
  split; [apply fetchAPI_other|].
  intros k Hk. split.
  - rewrite Hm, (failed_call _ r _ k narrativeHtml Hk), raised_text. reflexivity.
  - intros ->. unfold fetchAPI. apply receive_logged_out. right. exact Hk.
Qed.

(** At a request that is answered 500. *)
Lemma X14_narrative_modal_witness :
  kind_of (Response 500 None) = Some (APIError 500) /\
  modalBody (openClientNarrative "c1" (Response 500 None) "" page1)
  = narrativeError "API error: 500".
Proof.
  assert (H : kind_of (Response 500 None) = Some (APIError 500)) by reflexivity.
  split; [exact H|].
  destruct (X14_narrative_modal "c1" (Response 500 None) "" page1)
    as (_ & _ & _ & _ & _ & _ & _ & Hk).
  exact (proj1 (Hk _ H)).
Defined.

(** X15. An onboarding request that fails shows the error line of the
    form, with the text of the exception ("Session expired", "API error: "
    and the status, or the platform's text, "Failed to add client" when
    that is empty), keeps the success line hidden and starts no refresh:
    one request is sent and the panels, the tiles and the views are as
    before.  Unless the response is a 401, which logs out, the token and
    the screens are as before too. *)
Theorem X15_onboarding_failure (r : outcome) (arrivals : list (endpoint * outcome))
        (engine : string) (p : page) (k : kind) :
  kind_of r = Some k ->
  let p' := onboardingSubmit r arrivals engine p in
  let url := API_BASE +:+ "/api/clients" in
  onboardingErrorDisplay p' = "block" /\
  onboardingError p' = or_text (message engine (raised k)) "Failed to add client" /\
  onboardingSuccessDisplay p' = "none" /\
  trace (browser p')
  = trace (browser p) ++ [Fetched url (authorization (browser p)); Settled url r] /\
  panels (document (browser p')) = panels (document (browser p)) /\
  tiles (document (browser p')) = tiles (document (browser p)) /\
  views (document (browser p')) = views (document (browser p)) /\
  modal p' = modal p /\
  (k <> SessionExpired ->
   localStorage (browser p') = localStorage (browser p) /\
   document (browser p') = document (browser p)) /\
  (k = SessionExpired -> loggedOut (browser p')).
Proof.
  intros Hk p' url.
  pose proof (failed_call "/api/clients" r (browser p) k addedText Hk) as Hf.
  pose proof (fetchAPI_trace "/api/clients" r (browser p)) as Ht.
  assert (E : p' = set_onboardingError (or_text (message engine (raised k))
                                                "Failed to add client") "block"
                     (with_browser (fun _ => (fetchAPI "/api/clients" r (browser p)).1)
                        (set_onboardingSuccess (onboardingSuccess p) "none" p))).
  { unfold p', onboardingSubmit. cbn zeta.
    change (browser (set_onboardingSuccess _ _ (set_onboardingError _ _ p))) with (browser p).
    destruct (fetchAPI "/api/clients" r (browser p)) as [w res]. cbn [fst snd] in *.
    rewrite Hf. reflexivity. }
  rewrite E.
  cbn [browser with_browser set_onboardingError set_onboardingSuccess onboardingErrorDisplay
       onboardingError onboardingSuccessDisplay].
  split; [reflexivity|]. split; [reflexivity|]. split; [reflexivity|].
  split; [exact Ht|].
  assert (Hd : panels (document (fetchAPI "/api/clients" r (browser p)).1)
               = panels (document (browser p)) /\
               tiles (document (fetchAPI "/api/clients" r (browser p)).1)
               = tiles (document (browser p)) /\
               views (document (fetchAPI "/api/clients" r (browser p)).1)
               = views (document (browser p))).
  { destruct (kind_expired_dec r) as [He|Hn].
    - rewrite (proj2 (fetchAPI_expired _ r (browser p) He)). repeat split.
    - rewrite (proj2 (fetchAPI_other _ r (browser p) Hn)). repeat split. }
  destruct Hd as (H1 & H2 & H3).
  split; [exact H1|]. split; [exact H2|]. split; [exact H3|].
  split; [reflexivity|]. split.
  - intros Hne. apply fetchAPI_other. rewrite Hk. congruence.
  - intros ->. unfold fetchAPI. apply CycleFacts.receive_logged_out. right. exact Hk.
Qed.

(** At a request that is answered 401. *)
Lemma X15_onboarding_failure_witness :
  kind_of (Response 401 None) = Some SessionExpired /\
  onboardingError (onboardingSubmit (Response 401 None) [] "" page1) = "Session expired" /\
  loggedOut (browser (onboardingSubmit (Response 401 None) [] "" page1)).
Proof.
  assert (H : kind_of (Response 401 None) = Some SessionExpired) by reflexivity.
  split; [exact H|].
  destruct (X15_onboarding_failure (Response 401 None) [] "" page1 SessionExpired H)
    as (_ & Ht & _ & _ & _ & _ & _ & _ & _ & Hl).
  split; [exact Ht | exact (Hl eq_refl)].
Defined.

(** X16. An onboarding request that succeeds with a client whose name
    and identifier convert shows the success line, whose text holds the
    name as escapeHtml returns it (with its references: the line is set as
    text) and the identifier, keeps the error line hidden and runs a
    refresh after the request.  A response whose client cannot be read
    (null, for one) shows the error line instead and starts no refresh. *)
Theorem X16_onboarding_success (status : N) (client : value)
        (arrivals : list (endpoint * outcome)) (engine : string) (p : page) :
  kind_of (Response status (Some client)) = None ->
  let r := Response status (Some client) in
  let p' := onboardingSubmit r arrivals engine p in
  let url := API_BASE +:+ "/api/clients" in
  (forall text, addedText client = Ok text ->
     onboardingSuccess p' = text /\
     onboardingSuccessDisplay p' = "block" /\
     onboardingErrorDisplay p' = "none" /\
     trace (browser p')
     = trace (browser p) ++ [Fetched url (authorization (browser p)); Settled url r] ++
       requests (browser p) ++ settlements arrivals) /\
  (forall name client_id,
     Get client "name" = Ok (VStr name) -> Get client "client_id" = Ok (VStr client_id) ->
     addedText client
     = Ok ("Added " +:+ serialize_text (list_ascii_of_string name) +:+ " (" +:+ client_id +:+
           "). They will appear in the dashboard.")) /\
  (forall e, addedText client = Throw e ->
     onboardingErrorDisplay p' = "block" /\
     onboardingSuccessDisplay p' = "none" /\
     trace (browser p')
     = trace (browser p) ++ [Fetched url (authorization (browser p)); Settled url r]).
Proof.
  intros Hk r p' url.
  pose proof (fetchAPI_result "/api/clients" r (browser p)) as Hr.
  pose proof (fetchAPI_trace "/api/clients" r (browser p)) as Ht.
  assert (Hn : kind_of r <> Some SessionExpired) by (unfold r; rewrite Hk; discriminate).
  destruct (fetchAPI_other "/api/clients" r (browser p) Hn) as [Hs Hd].
  fold r in Hk. rewrite Hk in Hr. unfold r at 2 in Hr.
  split; [|split].
  - intros text Ha.
    assert (E : p' = with_browser
                       (fun _ => (loadDashboard arrivals
                                    (fetchAPI "/api/clients" r (browser p)).1).1)
                       (set_onboardingSuccess text "block"
                          (set_onboardingError (onboardingError p) "none" p))).
    { unfold p', onboardingSubmit. cbn zeta.
      change (browser (set_onboardingSuccess _ _ (set_onboardingError _ _ p))) with (browser p).
      destruct (fetchAPI "/api/clients" r (browser p)) as [w res]. cbn [fst snd] in *.
      subst res. cbn [mbind result_bind bind]. rewrite Ha. reflexivity. }
    rewrite E. cbn [browser with_browser]. repeat split.
    rewrite (proj1 (proj2 (FrameFacts.loadDashboard_frame arrivals _))), Ht.
    assert (E2 : requests (fetchAPI "/api/clients" r (browser p)).1 = requests (browser p)).
    { unfold requests, authorization, getToken. rewrite Hs. reflexivity. }
    rewrite E2, <- !app_assoc. reflexivity.
  - intros name client_id H1 H2. unfold addedText. rewrite H1, H2. reflexivity.
  - intros e Ha.
    assert (E : p' = set_onboardingError (or_text (message engine e) "Failed to add client")
                       "block"
                       (with_browser (fun _ => (fetchAPI "/api/clients" r (browser p)).1)
                          (set_onboardingSuccess (onboardingSuccess p) "none" p))).
    { unfold p', onboardingSubmit. cbn zeta.
      change (browser (set_onboardingSuccess _ _ (set_onboardingError _ _ p))) with (browser p).
      destruct (fetchAPI "/api/clients" r (browser p)) as [w res]. cbn [fst snd] in *.
      subst res. cbn [mbind result_bind bind]. rewrite Ha. reflexivity. }
    rewrite E. cbn [browser with_browser]. repeat split. exact Ht.
Qed.

(** At a client whose name holds an ampersand: the line shows the
    reference. *)
Lemma X16_onboarding_success_witness :
  kind_of (Response 200 (Some (VObj [("client_id", VStr "c9"); ("name", VStr "Tom & Jerry")])))
  = None /\
  onboardingSuccess
    (onboardingSubmit (Response 200 (Some (VObj [("client_id", VStr "c9");
                                                 ("name", VStr "Tom & Jerry")])))
                      [] "" page1)
  = "Added Tom &amp; Jerry (c9). They will appear in the dashboard.".
Proof.
  assert (H : kind_of (Response 200 (Some (VObj [("client_id", VStr "c9");
                                                 ("name", VStr "Tom & Jerry")]))) = None)
    by reflexivity.
  split; [exact H|].
  destruct (X16_onboarding_success 200 _ [] "" page1 H) as (Ht & _ & _).
  exact (proj1 (Ht _ eq_refl)).
Defined.

Module NarrativeFacts.

Import RenderFacts CardFacts TableFacts.

Lemma fearItem_type_errors (s : value) : type_errors_only (fearItem s).
Proof. unfold fearItem. type_errors. Qed.

Lemma fearList_type_errors (data : value) : type_errors_only (fearList data).
Proof.
  unfold fearList.
  apply bind_type_errors; [apply Get_type_errors|]. intros top.
  apply bind_type_errors; [destruct top; type_errors|]. intros len.
  apply bind_type_errors; [apply ToNumber_type_errors|]. intros n.
  destruct (gt n pzero); [|apply Ok_type_errors].
  apply bind_type_errors; [apply Get_type_errors|]. intros top'.
  apply bind_type_errors; [apply as_array_type_errors|]. intros items.
  apply bind_type_errors; [|intros ?; apply Ok_type_errors].
  apply mapM_type_errors, fearItem_type_errors.
Qed.

Lemma narrativeHtml_type_errors (data : value) : type_errors_only (narrativeHtml data).
Proof.
  unfold narrativeHtml, keyPoint.
  repeat first
    [ apply Ok_type_errors
    | apply fearList_type_errors
    | apply Get_type_errors | apply escapeHtml_type_errors | apply as_array_type_errors
    | apply mapM_type_errors; intros ?
    | apply bind_type_errors; [|intros ?] ].
Qed.

End NarrativeFacts.

Import NarrativeFacts.

(** X17. When the narrative comes in, the modal holds what
    narrativeHtml makes of it; when that raises an exception it is a
    TypeError and the modal holds "Failed to load narrative: " with the
    platform's text.  A narrative without fear signals (the list is
    missing, null or empty) gets the paragraph that says so in place of
    the list; a narrative that is null raises the TypeError. *)
Theorem X17_narrative_content (clientId : string) (status : N) (data : value)
        (engine : string) (p : page) :
  kind_of (Response status (Some data)) = None ->
  let p' := openClientNarrative clientId (Response status (Some data)) engine p in
  (forall html, narrativeHtml data = Ok html -> modalBody p' = html) /\
  (forall e, narrativeHtml data = Throw e ->
     e = TypeError /\
     modalBody p' = narrativeError (serialize_text (list_ascii_of_string engine))) /\
  (forall top, Get data "top_fear_signals" = Ok top ->
     top = VUndefined \/ top = VNull \/ top = VArr [] ->
     fearList data = Ok "<p>No elevated fear signals for this client.</p>") /\
  (present data = false -> narrativeHtml data = Throw TypeError).
Proof.
  intros Hk p'.
  destruct (openClientNarrative_page clientId (Response status (Some data)) engine p)
    as (_ & _ & _ & Hm).
  fold p' in Hm. rewrite fetchAPI_result, Hk in Hm. cbn [mbind result_bind bind] in Hm.
  split; [intros html H; rewrite Hm, H; reflexivity|].
  split.
  { intros e H. pose proof (narrativeHtml_type_errors data e H) as ->.
    split; [reflexivity|]. rewrite Hm, H. reflexivity. }
  split.
  { intros top Hg Ht. unfold fearList. rewrite Hg. cbn [mbind result_bind bind].
    destruct Ht as [->|[->| ->]]; reflexivity. }
  intros Hp. unfold narrativeHtml, fearList.
  rewrite (Get_absent data "top_fear_signals" Hp). reflexivity.
Qed.

(** At a narrative without fear signals and without key points. *)
Lemma X17_narrative_content_witness :
  kind_of (Response 200 (Some (VObj [("title", VStr "Ada"); ("regime", VStr "STRESS");
                                     ("body", VStr "Volatility is priced in.")]))) = None /\
  exists html,
    narrativeHtml (VObj [("title", VStr "Ada"); ("regime", VStr "STRESS");
                         ("body", VStr "Volatility is priced in.")]) = Ok html /\
    modalBody (openClientNarrative "c1"
                 (Response 200 (Some (VObj [("title", VStr "Ada"); ("regime", VStr "STRESS");
                                            ("body", VStr "Volatility is priced in.")])))
                 "" page1) = html.
Proof.
  assert (H : kind_of (Response 200 (Some (VObj [("title", VStr "Ada");
                                                 ("regime", VStr "STRESS");
                                                 ("body", VStr "Volatility is priced in.")])))
              = None) by reflexivity.
  split; [exact H|].
  destruct (X17_narrative_content "c1" 200 _ "" page1 H) as (Hh & _).
  eexists. split; [vm_compute; reflexivity|]. apply Hh. vm_compute. reflexivity.
Defined.

(** ** The text of the metric tiles *)

Module TileFacts.

Import NumFacts PrintFacts MetricFacts.

Lemma starts_append (a b : string) :
  starts_with_digit a = true -> starts_with_digit (a +:+ b) = true.
Proof. destruct a as [|c a]; [discriminate|]. intros H. exact H. Qed.

Lemma digits_start (n : N) : starts_with_digit (digits n) = true.
Proof.
  destruct (digits_digits n) as [Hd Hne].
  destruct (digits n) as [|c s]; [contradiction|].
  cbn [all_digits] in Hd. apply andb_true_iff in Hd as [Hc _]. exact Hc.
Qed.

Lemma substring_start (m : string) (k : nat) :
  starts_with_digit m = true -> (0 < k)%nat -> starts_with_digit (substring 0 k m) = true.
Proof.
  destruct m as [|c m]; [discriminate|]. destruct k as [|k]; [lia|]. intros H _. exact H.
Qed.

Lemma zeros_start (k : nat) (m : string) :
  starts_with_digit m = true -> starts_with_digit (zeros k +:+ m) = true.
Proof. destruct k as [|k]; intros H; [exact H | reflexivity]. Qed.

Lemma fixed_point_start (n : N) (f : nat) : starts_with_digit (fixed_point n f) = true.
Proof.
  unfold fixed_point. destruct f as [|f]; [apply digits_start|].
  set (m := zeros (S (S f) - String.length (digits n)) +:+ digits n).
  assert (Hm : starts_with_digit m = true) by apply zeros_start, digits_start.
  assert (Hl : (S (S f) <= String.length m)%nat).
  { unfold m. rewrite length_append, (proj2 (zeros_digits _)). lia. }
  apply starts_append, substring_start; [exact Hm | lia].
Qed.

Lemma toString_pos_start (x : float) : starts_with_digit (toString_pos x) = true.
Proof.
  unfold toString_pos. destruct (shortest x 17 1) as [[n k] s].
  pose proof (digits_start (Z.to_N s)) as Hd.
  destruct ((k <=? n) && (n <=? 21)); [apply starts_append, Hd|].
  destruct ((0 <? n) && (n <=? 21)) eqn:E.
  { apply andb_true_iff in E as [E _]. apply Z.ltb_lt in E.
    apply starts_append, substring_start; [exact Hd | lia]. }
  destruct ((-6 <? n) && (n <=? 0)); [reflexivity|].
  destruct (k =? 1); [apply starts_append, Hd|].
  apply starts_append, substring_start; [exact Hd | lia].
Qed.

Lemma number_text_digit (s : string) : starts_with_digit s = true -> number_text s = true.
Proof.
  destruct s as [|c s]; [discriminate|]. cbn [starts_with_digit number_text]. intros H.
  destruct (bool_decide (c = "-"%char)) eqn:E.
  - apply bool_decide_eq_true in E. subst c. discriminate H.
  - rewrite H. reflexivity.
Qed.

Lemma number_text_minus (s : string) :
  starts_with_digit s = true -> number_text ("-" +:+ s) = true.
Proof.
  intros H. change ("-" +:+ s) with (String "-"%char s). cbn [number_text].
  rewrite bool_decide_eq_true_2 by reflexivity. rewrite H. reflexivity.
Qed.

Lemma number_text_append (a b : string) :
  number_text a = true -> number_text (a +:+ b) = true.
Proof.
  assert (Hb : forall s, begins "Infinity" (list_ascii_of_string s) = true ->
                         begins "Infinity" (list_ascii_of_string (s +:+ b)) = true).
  { intros s. unfold begins. rewrite EscapeFacts.list_of_append.
    generalize (list_ascii_of_string "Infinity"), (list_ascii_of_string s).
    induction l as [|c l IH]; intros l0; [reflexivity|].
    destruct l0 as [|c0 l0]; [discriminate|]. cbn [strip_prefix app].
    destruct (bool_decide (c = c0)); [apply IH | discriminate]. }
  destruct a as [|c a]; [discriminate|]. rewrite append_cons. cbn [number_text].
  destruct (bool_decide (c = "-"%char)).
  - intros H. apply orb_true_iff in H as [H|H]; apply orb_true_iff.
    + left. apply starts_append, H.
    + right. apply Hb, H.
  - intros H. apply orb_true_iff in H as [H|H]; apply orb_true_iff; [left; exact H|].
    right. apply (Hb (String c a)), H.
Qed.

(** The text [toFixed] gives for a number that is not NaN. *)
Lemma toFixed_number_text (x : float) (f : nat) :
  isNaN x = false -> number_text (toFixed x f) = true.
Proof.
  destruct x as [s|[]| |s m e]; intros H; try discriminate H; try reflexivity.
  - apply number_text_digit, fixed_point_start.
  - unfold toFixed.
    assert (Hbody : starts_with_digit
                      (if Qle_bool (pow10 21) (to_Q (SFabs (S754_finite s m e)))
                       then toString (SFabs (S754_finite s m e))
                       else fixed_point (round_half_up (to_Q (SFabs (S754_finite s m e))) f) f)
                    = true).
    { destruct (Qle_bool _ _); [apply toString_pos_start | apply fixed_point_start]. }
    destruct s; [apply number_text_minus, Hbody | apply number_text_digit, Hbody].
Qed.

Lemma shr_fexp_nonneg (m e : Z) (l : location) :
  0 <= m -> 0 <= shr_m (fst (shr_fexp prec emax m e l)).
Proof.
  intros Hm. unfold shr_fexp, shr.
  assert (Hrec : shr_m (shr_record_of_loc m l) = m) by (destruct l as [|[]]; reflexivity).
  destruct (fexp prec emax (Zdigits2 m + e) - e) as [|n|n]; cbn [fst];
    try (rewrite Hrec; exact Hm).
  rewrite iter_shr_1_m by (rewrite Hrec; exact Hm). rewrite Hrec.
  apply Z.div_pos; [exact Hm | apply Z.pow_pos_nonneg; lia].
Qed.

Lemma round_nearest_even_nonneg (m : Z) (l : location) :
  0 <= m -> 0 <= round_nearest_even m l.
Proof. intros Hm. destruct l as [|[]]; cbn; try lia. destruct (Z.even m); lia. Qed.

Lemma binary_round_aux_not_nan (s : bool) (m e : Z) (l : location) :
  0 <= m -> isNaN (binary_round_aux prec emax s m e l) = false.
Proof.
  intros Hm. unfold binary_round_aux.
  pose proof (shr_fexp_nonneg m e l Hm) as H1.
  destruct (shr_fexp prec emax m e l) as [mrs' e']. cbn [fst] in H1.
  pose proof (round_nearest_even_nonneg (shr_m mrs') (loc_of_shr_record mrs') H1) as H2.
  pose proof (shr_fexp_nonneg _ e' loc_Exact H2) as H3.
  destruct (shr_fexp prec emax _ e' loc_Exact) as [mrs'' e'']. cbn [fst] in H3.
  destruct (shr_m mrs'') as [|q|q]; try lia; [reflexivity|].
  destruct (e'' <=? emax - prec); reflexivity.
Qed.

(** A hundred times a finite number is not NaN. *)
Lemma percent_not_nan (x : float) : isFinite x = true -> isNaN (mul x c_100) = false.
Proof.
  destruct x as [s| | |s m e]; intros H; try discriminate H; [reflexivity|].
  change c_100 with (S754_finite false 7036874417766400 (-46)).
  unfold mul, SFmul. apply binary_round_aux_not_nan. lia.
Qed.

Lemma write_tile_shows (text : string) (before : option string) :
  text = "—" \/ number_text text = true -> tile_shows before (write_tile text before).
Proof.
  intros H. destruct before as [t|]; [|left; reflexivity]. cbn [write_tile].
  destruct H as [->|H]; [right; left; reflexivity|]. right; right. eauto.
Qed.

Lemma showMetrics_shows (m : metrics) (d : dom) :
  tile_shows (metricAvgIv d) (metricAvgIv (showMetrics m d)) /\
  tile_shows (metricHighFear d) (metricHighFear (showMetrics m d)) /\
  tile_shows (metricMaxIvr d) (metricMaxIvr (showMetrics m d)).
Proof.
  assert (Ha : isFinite (avgIv m) = true ->
               number_text (toFixed (mul (avgIv m) c_100) 1 +:+ "%") = true).
  { intros H. apply number_text_append, toFixed_number_text, percent_not_nan, H. }
  assert (Hm : isFinite (maxIvr m) = true -> number_text (toFixed (maxIvr m) 2) = true).
  { intros H. apply toFixed_number_text, finite_not_nan, H. }
  assert (Hc : number_text (digits (N.of_nat (highFearCount m))) = true)
    by apply number_text_digit, digits_start.
  unfold showMetrics.
  destruct (isFinite (avgIv m)), (isFinite (maxIvr m));
    cbn [metricAvgIv metricHighFear metricMaxIvr set_metricAvgIv set_metricHighFear
         set_metricMaxIvr];
    repeat split;
    first [ apply write_tile_shows; right; auto | left; reflexivity ].
Qed.

End TileFacts.

Import TileFacts.

(** X18. Whatever the signals are, a metric tile shows after the update
    what it showed before, or the dash, or a text that begins as the text
    of a number that is not NaN: the count of fearful signals in decimals,
    the maximum rank with two decimals, the mean implied volatility as a
    percentage.  (The percentage of a finite mean can be Infinity.) *)
Theorem X18_tiles_never_NaN (signals : value) (d : dom) :
  tile_shows (metricAvgIv d) (metricAvgIv (updateMetrics signals d).1) /\
  tile_shows (metricHighFear d) (metricHighFear (updateMetrics signals d).1) /\
  tile_shows (metricMaxIvr d) (metricMaxIvr (updateMetrics signals d).1).
Proof.
  unfold updateMetrics.
  destruct (_ ≫= _) as [len|e]; [|repeat split; left; reflexivity].
  destruct (gt len pzero).
  - destruct (_ ≫= _) as [m|e]; [|repeat split; left; reflexivity].
    apply showMetrics_shows.
  - cbn [fst showNoMetrics metricAvgIv metricHighFear metricMaxIvr set_metricAvgIv
         set_metricHighFear set_metricMaxIvr].
    repeat split; apply write_tile_shows; left; reflexivity.
Qed.

(** At a signal whose implied volatility is 1e307: the mean is finite,
    its percentage is not. *)
Lemma X18_tiles_never_NaN_witness :
  metricAvgIv (updateMetrics (VArr [signal_huge]) page0).1 = Some "Infinity%" /\
  tile_shows (metricAvgIv page0) (Some "Infinity%").
Proof.
  assert (H : metricAvgIv (updateMetrics (VArr [signal_huge]) page0).1 = Some "Infinity%")
    by (vm_compute; reflexivity).
  split; [exact H|]. rewrite <- H.
  exact (proj1 (X18_tiles_never_NaN (VArr [signal_huge]) page0)).
Defined.

(** ** The page after a refresh *)

Module AssignFacts.

Import CycleFacts.

Lemma put_twice (a b : option string) (old : string) :
  put b (put a old) = put (or_earlier b a) old.
Proof. destruct a, b; reflexivity. Qed.

Lemma put_tile_twice (a b : option string) (old : option string) :
  put_tile b (put_tile a old) = put_tile (or_earlier b a) old.
Proof. destruct a, b, old; reflexivity. Qed.

Lemma assign_then (a b : assignment) (d : dom) :
  assign b (assign a d) = assign (then_assign a b) d.
Proof.
  unfold assign, then_assign. cbn.
  rewrite !put_twice, !put_tile_twice. reflexivity.
Qed.

Lemma or_earlier_same (a : option string) : or_earlier a a = a.
Proof. destruct a; reflexivity. Qed.

Lemma assign_twice (a : assignment) (d : dom) : assign a (assign a d) = assign a d.
Proof.
  rewrite assign_then. unfold then_assign. rewrite !or_earlier_same.
  destruct a; reflexivity.
Qed.

Lemma assign_nothing (d : dom) : assign nothing d = d.
Proof. destruct d; reflexivity. Qed.

(** *** The writes of the script *)

Lemma set_regimeBadge_assign (t : string) :
  exists a, forall d, set_regimeBadge t d = assign a d.
Proof.
  exists {| to_loginScreen := None;
          to_appScreen := None;
          to_dashboardSections := None;
          to_onboardingView := None;
          to_regimeBadge := Some t;
          to_clientGrid := None;
          to_signalsBody := None;
          to_stressGrid := None;
          to_metricRegime := None;
          to_metricAvgIv := None;
          to_metricHighFear := None;
          to_metricMaxIvr := None |}.
  intros d. reflexivity.
Qed.

Lemma set_clientGrid_assign (t : string) :
  exists a, forall d, set_clientGrid t d = assign a d.
Proof.
  exists {| to_loginScreen := None;
          to_appScreen := None;
          to_dashboardSections := None;
          to_onboardingView := None;
          to_regimeBadge := None;
          to_clientGrid := Some t;
          to_signalsBody := None;
          to_stressGrid := None;
          to_metricRegime := None;
          to_metricAvgIv := None;
          to_metricHighFear := None;
          to_metricMaxIvr := None |}.
  intros d. reflexivity.
Qed.

Lemma set_signalsBody_assign (t : string) :
  exists a, forall d, set_signalsBody t d = assign a d.
Proof.
  exists {| to_loginScreen := None;
          to_appScreen := None;
          to_dashboardSections := None;
          to_onboardingView := None;
          to_regimeBadge := None;
          to_clientGrid := None;
          to_signalsBody := Some t;
          to_stressGrid := None;
          to_metricRegime := None;
          to_metricAvgIv := None;
          to_metricHighFear := None;
          to_metricMaxIvr := None |}.
  intros d. reflexivity.
Qed.

Lemma set_stressGrid_assign (t : string) :
  exists a, forall d, set_stressGrid t d = assign a d.
Proof.
  exists {| to_loginScreen := None;
          to_appScreen := None;
          to_dashboardSections := None;
          to_onboardingView := None;
          to_regimeBadge := None;
          to_clientGrid := None;
          to_signalsBody := None;
          to_stressGrid := Some t;
          to_metricRegime := None;
          to_metricAvgIv := None;
          to_metricHighFear := None;
          to_metricMaxIvr := None |}.
  intros d. reflexivity.
Qed.

Lemma set_metricRegime_assign (t : string) :
  exists a, forall d, set_metricRegime t d = assign a d.
Proof.
  exists {| to_loginScreen := None;
          to_appScreen := None;
          to_dashboardSections := None;
          to_onboardingView := None;
          to_regimeBadge := None;
          to_clientGrid := None;
          to_signalsBody := None;
          to_stressGrid := None;
          to_metricRegime := Some t;
          to_metricAvgIv := None;
          to_metricHighFear := None;
          to_metricMaxIvr := None |}.
  intros d. reflexivity.
Qed.

Lemma set_metricAvgIv_assign (t : string) :
  exists a, forall d, set_metricAvgIv t d = assign a d.
Proof.
  exists {| to_loginScreen := None;
          to_appScreen := None;
          to_dashboardSections := None;
          to_onboardingView := None;
          to_regimeBadge := None;
          to_clientGrid := None;
          to_signalsBody := None;
          to_stressGrid := None;
          to_metricRegime := None;
          to_metricAvgIv := Some t;
          to_metricHighFear := None;
          to_metricMaxIvr := None |}.
  intros d. reflexivity.
Qed.

Lemma set_metricHighFear_assign (t : string) :
  exists a, forall d, set_metricHighFear t d = assign a d.
Proof.
  exists {| to_loginScreen := None;
          to_appScreen := None;
          to_dashboardSections := None;
          to_onboardingView := None;
          to_regimeBadge := None;
          to_clientGrid := None;
          to_signalsBody := None;
          to_stressGrid := None;
          to_metricRegime := None;
          to_metricAvgIv := None;
          to_metricHighFear := Some t;
          to_metricMaxIvr := None |}.
  intros d. reflexivity.
Qed.

Lemma set_metricMaxIvr_assign (t : string) :
  exists a, forall d, set_metricMaxIvr t d = assign a d.
Proof.
  exists {| to_loginScreen := None;
          to_appScreen := None;
          to_dashboardSections := None;
          to_onboardingView := None;
          to_regimeBadge := None;
          to_clientGrid := None;
          to_signalsBody := None;
          to_stressGrid := None;
          to_metricRegime := None;
          to_metricAvgIv := None;
          to_metricHighFear := None;
          to_metricMaxIvr := Some t |}.
  intros d. reflexivity.
Qed.

Lemma set_screens_assign (login app : string) :
  exists a, forall d, set_screens login app d = assign a d.
Proof.
  exists {| to_loginScreen := Some login;
          to_appScreen := Some app;
          to_dashboardSections := None;
          to_onboardingView := None;
          to_regimeBadge := None;
          to_clientGrid := None;
          to_signalsBody := None;
          to_stressGrid := None;
          to_metricRegime := None;
          to_metricAvgIv := None;
          to_metricHighFear := None;
          to_metricMaxIvr := None |}.
  intros d. reflexivity.
Qed.


Lemma compose_assign (f g : dom -> dom) :
  (exists a, forall d, f d = assign a d) -> (exists b, forall d, g d = assign b d) ->
  exists c, forall d, g (f d) = assign c d.
Proof.
  intros [a Ha] [b Hb]. exists (then_assign a b). intros d.
  rewrite Ha, Hb. apply assign_then.
Qed.

Lemma identity_assign : exists a, forall d : dom, d = assign a d.
Proof. exists nothing. intros d. symmetry. apply assign_nothing. Qed.

Ltac assignment :=
  repeat first
    [ apply identity_assign
    | apply set_regimeBadge_assign | apply set_clientGrid_assign
    | apply set_signalsBody_assign | apply set_stressGrid_assign
    | apply set_metricRegime_assign | apply set_metricAvgIv_assign
    | apply set_metricHighFear_assign | apply set_metricMaxIvr_assign
    | apply set_screens_assign
    | match goal with
      | |- exists c, forall d, ?g (@?f d) = assign c d => apply (compose_assign f g)
      end ].

Lemma onFailure_assign (e : exn) : exists a, forall d, onFailure e d = assign a d.
Proof. unfold onFailure. destruct (negb (isSessionExpired e)); assignment. Qed.

Lemma showMetrics_assign (m : metrics) : exists a, forall d, showMetrics m d = assign a d.
Proof.
  unfold showMetrics. cbv zeta.
  destruct (isFinite (avgIv m)), (isFinite (maxIvr m)); assignment.
Qed.

Lemma showNoMetrics_assign : exists a, forall d, showNoMetrics d = assign a d.
Proof. unfold showNoMetrics. assignment. Qed.

(** *** Code that writes *)

Lemma assigns_lift {A} (r : result A) : assigns (lift r).
Proof. exists nothing, r. intros d. unfold lift. rewrite assign_nothing. reflexivity. Qed.

Lemma assigns_write (f : dom -> dom) :
  (exists a, forall d, f d = assign a d) -> assigns (write f).
Proof. intros [a Ha]. exists a, (Ok ()). intros d. unfold write. rewrite Ha. reflexivity. Qed.

Lemma assigns_bind {A B} (m : M A) (k : A -> M B) :
  assigns m -> (forall x, assigns (k x)) -> assigns (m ≫= k).
Proof.
  intros (a & r & Hm) Hk. destruct r as [x|e].
  - destruct (Hk x) as (b & r' & Hx). exists (then_assign a b), r'. intros d.
    unfold mbind, M_bind. rewrite Hm, Hx, assign_then. reflexivity.
  - exists a, (Throw e). intros d. unfold mbind, M_bind. rewrite Hm. reflexivity.
Qed.

Lemma assigns_updateMetrics (signals : value) : assigns (updateMetrics signals).
Proof.
  unfold assigns, updateMetrics.
  destruct (_ ≫= _) as [len|e].
  2:{ exists nothing, (Throw e). intros d. rewrite assign_nothing. reflexivity. }
  destruct (gt len pzero).
  - destruct (_ ≫= _) as [m|e].
    + destruct (showMetrics_assign m) as [a Ha]. exists a, (Ok ()). intros d.
      rewrite Ha. reflexivity.
    + exists nothing, (Throw e). intros d. rewrite assign_nothing. reflexivity.
  - destruct showNoMetrics_assign as [a Ha]. exists a, (Ok ()). intros d.
    rewrite Ha. reflexivity.
Qed.

Lemma assigns_renderDashboard (u s p t : value) : assigns (renderDashboard u s p t).
Proof.
  unfold renderDashboard.
  repeat first
    [ apply assigns_lift
    | apply assigns_updateMetrics
    | apply assigns_write; assignment
    | apply assigns_bind; [|intros ?] ].
Qed.

Lemma renderOrFail_assign (u s p t : value) :
  exists a, forall d, renderOrFail u s p t d = assign a d.
Proof.
  destruct (assigns_renderDashboard u s p t) as (a & r & H).
  unfold renderOrFail. destruct r as [x|e].
  - exists a. intros d. rewrite H. reflexivity.
  - destruct (onFailure_assign e) as [b Hb]. exists (then_assign a b). intros d.
    rewrite H, Hb. apply assign_then.
Qed.

(** *** The responses *)

Lemma receive_assign (p : string) (r : outcome) :
  exists a, forall w, document (fetchAPI_receive p r w).1 = assign a (document w).
Proof.
  destruct (kind_of r) as [k|] eqn:Hk.
  - destruct k.
    + destruct (set_screens_assign "block" "none") as [a Ha]. exists a. intros w.
      rewrite fetchAPI_receive_kind, Hk. cbn. apply Ha.
    + exists nothing. intros w. rewrite fetchAPI_receive_kind, Hk, assign_nothing. reflexivity.
    + exists nothing. intros w. rewrite fetchAPI_receive_kind, Hk, assign_nothing. reflexivity.
    + exists nothing. intros w. rewrite fetchAPI_receive_kind, Hk, assign_nothing. reflexivity.
  - exists nothing. intros w. rewrite fetchAPI_receive_kind, Hk, assign_nothing. reflexivity.
Qed.

Lemma arrive_assign (c : cycle) (a : endpoint * outcome) :
  exists A c', forall w,
    (arrive (w, c) a).2 = c' /\ document (arrive (w, c) a).1 = assign A (document w).
Proof.
  destruct (receive_assign (path a.1) a.2) as [R HR].
  destruct c as [got|].
  2:{ exists R, Finished. intros w. rewrite arrive_finished. split; [reflexivity | apply HR]. }
  destruct (kind_of a.2) as [k|] eqn:Hk.
  - destruct (onFailure_assign (raised k)) as [F HF].
    exists (then_assign R F), Finished. intros w. rewrite (arrive_failure w got a k Hk).
    split; [reflexivity|]. cbn [fst document with_document].
    rewrite HF, HR. apply assign_then.
  - destruct a as [ep r]. cbn [fst snd] in *.
    destruct (succeeded_body r Hk) as (status & v & ->).
    destruct (fulfil ep v got) as [gu gs gp gt] eqn:Eg.
    assert (Hw : forall w, document (with_event (Settled (API_BASE +:+ path ep)
                                                         (Response status (Some v))) w)
                           = assign nothing (document w))
      by (intros w; rewrite assign_nothing; reflexivity).
    destruct gu as [u|], gs as [s|], gp as [p|], gt as [t|];
      try (exists nothing, (Waiting (fulfil ep v got)); intros w;
           rewrite (arrive_success w got ep status v Hk); cbn zeta; rewrite Eg;
           cbn [universeRes signalsRes portfoliosRes stressRes fst snd];
           split; [reflexivity | apply Hw]).
    destruct (renderOrFail_assign u s p t) as [A HA].
    exists A, Finished. intros w.
    rewrite (arrive_success w got ep status v Hk). cbn zeta. rewrite Eg.
    cbn [universeRes signalsRes portfoliosRes stressRes fst snd].
    split; [reflexivity|]. cbn [document with_document with_event]. apply HA.
Qed.

Lemma run_assign (l : list (endpoint * outcome)) : forall c,
  exists A c', forall w,
    (fold_left arrive l (w, c)).2 = c' /\
    document (fold_left arrive l (w, c)).1 = assign A (document w).
Proof.
  induction l as [|a l IH]; intros c.
  - exists nothing, c. intros w. split; [reflexivity|]. rewrite assign_nothing. reflexivity.
  - destruct (arrive_assign c a) as (A & c1 & HA).
    destruct (IH c1) as (B & c2 & HB).
    exists (then_assign A B), c2. intros w. cbn [fold_left].
    destruct (HA w) as [H1 H2]. destruct (arrive (w, c) a) as [w1 c1'].
    cbn [fst snd] in *. subst c1'. destruct (HB w1) as [H3 H4].
    split; [exact H3|]. rewrite H4, H2. apply assign_then.
Qed.

Lemma loadDashboard_assign (arrivals : list (endpoint * outcome)) :
  exists A c, forall w,
    (loadDashboard arrivals w).2 = c /\
    document (loadDashboard arrivals w).1 = assign A (document w) /\
    forall d, panels (assign A d) = panels (assign A (document w)).
Proof.
  destruct (run_assign arrivals (Waiting none_yet)) as (A & c & HA).
  set (L := {| to_loginScreen := None;
               to_appScreen := None;
               to_dashboardSections := None;
               to_onboardingView := None;
               to_regimeBadge := Some "Loading…";
               to_clientGrid := Some loadingMessage;
               to_signalsBody := Some "";
               to_stressGrid := Some loadingMessage;
               to_metricRegime := None;
               to_metricAvgIv := None;
               to_metricHighFear := None;
               to_metricMaxIvr := None |}).
  assert (HL : forall d, showLoading d = assign L d) by reflexivity.
  exists (then_assign L A), c. intros w. rewrite loadDashboard_started.
  destruct (HA (started w)) as [H1 H2].
  split; [exact H1|]. split.
  - rewrite H2, (proj1 (started_world w)), HL. apply assign_then.
  - intros d. unfold panels, assign, then_assign, L.
    cbn [regimeBadge clientGrid signalsBody stressGrid
         to_regimeBadge to_clientGrid to_signalsBody to_stressGrid].
    destruct (to_regimeBadge A), (to_clientGrid A), (to_signalsBody A), (to_stressGrid A);
      reflexivity.
Qed.

End AssignFacts.

Import AssignFacts.

(** X19. What a refresh leaves on the page is determined by its
    responses and, for the elements it does not write, by the page before:
    the panels after a refresh do not depend on what they showed before,
    how the cycle ends does not depend on the page, and a second refresh
    that receives the same responses leaves the page as the first one
    did. *)
Theorem X19_refresh_idempotent (arrivals : list (endpoint * outcome)) (w w' : world) :
  document (loadDashboard arrivals (loadDashboard arrivals w).1).1
  = document (loadDashboard arrivals w).1 /\
  panels (document (loadDashboard arrivals w').1)
  = panels (document (loadDashboard arrivals w).1) /\
  (loadDashboard arrivals w').2 = (loadDashboard arrivals w).2.
Proof.
  destruct (loadDashboard_assign arrivals) as (A & c & H).
  destruct (H w) as (H1 & H2 & H3). destruct (H w') as (H1' & H2' & _).
  destruct (H (loadDashboard arrivals w).1) as (_ & H2'' & _).
  split; [rewrite H2'', H2; apply assign_twice|].
  split; [rewrite H2', H2; apply H3 | congruence].
Qed.

(** X20. Each handler writes to its own elements only.  The modal is
    touched by a click on a card or on its close button and by nothing
    else; closing it hides it and keeps its body.  The error line of the
    login form is touched by a login only, the two lines of the onboarding
    form by an onboarding only.  A click on a navigation link shows the
    onboarding view for the view "onboarding" and the dashboard for any
    other, and changes nothing else on the page, in the store or on the
    network. *)
Theorem X20_handlers_frame (a : action) (p : page) :
  match a with
  | ClickCard _ _ _ => True
  | CloseModal => modal (handle p a) = ("true", modalBody p) /\ browser (handle p a) = browser p
  | _ => modal (handle p a) = modal p
  end /\
  match a with
  | SubmitLogin _ _ _ => True
  | _ => (forms (handle p a)).1.1 = (forms p).1.1
  end /\
  match a with
  | SubmitOnboarding _ _ _ => True
  | _ => (forms (handle p a)).1.2 = (forms p).1.2 /\ (forms (handle p a)).2 = (forms p).2
  end /\
  match a with
  | ClickNav view =>
      views (document (browser (handle p a)))
      = (if bool_decide (view = "onboarding") then ("none", "block") else ("block", "none")) /\
      screens (document (browser (handle p a))) = screens (document (browser p)) /\
      panels (document (browser (handle p a))) = panels (document (browser p)) /\
      tiles (document (browser (handle p a))) = tiles (document (browser p)) /\
      localStorage (browser (handle p a)) = localStorage (browser p) /\
      trace (browser (handle p a)) = trace (browser p)
  | _ => True
  end.
Proof.
  destruct a as [me arrivals|r arrivals engine| |view|clientId r engine| |r arrivals engine];
    cbn [handle].
  - repeat split.
  - split; [|split; [exact I|split; [|exact I]]].
    + unfold loginSubmit. cbn zeta.
      destruct r as [|status [data|]]; cbn [mbind result_bind bind]; try reflexivity.
      destruct (negb (ok status)).
      * destruct (Get data "detail") as [detail|e]; cbn [mbind result_bind bind];
          [|reflexivity].
        destruct (DOMString _); reflexivity.
      * destruct (Get data "token") as [tok|e]; cbn [mbind result_bind bind]; [|reflexivity].
        destruct (ToString tok); reflexivity.
    + unfold loginSubmit. cbn zeta.
      destruct r as [|status [data|]]; cbn [mbind result_bind bind]; try (split; reflexivity).
      destruct (negb (ok status)).
      * destruct (Get data "detail") as [detail|e]; cbn [mbind result_bind bind];
          [|split; reflexivity].
        destruct (DOMString _); split; reflexivity.
      * destruct (Get data "token") as [tok|e]; cbn [mbind result_bind bind];
          [|split; reflexivity].
        destruct (ToString tok); split; reflexivity.
  - repeat split.
  - split; [reflexivity|]. split; [reflexivity|]. split; [split; reflexivity|].
    unfold navClick, showView. cbn [browser with_browser].
    destruct (bool_decide (view = "onboarding")); repeat split.
  - destruct (openClientNarrative_page clientId r engine p) as (_ & Hf & _).
    split; [exact I|]. rewrite Hf. repeat split.
  - repeat split.
  - split; [|split; [|split; exact I]].
    + unfold onboardingSubmit. cbn zeta.
      destruct (fetchAPI _ _ _) as [w res]. destruct (_ ≫= _); reflexivity.
    + unfold onboardingSubmit. cbn zeta.
      destruct (fetchAPI _ _ _) as [w res]. destruct (_ ≫= _); reflexivity.
Qed.

(** ** Responses that can be rendered *)

Module DashboardFacts.

Import RenderFacts MetricFacts RankFacts CardFacts TableFacts FailureFacts.

Lemma DOMString_convertible (v : value) (s : string) :
  DOMString v = Ok s -> convertible v = true.
Proof.
  unfold DOMString, convertible.
  destruct v; try reflexivity; destruct (ToString _); try reflexivity; discriminate.
Qed.

Lemma DOMString_returns (v : value) :
  convertible v = true -> exists s, DOMString v = Ok s.
Proof.
  unfold DOMString, convertible.
  destruct v; try (intros _; eexists; reflexivity);
    destruct (ToString _); try discriminate; intros _; eexists; reflexivity.
Qed.

Lemma card_printable_iff (portfolio : value) :
  card_printable portfolio = true <-> exists html, renderClientCard portfolio = Ok html.
Proof.
  unfold card_printable. rewrite andb_true_iff. split.
  - intros [H1 H2]. exact (renderClientCard_returns portfolio H1 H2).
  - intros [html H]. exact (renderClientCard_needs portfolio html H).
Qed.

Lemma scenario_printable_iff (scenario : value) :
  scenario_printable scenario = true <-> exists html, renderStressCard scenario = Ok html.
Proof.
  split; [apply renderStressCard_returns|]. intros [html H].
  exact (renderStressCard_needs scenario html H).
Qed.

(** Rendering the elements of an array. *)
Lemma array_returns (p : value -> bool) (f : value -> result string) (v : value) :
  (forall x, p x = true <-> exists y, f x = Ok y) ->
  array_of p v = true <-> exists l htmls, as_array v = Ok l /\ mapM f l = Ok htmls.
Proof.
  intros H. split.
  - destruct v as [| | | | |l|]; try discriminate. cbn [array_of]. intros Hp.
    apply (forallb_returns _ _ _ H) in Hp.
    destruct (mapM_returns _ _ Hp) as (htmls & _ & E). exists l, htmls. split; [reflexivity|exact E].
  - intros (l & htmls & Ha & E). destruct v as [| | | | |l'|]; try discriminate Ha.
    injection Ha as ->. cbn [array_of]. apply (forallb_returns _ _ _ H).
    exact (mapM_needs _ _ _ E).
Qed.

Lemma renderSignalsTable_iff (signals : value) :
  table_printable signals = true <-> exists html, renderSignalsTable signals = Ok html.
Proof.
  unfold renderSignalsTable. change (table_printable signals) with (array_of signal_printable signals).
  rewrite (array_returns _ _ signals signal_printable_iff). split.
  - intros (l & htmls & E1 & E2). rewrite E1. cbn. rewrite E2. eexists. reflexivity.
  - intros [html H]. destruct (as_array signals) as [l|]; [|discriminate H].
    cbn in H. destruct (mapM renderSignalRow l) as [htmls|] eqn:E; [|discriminate H].
    exists l, htmls. split; [reflexivity|exact E].
Qed.

(** The metrics of an array of signals that are there are written. *)
Lemma updateMetrics_returns (signals : value) (d : dom) :
  table_printable signals = true -> exists d', updateMetrics signals d = (d', Ok ()).
Proof.
  destruct signals as [| | | | |l|]; try discriminate. cbn [table_printable]. intros H.
  destruct l as [|s l]; [eexists; reflexivity|].
  assert (Hp : Forall (fun s => present s = true) (s :: l)).
  { apply forallb_Forall in H. eapply Forall_impl; [exact H|]. intros x Hx.
    unfold signal_printable in Hx. rewrite !andb_true_iff in Hx. tauto. }
  destruct (updateMetrics_present (s :: l) d) as (m & _ & E); [discriminate | exact Hp|].
  eexists. exact E.
Qed.

(** What renderClientCard returns begins with the line break of its
    template. *)
Definition first_char (s : string) : option ascii :=
  match s with
  | String c _ => Some c
  | EmptyString => None
  end.

Definition begins_with_break {A} (r : result A) (f : A -> string) : Prop :=
  forall a, r = Ok a -> first_char (f a) = Some (ascii_of_nat 10).

Lemma bind_begins {A B} (r : result A) (k : A -> result B) (f : B -> string) :
  (forall a, begins_with_break (k a) f) -> begins_with_break (r ≫= k) f.
Proof.
  intros H b. destruct r as [a|e]; [apply H | discriminate].
Qed.

Lemma renderClientCard_begins (portfolio : value) :
  begins_with_break (renderClientCard portfolio) id.
Proof.
  unfold renderClientCard. cbv zeta.
  repeat (apply bind_begins; intros ?).
  intros html [= <-]. reflexivity.
Qed.

Lemma cards_begin (l : list value) (cards : list string) :
  mapM renderClientCard l = Ok cards ->
  Forall (fun html => first_char html = Some (ascii_of_nat 10)) cards.
Proof.
  revert cards. induction l as [|x l IH]; intros cards H.
  - injection H as <-. constructor.
  - cbn [mapM] in H. destruct (renderClientCard x) as [y|] eqn:E; [|discriminate H].
    cbn in H. destruct (mapM renderClientCard l) as [ys|]; [|discriminate H].
    injection H as <-. constructor; [exact (renderClientCard_begins x y E) | apply IH; reflexivity].
Qed.

Lemma first_char_append (s s' : string) (c : ascii) :
  first_char s = Some c -> first_char (s +:+ s') = Some c.
Proof. destruct s; [discriminate | intros H; exact H]. Qed.

(** The cards that are written are never the failure message. *)
Lemma cards_not_message (cards : list string) :
  Forall (fun html => first_char html = Some (ascii_of_nat 10)) cards ->
  join "" cards <> unreachableMessage.
Proof.
  intros H E. apply (f_equal first_char) in E.
  destruct H as [|x l Hx _]; [discriminate E|].
  assert (Hj : first_char (join "" (x :: l)) = Some (ascii_of_nat 10)).
  { cbn [join]. destruct l; [exact Hx | apply first_char_append, Hx]. }
  rewrite Hj in E. discriminate E.
Qed.

Lemma renderDashboard_needs (u s p t : value) (d d' : dom) (x : unit) :
  renderDashboard u s p t d = (d', Ok x) -> dashboard_printable u s p t = true.
Proof.
  unfold renderDashboard, dashboard_printable, mbind, M_bind, lift, write. cbv zeta. intros H.
  destruct (regimeOf u s) as [regime|] eqn:E1; [|discriminate H].
  destruct (DOMString regime) as [text|] eqn:E2; [|discriminate H].
  destruct (Get s "signals") as [signals|] eqn:E3; [|discriminate H].
  destruct (updateMetrics (or_else signals (VArr [])) _) as [d1 [[]|]] eqn:E4; [|discriminate H].
  destruct (Get p "portfolios") as [portfolios|] eqn:E5; [|discriminate H].
  destruct (as_array (or_else portfolios (VArr []))) as [l|] eqn:E6; [|discriminate H].
  destruct (mapM renderClientCard l) as [cards|] eqn:E7; [|discriminate H].
  destruct (renderSignalsTable (or_else signals (VArr []))) as [table|] eqn:E8; [|discriminate H].
  destruct (Get t "scenarios") as [scenarios|] eqn:E9; [|discriminate H].
  destruct (as_array (or_else scenarios (VArr []))) as [l'|] eqn:E10; [|discriminate H].
  destruct (mapM renderStressCard l') as [stress|] eqn:E11; [|discriminate H].
  rewrite (DOMString_convertible regime text E2).
  rewrite (proj2 (renderSignalsTable_iff _) (ex_intro _ table E8)).
  rewrite (proj2 (array_returns _ _ _ card_printable_iff)) by eauto.
  rewrite (proj2 (array_returns _ _ _ scenario_printable_iff)) by eauto.
  reflexivity.
Qed.

Lemma renderDashboard_returns (u s p t : value) (d : dom) :
  dashboard_printable u s p t = true ->
  exists d' l cards,
    renderDashboard u s p t d = (d', Ok ()) /\
    mapM renderClientCard l = Ok cards /\ clientGrid d' = join "" cards.
Proof.
  unfold dashboard_printable. intros H.
  destruct (regimeOf u s) as [regime|] eqn:E1; [|discriminate H].
  destruct (Get s "signals") as [signals|] eqn:E3; [|discriminate H].
  destruct (Get p "portfolios") as [portfolios|] eqn:E5; [|discriminate H].
  destruct (Get t "scenarios") as [scenarios|] eqn:E9; [|discriminate H].
  rewrite !andb_true_iff in H. destruct H as [[[H1 H2] H3] H4].
  destruct (DOMString_returns regime H1) as [text E2].
  destruct (updateMetrics_returns _ (set_metricRegime text (set_regimeBadge text d)) H2) as [d1 E4].
  apply renderSignalsTable_iff in H2. destruct H2 as [table E8].
  apply (array_returns _ _ _ card_printable_iff) in H3. destruct H3 as (l & cards & E6 & E7).
  apply (array_returns _ _ _ scenario_printable_iff) in H4. destruct H4 as (l' & stress & E10 & E11).
  exists (set_stressGrid (join "" stress) (set_signalsBody table (set_clientGrid (join "" cards) d1))), l, cards.
  split; [|split; [exact E7 | reflexivity]].
  unfold renderDashboard, mbind, M_bind, lift, write. cbv zeta.
  rewrite E1, E2, E3, E4, E5, E6, E7, E8, E9, E10, E11. reflexivity.
Qed.

End DashboardFacts.

Import DashboardFacts.

(** X21. The rendering of the four responses of a refresh ends without
    an exception exactly when the responses can be rendered: each of them
    is there, the regime converts to text, and the signals, the portfolios
    and the scenarios, where given, are arrays of values the renderers
    print.  Otherwise it raises a TypeError.  The client grid shows the
    message that the API is unreachable exactly in the second case: cards
    that are rendered are never that message. *)
Theorem X21_dashboard_renders (u s p t : value) (d : dom) :
  (exists d', renderDashboard u s p t d =
     (d', if dashboard_printable u s p t then Ok () else Throw TypeError)) /\
  (clientGrid (renderOrFail u s p t d) = unreachableMessage <->
   dashboard_printable u s p t = false).
Proof.
  unfold renderOrFail. destruct (dashboard_printable u s p t) eqn:P.
  - destruct (renderDashboard_returns u s p t d P) as (d' & l & cards & E & Ec & Eg).
    rewrite E. split; [exists d'; reflexivity|]. split; [|discriminate].
    intros F. rewrite Eg in F. destruct (cards_not_message cards (cards_begin l cards Ec) F).
  - destruct (renderDashboard u s p t d) as [d' [x|e]] eqn:E.
    + rewrite (renderDashboard_needs u s p t d d' x E) in P. discriminate P.
    + assert (e = TypeError) as -> by exact (renderDashboard_type_errors u s p t d d' e E).
      split; [exists d'; reflexivity|]. split; [reflexivity|]. intros _. reflexivity.
Qed.
